(** * Curriculum progress tracker: reducer, progress engine, date validator
      and persistence adapter

    A shallow embedding of the TypeScript sources

    - [types/curriculum.ts]            (the domain model),
    - [utils/progressCalculator.ts]    (the progress engine),
    - [context/CurriculumContext.tsx]  (the reducer),
    - [utils/dateValidation.ts]        (the date validator),
    - [utils/localStorage.ts]          (the persistence adapter),

    and of what stands around them: the statistics of the progress engine,
    the date utilities, the change handlers of [components/DatePicker.tsx]
    and [components/CourseRow.tsx], the two effects of the provider and the
    clamp of [components/ProgressBar.tsx]; followed by the properties of the
    specification that concern them, and by further properties of the
    code.

    Conventions of the embedding.

    - A JavaScript [number] that the program uses as a counter, an identifier
      or a percentage is an integer that binary64 represents exactly, of
      magnitude below [2^53], and is a [Z] here.  The one place where
      the program leaves the integers is the quotient
      [(completed / length) * 100] of the progress engine: it is evaluated in
      IEEE-754 binary64, with Rocq's primitive floats, and brought back to
      [Z] by [Math_round].
    - A [Date] object is its time value: a number of milliseconds since the
      epoch, or NaN for an invalid date.
    - An optional field or parameter ([x?: T], [T | undefined | null]) is an
      [option].
    - A string is a sequence of bytes, the UTF-8 encoding of its text.
    - A plain JavaScript object is the list of its own properties in the
      order of their enumeration; a read that finds no own property goes on
      to [Object.prototype], or to [Array.prototype] for an array.
    - The built-in functions the adapter calls are written out, so that the
      embedding runs on concrete records: [JSON.stringify] and [JSON.parse]
      on the values of section 6, [toISOString] in section 7.  What
      ECMA-262 leaves to the engine is a parameter: the time zone, and
      [new Date(text)] on a string, of which the adapter needs that it reads
      back the strings of [toISOString].
    - [localStorage] is a finite map from keys to strings together with a
      script of the failures its next operations will meet; a computation
      that uses it threads the store and may throw. *)

From Stdlib Require Import ZArith List Bool Ascii String.
From Stdlib Require Import PrimFloat FloatOps SpecFloat Uint63.
From stdpp Require Import base option list strings pretty gmap.

Local Open Scope string_scope.
Local Open Scope Z_scope.

(* ===================================================================== *)
(** * 1. JavaScript numbers                                              *)
(* ===================================================================== *)

(** The binary64 value of an integer.  Counters of the program are array
    lengths, below [2^32], and are represented exactly. *)
Definition float_of_Z (z : Z) : float := PrimFloat.of_uint63 (Uint63.of_Z z).

(** [Math.round]: the integer nearest to [x], ties going towards
    [+infinity]; that is, [floor (x + 1/2)] computed without rounding error.
    A finite binary64 number is [m * 2^e] for an integer mantissa [m].
    [Math.round] leaves NaN and the infinities as they are; the engine only
    rounds quotients of a counter by a non-zero counter, which are finite,
    and the last case is never reached from this program. *)
Definition Math_round (x : float) : Z :=
  match Prim2SF x with
  | S754_finite false m e =>
      if 0 <=? e then Z.pos m * 2 ^ e
      else (2 * Z.pos m + 2 ^ (- e)) / 2 ^ (1 - e)
  | S754_finite true m e =>
      if 0 <=? e then - (Z.pos m * 2 ^ e)
      else (- (2 * Z.pos m) + 2 ^ (- e)) / 2 ^ (1 - e)
  | _ => 0
  end.

(** [(a / b) * 100] as JavaScript evaluates it on two counters. *)
Definition js_ratio_times_100 (a b : Z) : float :=
  PrimFloat.mul (PrimFloat.div (float_of_Z a) (float_of_Z b)) (float_of_Z 100).

(* ===================================================================== *)
(** * 2. Domain model ([types/curriculum.ts])                            *)
(* ===================================================================== *)

(** A [Date] object: an invalid date (time value NaN) or a time value in
    milliseconds since 1970-01-01T00:00:00Z. *)
Inductive Date : Type :=
| InvalidDate
| DateAt (t : Z).

(** [date.getTime()]; [None] is NaN. *)
Definition getTime (d : Date) : option Z :=
  match d with InvalidDate => None | DateAt t => Some t end.

Record Course : Type := mkCourse {
  cId : string;
  cName : string;
  startDate : option Date;
  endDate : option Date;
  completed : bool
}.

Record Week : Type := mkWeek {
  wId : Z;
  title : string;
  courses : list Course;
  progress : Z
}.

Record CurriculumState : Type := mkState {
  weeks : list Week;
  overallProgress : Z
}.

(** The four action kinds of [CurriculumActionType]; [UNKNOWN_ACTION] stands
    for any other tag that reaches the reducer at run time and falls to the
    [default] branch of its [switch]. *)
Inductive CurriculumActionType : Type :=
| SET_START_DATE
| SET_END_DATE
| TOGGLE_COMPLETION
| LOAD_DATA
| UNKNOWN_ACTION (tag : string).

Record Payload : Type := mkPayload {
  weekId : option Z;
  courseId : option string;
  date : option Date;
  data : option CurriculumState
}.

Record CurriculumAction : Type := mkAction {
  type_ : CurriculumActionType;
  payload : Payload
}.

(** Field updates, the object spreads [{ ...course, f: v }] of the source. *)
Definition with_startDate (c : Course) (d : option Date) : Course :=
  mkCourse (cId c) (cName c) d (endDate c) (completed c).
Definition with_endDate (c : Course) (d : option Date) : Course :=
  mkCourse (cId c) (cName c) (startDate c) d (completed c).
Definition with_completed (c : Course) (b : bool) : Course :=
  mkCourse (cId c) (cName c) (startDate c) (endDate c) b.
Definition with_courses (w : Week) (cs : list Course) : Week :=
  mkWeek (wId w) (title w) cs (progress w).
Definition with_progress (w : Week) (p : Z) : Week :=
  mkWeek (wId w) (title w) (courses w) p.
Definition with_weeks (s : CurriculumState) (ws : list Week) : CurriculumState :=
  mkState ws (overallProgress s).

(* ===================================================================== *)
(** * 3. Progress engine ([utils/progressCalculator.ts])                 *)
(* ===================================================================== *)

(** [courses.filter(course => course.completed).length] *)
Definition completedCount (cs : list Course) : Z :=
  Z.of_nat (length (List.filter completed cs)).

Definition calculateWeekProgress (cs : list Course) : Z :=
  if Z.of_nat (length cs) =? 0 then 0
  else Math_round (js_ratio_times_100 (completedCount cs) (Z.of_nat (length cs))).

(** [weeks.reduce((total, week) => total + week.courses.length, 0)] *)
Definition totalCourses (ws : list Week) : Z :=
  fold_left (fun total week => total + Z.of_nat (length (courses week))) ws 0.

Definition totalCompleted (ws : list Week) : Z :=
  fold_left (fun total week => total + completedCount (courses week)) ws 0.

Definition calculateOverallProgress (ws : list Week) : Z :=
  if totalCourses ws =? 0 then 0
  else Math_round (js_ratio_times_100 (totalCompleted ws) (totalCourses ws)).

Definition updateAllProgress (state : CurriculumState) : CurriculumState :=
  let updatedWeeks :=
    map (fun week => with_progress week (calculateWeekProgress (courses week)))
        (weeks state) in
  mkState updatedWeeks (calculateOverallProgress updatedWeeks).

(** The percentage the specification writes, [round (100 * c / n)], over the
    rationals: the nearest integer, a tie going up ([Math.round] on the exact
    quotient) ... *)
Definition round_percent (c n : Z) : Z := (200 * c + n) / (2 * n).

(** ... or a tie going to the even neighbour, which the specification
    accepts as well. *)
Definition round_percent_half_even (c n : Z) : Z :=
  let q := (100 * c) / n in
  let r := (100 * c) mod n in
  if 2 * r <? n then q
  else if n <? 2 * r then q + 1
  else if Z.even q then q else q + 1.

(** The derived-value invariant of the specification. *)
Definition week_progress_ok (w : Week) : Prop :=
  progress w =
    if Z.of_nat (length (courses w)) =? 0 then 0
    else round_percent (completedCount (courses w)) (Z.of_nat (length (courses w))).

Definition overall_progress_ok (s : CurriculumState) : Prop :=
  let allCourses := concat (map courses (weeks s)) in
  overallProgress s =
    if Z.of_nat (length allCourses) =? 0 then 0
    else round_percent (completedCount allCourses) (Z.of_nat (length allCourses)).

(* ===================================================================== *)
(** * 4. Reducer ([context/CurriculumContext.tsx])                       *)
(* ===================================================================== *)

(** JavaScript truthiness of the optional payload fields: [!weekId] holds of
    [undefined] and of [0]; [!courseId] of [undefined] and of the empty
    string; a [Date] or a state object is truthy whenever it is there. *)
Definition truthy_number (x : option Z) : bool :=
  match x with Some n => negb (n =? 0) | None => false end.
Definition truthy_string (x : option string) : bool :=
  match x with Some s => negb (String.eqb s "") | None => false end.
Definition truthy_object {A : Type} (x : option A) : bool :=
  match x with Some _ => true | None => false end.

(** [week.id === weekId] and [course.id === courseId] against an optional
    payload field. *)
Definition number_strict_eq (a : Z) (b : option Z) : bool :=
  match b with Some n => a =? n | None => false end.
Definition string_strict_eq (a : string) (b : option string) : bool :=
  match b with Some s => String.eqb a s | None => false end.

(** The common shape of the three course-level transitions: the update [f]
    applied to the courses [courseId] of the weeks [weekId]. *)
Definition updateCourse (state : CurriculumState) (weekId : option Z)
    (courseId : option string) (f : Course -> Course) : CurriculumState :=
  with_weeks state
    (map (fun week =>
            if number_strict_eq (wId week) weekId
            then with_courses week
                   (map (fun course =>
                           if string_strict_eq (cId course) courseId
                           then f course else course)
                        (courses week))
            else week)
         (weeks state)).

Definition curriculumReducer (state : CurriculumState) (action : CurriculumAction)
    : CurriculumState :=
  let p := payload action in
  match type_ action with
  | SET_START_DATE =>
      if negb (truthy_number (weekId p)) || negb (truthy_string (courseId p))
         || negb (truthy_object (date p))
      then state
      else updateAllProgress
             (updateCourse state (weekId p) (courseId p)
                (fun course => with_startDate course (date p)))
  | SET_END_DATE =>
      if negb (truthy_number (weekId p)) || negb (truthy_string (courseId p))
         || negb (truthy_object (date p))
      then state
      else updateAllProgress
             (updateCourse state (weekId p) (courseId p)
                (fun course => with_endDate course (date p)))
  | TOGGLE_COMPLETION =>
      if negb (truthy_number (weekId p)) || negb (truthy_string (courseId p))
      then state
      else updateAllProgress
             (updateCourse state (weekId p) (courseId p)
                (fun course => with_completed course (negb (completed course))))
  | LOAD_DATA =>
      match data p with
      | None => state
      | Some d => updateAllProgress d
      end
  | UNKNOWN_ACTION _ => state
  end.

(** The structural no-op path of the reducer: the [default] branch, or one of
    the guards [if (!weekId || !courseId || !date) return state]. *)
Definition takes_noop_path (action : CurriculumAction) : bool :=
  let p := payload action in
  match type_ action with
  | SET_START_DATE | SET_END_DATE =>
      negb (truthy_number (weekId p) && truthy_string (courseId p)
            && truthy_object (date p))
  | TOGGLE_COMPLETION =>
      negb (truthy_number (weekId p) && truthy_string (courseId p))
  | LOAD_DATA => negb (truthy_object (data p))
  | UNKNOWN_ACTION _ => true
  end.

(** ** Sample states and actions *)

(** A week of forty courses, the first [k] of them completed. *)
Definition fortyCourses (k : nat) : list Course :=
  map (fun i => mkCourse ("1-" ++ pretty (Z.of_nat i)) "course" None None (i <=? k)%nat)
      (seq 1 40).

Definition fortyState (k : nat) : CurriculumState :=
  mkState [mkWeek 1 "week 1" (fortyCourses k) 0] 0.

Definition toggle (w : Z) (c : string) : CurriculumAction :=
  mkAction TOGGLE_COMPLETION (mkPayload (Some w) (Some c) None None).

Definition setStartDate (w : Z) (c : string) (d : Date) : CurriculumAction :=
  mkAction SET_START_DATE (mkPayload (Some w) (Some c) (Some d) None).

Definition setEndDate (w : Z) (c : string) (d : Date) : CurriculumAction :=
  mkAction SET_END_DATE (mkPayload (Some w) (Some c) (Some d) None).

(** 2024-01-15 and 2024-01-20, midnight UTC. *)
Definition jan15 : Date := DateAt 1705276800000.
Definition jan20 : Date := DateAt 1705708800000.

(** A state whose derived fields were not recomputed yet, such as the
    persistence adapter returns: a completed course under [progress: 0]. *)
Definition staleState : CurriculumState :=
  mkState [mkWeek 1 "week 1"
             [mkCourse "1-1" "first" None None true;
              mkCourse "1-2" "second" None None false] 0] 0.

(** The same courses with the derived fields up to date. *)
Definition freshState : CurriculumState :=
  mkState [mkWeek 1 "week 1"
             [mkCourse "1-1" "first" None None true;
              mkCourse "1-2" "second" None None false] 50] 50.

(** A catalog whose first week is numbered 0. *)
Definition zeroCourse : Course := mkCourse "0-1" "intro" None (Some jan15) false.
Definition zeroWeek : Week := mkWeek 0 "week 0" [zeroCourse] 0.
Definition zeroState : CurriculumState := mkState [zeroWeek] 0.

(** A week numbered 1 with a course that ends on 2024-01-15. *)
Definition datedCourse : Course := mkCourse "1-1" "intro" None (Some jan15) false.
Definition datedWeek : Week := mkWeek 1 "week 1" [datedCourse] 0.
Definition datedState : CurriculumState := mkState [datedWeek] 0.

(** A state whose first week is numbered 0 and holds a completed course
    under [progress: 0], followed by a week numbered 1. *)
Definition zeroDoneWeek : Week :=
  mkWeek 0 "week 0" [mkCourse "0-1" "intro" None None true] 0.
Definition zeroFirstState : CurriculumState :=
  mkState [zeroDoneWeek; datedWeek] 0.

(** [LOAD_DATA] with the state [d]. *)
Definition loadData (d : CurriculumState) : CurriculumAction :=
  mkAction LOAD_DATA (mkPayload None None None (Some d)).

(** The three actions that address one course. *)
Definition is_course_action (t : CurriculumActionType) : bool :=
  match t with
  | SET_START_DATE | SET_END_DATE | TOGGLE_COMPLETION => true
  | _ => false
  end.

(* ===================================================================== *)
(** * 5. Date validator ([utils/dateValidation.ts])                      *)
(* ===================================================================== *)

Inductive ErrorType : Type :=
| INVALID_FORMAT
| START_AFTER_END
| FUTURE_DATE
| INVALID_RANGE
| REQUIRED_FIELD.

Record DateValidationResult : Type := mkResult {
  isValid : bool;
  errorMessage : string;
  errorType : option ErrorType
}.

(** The table of messages, [DEFAULT_ERROR_MESSAGES] and the optional
    [customMessages] alike; a field that is [None] is an absent property. *)
Record Messages : Type := mkMessages {
  msgRequired : option string;
  msgInvalidFormat : option string;
  msgStartAfterEnd : option string;
  msgFutureDate : option string;
  msgPastDate : option string;
  msgFutureDateNotAllowed : option string;
  msgBeforeMin : option string;
  msgAfterMax : option string
}.

Record DateValidationOptions : Type := mkOptions {
  required : option bool;
  minDate : option Date;
  maxDate : option Date;
  warnFutureDates : option bool;
  requireFutureDates : option bool;
  disallowFutureDates : option bool;
  customMessages : option Messages
}.

(** [options = {}] *)
Definition noOptions : DateValidationOptions :=
  mkOptions None None None None None None None.

Definition DEFAULT_ERROR_MESSAGES : Messages :=
  mkMessages
    (Some "날짜를 입력해주세요.")
    (Some "올바른 날짜 형식이 아닙니다.")
    (Some "시작일은 종료일보다 이전이어야 합니다.")
    (Some "미래 날짜는 권장되지 않습니다.")
    (Some "미래 날짜만 선택할 수 있습니다.")
    (Some "미래 날짜는 선택할 수 없습니다.")
    (Some "날짜는 {minDate} 이후여야 합니다.")
    (Some "날짜는 {maxDate} 이전이어야 합니다.").

(** [{ ...DEFAULT_ERROR_MESSAGES, ...options.customMessages }]: a property of
    the second object overrides the property of the first. *)
Definition override {A : Type} (base over : option A) : option A :=
  match over with Some x => Some x | None => base end.

Definition spreadMessages (base : Messages) (over : option Messages) : Messages :=
  match over with
  | None => base
  | Some o =>
      mkMessages
        (override (msgRequired base) (msgRequired o))
        (override (msgInvalidFormat base) (msgInvalidFormat o))
        (override (msgStartAfterEnd base) (msgStartAfterEnd o))
        (override (msgFutureDate base) (msgFutureDate o))
        (override (msgPastDate base) (msgPastDate o))
        (override (msgFutureDateNotAllowed base) (msgFutureDateNotAllowed o))
        (override (msgBeforeMin base) (msgBeforeMin o))
        (override (msgAfterMax base) (msgAfterMax o))
  end.

(** [messages.required!]: the message, once the table is merged. *)
Definition message (m : option string) : string := default ""%string m.

(** Truthiness of an optional boolean flag. *)
Definition truthy_flag (b : option bool) : bool :=
  match b with Some true => true | _ => false end.

(** [isNaN(date.getTime())] *)
Definition isNaN_time (d : Date) : bool :=
  match getTime d with None => true | Some _ => false end.

(** [a < b] and [a > b] on two [Date] objects compare their time values, and
    are false as soon as one of them is NaN. *)
Definition Date_lt (a b : Date) : bool :=
  match getTime a, getTime b with
  | Some x, Some y => x <? y
  | _, _ => false
  end.
Definition Date_gt (a b : Date) : bool := Date_lt b a.
(** [a <= b] *)
Definition Date_le (a b : Date) : bool :=
  match getTime a, getTime b with
  | Some x, Some y => x <=? y
  | _, _ => false
  end.

(** [s.replace(pattern, by)] for a string pattern: the first occurrence is
    replaced.  The replacement is a formatted date, free of the [$] patterns
    that [replace] would expand. *)
Fixpoint replace_first (pattern by_ s : string) : string :=
  if String.prefix pattern s
  then by_ ++ String.substring (String.length pattern)
                (String.length s - String.length pattern) s
  else match s with
       | EmptyString => EmptyString
       | String c rest => String c (replace_first pattern by_ rest)
       end.

(** What the validator asks of its host: the clock, the start of the local
    day of an instant ([setHours(0, 0, 0, 0)]), and the Korean rendering of a
    date ([toLocaleDateString('ko-KR')]). *)
Record Host : Type := mkHost {
  currentTime : Z;
  startOfLocalDay : Z -> Z;
  toLocaleDateString_koKR : Date -> string
}.

Section DateValidator.

Variable host : Host.

(** [new Date()] *)
Definition newDate : Date := DateAt (currentTime host).

Definition getTodayAtMidnight : Date :=
  DateAt (startOfLocalDay host (currentTime host)).

Definition valid_result : DateValidationResult := mkResult true "" None.

Definition validateDate (date : option Date) (options : DateValidationOptions)
    : DateValidationResult :=
  let messages := spreadMessages DEFAULT_ERROR_MESSAGES (customMessages options) in
  if truthy_flag (required options) && negb (truthy_object date)
  then mkResult false (message (msgRequired messages)) (Some REQUIRED_FIELD)
  else
  match date with
  | None => valid_result
  | Some date =>
    if isNaN_time date
    then mkResult false (message (msgInvalidFormat messages)) (Some INVALID_FORMAT)
    else
    if match minDate options with
       | Some minDate => Date_lt date minDate | None => false end
    then
      let minDateStr :=
        toLocaleDateString_koKR host (default InvalidDate (minDate options)) in
      mkResult false
        (replace_first "{minDate}" minDateStr (message (msgBeforeMin messages)))
        (Some INVALID_RANGE)
    else
    if match maxDate options with
       | Some maxDate => Date_gt date maxDate | None => false end
    then
      let maxDateStr :=
        toLocaleDateString_koKR host (default InvalidDate (maxDate options)) in
      mkResult false
        (replace_first "{maxDate}" maxDateStr (message (msgAfterMax messages)))
        (Some INVALID_RANGE)
    else
    if truthy_flag (disallowFutureDates options)
       && Date_gt date getTodayAtMidnight
    then mkResult false (message (msgFutureDateNotAllowed messages))
           (Some FUTURE_DATE)
    else
    if truthy_flag (requireFutureDates options)
       && Date_le date getTodayAtMidnight
    then mkResult false (message (msgPastDate messages)) (Some FUTURE_DATE)
    else
    if truthy_flag (warnFutureDates options) && Date_gt date newDate
    then mkResult false (message (msgFutureDate messages)) (Some FUTURE_DATE)
    else valid_result
  end.

Definition validateDateRange (startDate endDate : option Date)
    (options : DateValidationOptions) : DateValidationResult :=
  let messages := spreadMessages DEFAULT_ERROR_MESSAGES (customMessages options) in
  match startDate, endDate with
  | Some startDate, Some endDate =>
      if isNaN_time startDate || isNaN_time endDate
      then mkResult false (message (msgInvalidFormat messages))
             (Some INVALID_FORMAT)
      else if Date_gt startDate endDate
      then mkResult false (message (msgStartAfterEnd messages))
             (Some START_AFTER_END)
      else valid_result
  | _, _ => valid_result
  end.

Definition validateCourseDate (date otherDate : option Date)
    (isStartDate : bool) (options : DateValidationOptions)
    : DateValidationResult :=
  let singleDateValidation := validateDate date options in
  if negb (isValid singleDateValidation) then singleDateValidation
  else
  match date, otherDate with
  | Some _, Some _ =>
      let startDate := if isStartDate then date else otherDate in
      let endDate := if isStartDate then otherDate else date in
      let rangeValidation := validateDateRange startDate endDate options in
      if negb (isValid rangeValidation) then rangeValidation
      else valid_result
  | _, _ => valid_result
  end.

End DateValidator.

(** A host for the examples: the clock reads 2024-01-17T12:00:00Z, the local
    time is UTC, and dates are rendered by their time value. *)
Definition sampleHost : Host :=
  mkHost 1705492800000
         (fun t => t - t mod 86400000)
         (fun d => match d with
                   | DateAt t => pretty t
                   | InvalidDate => "Invalid Date"
                   end).

Definition requiredOptions : DateValidationOptions :=
  mkOptions (Some true) None None None None None None.

(* ===================================================================== *)
(** * 6. JavaScript values and JSON                                      *)
(* ===================================================================== *)

(** The value of a JSON number literal, [mantissa * 10 ^ exponent].  The
    program never computes with such a number: it asks for its type and for
    its truthiness. *)
Record Decimal : Type := mkDecimal { mantissa : Z; exponent : Z }.

(** The values that [JSON.parse] builds and [JSON.stringify] reads, and the
    objects of the engine that a property read may find on the prototype
    chain of one of them.

    An object is the list of its own properties, in the order in which the
    engine enumerates them.  Its prototype is not part of the value: the
    objects that the program reads come from [JSON.parse] or from an object
    literal and inherit from [Object.prototype], the arrays from
    [Array.prototype].

    [VBuiltin name] is the built-in object that ECMA-262 knows under
    [name]: a function, such as ["Object.prototype.toString"] or the
    constructor ["Object"], or one of the prototype objects
    ["Object.prototype"] and ["Array.prototype"]. *)
Unset Elimination Schemes.
Inductive value : Type :=
| VUndefined
| VNull
| VBool (b : bool)
| VNum (n : Decimal)
| VStr (s : string)
| VArr (items : list value)
| VObj (fields : list (string * value))
| VBuiltin (name : string).
Set Elimination Schemes.

(** The binary64 number nearest to [m * 10 ^ e] is a zero when [m] is, and
    when the magnitude is at most [2 ^ -1075], half of the least positive
    number. *)
Definition Decimal_is_zero (n : Decimal) : bool :=
  (mantissa n =? 0)
  || ((exponent n <? 0)
      && (Z.abs (mantissa n) * 2 ^ 1075 <=? 10 ^ (- exponent n))).

(** [!!v]; every object is truthy, a function or a prototype as well. *)
Definition truthy (v : value) : bool :=
  match v with
  | VUndefined | VNull => false
  | VBool b => b
  | VNum n => negb (Decimal_is_zero n)
  | VStr s => negb (String.eqb s "")
  | VArr _ | VObj _ | VBuiltin _ => true
  end.

Inductive js_type : Type :=
| type_undefined | type_object | type_boolean | type_number | type_string
| type_function.

(** The two built-in objects of the model that are not functions. *)
Definition is_prototype (name : string) : bool :=
  String.eqb name "Object.prototype" || String.eqb name "Array.prototype".

(** [typeof v]; [null] and arrays are of type ['object']. *)
Definition typeof (v : value) : js_type :=
  match v with
  | VUndefined => type_undefined
  | VNull | VArr _ | VObj _ => type_object
  | VBool _ => type_boolean
  | VNum _ => type_number
  | VStr _ => type_string
  | VBuiltin name => if is_prototype name then type_object else type_function
  end.

Definition is_type (t : js_type) (v : value) : bool :=
  match t, typeof v with
  | type_undefined, type_undefined | type_object, type_object
  | type_boolean, type_boolean | type_number, type_number
  | type_string, type_string | type_function, type_function => true
  | _, _ => false
  end.

Definition is_null (v : value) : bool :=
  match v with VNull => true | _ => false end.

(** ** Characters *)

Definition dquote : ascii := "034"%char.
Definition backslash : ascii := "\"%char.

Definition ascii_eqb (a b : ascii) : bool := Ascii.eqb a b.

Definition code (c : ascii) : N := N_of_ascii c.

Definition is_ws (c : ascii) : bool :=
  (code c =? 32)%N || (code c =? 9)%N || (code c =? 10)%N || (code c =? 13)%N.

Definition is_digit (c : ascii) : bool := (48 <=? code c)%N && (code c <=? 57)%N.

Definition digit_value (c : ascii) : Z := Z.of_N (code c) - 48.

Definition digit_char (d : Z) : ascii := ascii_of_N (Z.to_N (48 + d)).

Definition hex_char (d : N) : ascii :=
  if (d <? 10)%N then ascii_of_N (48 + d) else ascii_of_N (87 + d).

Definition hex_value (c : ascii) : option N :=
  let n := code c in
  if (48 <=? n)%N && (n <=? 57)%N then Some (n - 48)%N
  else if (97 <=? n)%N && (n <=? 102)%N then Some (n - 87)%N
  else if (65 <=? n)%N && (n <=? 70)%N then Some (n - 55)%N
  else None.

(** The digits at the head of a text: their value after [acc], their count,
    and the text that follows. *)
Fixpoint read_digits (acc : Z) (count : nat) (s : string) : Z * nat * string :=
  match s with
  | String c rest =>
      if is_digit c then read_digits (10 * acc + digit_value c) (S count) rest
      else (acc, count, s)
  | EmptyString => (acc, count, s)
  end.

(** [s.length]: the number of UTF-16 code units of the text that the bytes
    of [s] encode, one for a character of one to three bytes and two for a
    character of four bytes.  A byte from 128 to 191 continues a character;
    a byte from 240 starts one of four bytes. *)
Fixpoint utf16_length (s : string) : nat :=
  match s with
  | EmptyString => 0
  | String c rest =>
      ((if (128 <=? code c)%N && (code c <? 192)%N then 0
        else if (240 <=? code c)%N then 2
        else 1) + utf16_length rest)%nat
  end.

(** ** Objects *)

(** The first property named [k] in a list of properties. *)
Fixpoint assoc (k : string) (fields : list (string * value)) : option value :=
  match fields with
  | [] => None
  | (k', v) :: rest => if String.eqb k' k then Some v else assoc k rest
  end.

(** [Object.hasOwn(obj, k)] *)
Definition has_own (k : string) (fields : list (string * value)) : bool :=
  match assoc k fields with Some _ => true | None => false end.

(** The array index that a property name stands for: the name is the
    decimal numeral, without a sign and without a zero ahead of it, of an
    integer from 0 to [2^32 - 2]. *)
Definition array_index (k : string) : option Z :=
  match read_digits 0 0 k with
  | (n, S _, EmptyString) =>
      if String.eqb (pretty n) k && (n <=? 4294967294) then Some n else None
  | _ => None
  end.

(** The order in which the engine enumerates the own properties of an
    object: the array indices first, in ascending order, then the other
    names in the order of their creation.  [precedes k k'] holds when a new
    property [k] goes ahead of the property [k'] that is already there. *)
Definition precedes (k k' : string) : bool :=
  match array_index k, array_index k' with
  | Some i, Some j => i <? j
  | Some _, None => true
  | None, _ => false
  end.

(** A new value for the property [k], where it stands. *)
Fixpoint replace_own (k : string) (v : value) (fields : list (string * value))
    : list (string * value) :=
  match fields with
  | [] => []
  | (k', v') :: rest =>
      if String.eqb k' k then (k, v) :: rest else (k', v') :: replace_own k v rest
  end.

(** A new property [k], at its place in the order of enumeration. *)
Fixpoint insert_own (k : string) (v : value) (fields : list (string * value))
    : list (string * value) :=
  match fields with
  | [] => [(k, v)]
  | (k', v') :: rest =>
      if precedes k k' then (k, v) :: (k', v') :: rest
      else (k', v') :: insert_own k v rest
  end.

(** [CreateDataProperty(obj, k, v)], by which [JSON.parse] and an object
    literal define the own property [k]: it is overwritten where it stands,
    or created. *)
Definition obj_set (k : string) (v : value) (fields : list (string * value))
    : list (string * value) :=
  if has_own k fields then replace_own k v fields else insert_own k v fields.

(** The assignment [obj[k] = v] on an object that inherits from
    [Object.prototype] and that the program owns.  It defines the own
    property [k], but for the name ["__proto__"], which [Object.prototype]
    holds as an accessor: unless the object has an own property of that
    name, the assignment calls the setter, which makes [v] the prototype of
    the object when [v] is an object or [null], and creates no property.
    The prototype that the assignment installs is not recorded: the program
    reads no property off an object that it assigns to, and
    [JSON.stringify] writes own properties only. *)
Definition obj_assign (k : string) (v : value) (fields : list (string * value))
    : list (string * value) :=
  if String.eqb k "__proto__" && negb (has_own k fields) then fields
  else obj_set k v fields.

(** The elements of an array under their index keys ["0"], ["1"], ... *)
Fixpoint index_from (i : nat) (items : list value) : list (string * value) :=
  match items with
  | [] => []
  | x :: rest => (pretty (Z.of_nat i), x) :: index_from (S i) rest
  end.

(** The own enumerable properties of a value, which [for (k in v)] visits.
    The properties that the values of the model inherit are not enumerable,
    and neither is the [length] of an array. *)
Definition entries (v : value) : list (string * value) :=
  match v with
  | VObj fields => fields
  | VArr items => index_from 0 items
  | _ => []
  end.

(** The functions that [Object.prototype] holds besides its [constructor]
    and the accessor [__proto__] ... *)
Definition Object_prototype : list string :=
  ["__defineGetter__"; "__defineSetter__"; "__lookupGetter__";
   "__lookupSetter__"; "hasOwnProperty"; "isPrototypeOf";
   "propertyIsEnumerable"; "toLocaleString"; "toString"; "valueOf"].

(** ... and those of [Array.prototype], as of ECMAScript 2023. *)
Definition Array_prototype : list string :=
  ["at"; "concat"; "copyWithin"; "entries"; "every"; "fill"; "filter"; "find";
   "findIndex"; "findLast"; "findLastIndex"; "flat"; "flatMap"; "forEach";
   "includes"; "indexOf"; "join"; "keys"; "lastIndexOf"; "map"; "pop"; "push";
   "reduce"; "reduceRight"; "reverse"; "shift"; "slice"; "some"; "sort";
   "splice"; "toLocaleString"; "toReversed"; "toSorted"; "toSpliced";
   "toString"; "unshift"; "values"; "with"].

(** What an object that has no own property [k] reads on
    [Object.prototype]: its prototype under the name ["__proto__"], a
    function under the name of a member, and [undefined] otherwise. *)
Definition inherited_from_Object (k : string) : value :=
  if String.eqb k "__proto__" then VBuiltin "Object.prototype"
  else if String.eqb k "constructor" then VBuiltin "Object"
  else if existsb (String.eqb k) Object_prototype
  then VBuiltin ("Object.prototype." ++ k)
  else VUndefined.

(** What an array reads on [Array.prototype], and beyond it on
    [Object.prototype]. *)
Definition inherited_from_Array (k : string) : value :=
  if String.eqb k "__proto__" then VBuiltin "Array.prototype"
  else if String.eqb k "constructor" then VBuiltin "Array"
  else if existsb (String.eqb k) Array_prototype
  then VBuiltin ("Array.prototype." ++ k)
  else inherited_from_Object k.

(** [v[k]], or [v.k], on an object or an array and for any name [k]: the own
    property, or else what the prototype chain holds under that name.  Off
    the other values the program reads the names [version], [lastUpdated],
    [startDate], [endDate] and [completed] only, which no string, number,
    boolean or built-in object has: the read is [undefined].  A read off
    [null] throws; the one place where the program may meet it,
    [getStorageInfo], tests for [null] before it reads. *)
Definition get (v : value) (k : string) : value :=
  match v with
  | VObj fields =>
      match assoc k fields with
      | Some x => x
      | None => inherited_from_Object k
      end
  | VArr items =>
      if String.eqb k "length"
      then VNum (mkDecimal (Z.of_nat (length items)) 0)
      else match assoc k (index_from 0 items) with
           | Some x => x
           | None => inherited_from_Array k
           end
  | _ => VUndefined
  end.

(** ** [JSON.stringify] *)

(** The escape of one character inside a string literal: the quote, the
    backslash and the control characters are escaped, the rest is kept. *)
Definition escape_char (c : ascii) : string :=
  let n := code c in
  if ascii_eqb c dquote then String backslash (String dquote "")
  else if ascii_eqb c backslash then String backslash (String backslash "")
  else if (n =? 8)%N then "\b"
  else if (n =? 9)%N then "\t"
  else if (n =? 10)%N then "\n"
  else if (n =? 12)%N then "\f"
  else if (n =? 13)%N then "\r"
  else if (n <? 32)%N
       then "\u00" ++ String (hex_char (n / 16)) (String (hex_char (n mod 16)) "")
  else String c "".

Fixpoint escape (s : string) : string :=
  match s with
  | EmptyString => EmptyString
  | String c rest => escape_char c ++ escape rest
  end.

Definition quote (s : string) : string :=
  String dquote (escape s ++ String dquote "").

(** The decimal digits of a natural number. *)
Definition digits (n : Z) : string := pretty (Z.abs n).

Fixpoint zeros (n : nat) : string :=
  match n with O => "" | S n' => String "0" (zeros n') end.

(** The digits of [m] without the zeros at their end, and the number of
    zeros taken off. *)
Fixpoint strip_zeros (fuel : nat) (m e : Z) : Z * Z :=
  match fuel with
  | O => (m, e)
  | S fuel' =>
      if (m mod 10 =? 0) && negb (m =? 0) then strip_zeros fuel' (m / 10) (e + 1)
      else (m, e)
  end.

(** [Number.prototype.toString] on the decimal [m * 10 ^ e]: plain digits for
    a magnitude between [1e-7] and [1e21], the exponent form beyond. *)
Definition number_to_string (x : Decimal) : string :=
  if mantissa x =? 0 then "0" else
  let sign := if mantissa x <? 0 then "-" else "" in
  let (m, e) := strip_zeros (Z.to_nat (Z.abs (mantissa x))) (Z.abs (mantissa x))
                            (exponent x) in
  let ds := digits m in
  let k := Z.of_nat (String.length ds) in
  let n := k + e in
  sign ++
  (if (k <=? n) && (n <=? 21) then ds ++ zeros (Z.to_nat (n - k))
   else if (0 <? n) && (n <=? 21)
        then String.substring 0 (Z.to_nat n) ds ++ "." ++
             String.substring (Z.to_nat n) (Z.to_nat (k - n)) ds
   else if (-6 <? n) && (n <=? 0) then "0." ++ zeros (Z.to_nat (- n)) ++ ds
   else String.substring 0 1 ds ++
        (if k =? 1 then "" else "." ++ String.substring 1 (Z.to_nat (k - 1)) ds)
        ++ "e" ++ (if 0 <=? n - 1 then "+" else "-") ++ digits (n - 1)).

(** The texts of a list, separated by commas. *)
Fixpoint join_comma (parts : list string) : string :=
  match parts with
  | [] => ""
  | [p] => p
  | p :: rest => p ++ "," ++ join_comma rest
  end.

(** The values that have no JSON text: [undefined], and the functions. *)
Definition is_textless (v : value) : bool :=
  match typeof v with
  | type_undefined | type_function => true
  | _ => false
  end.

(** The text of a value.  A property whose value has no text is left out of
    its object; an element of an array that has no text is written [null].
    A prototype object has no enumerable property. *)
Fixpoint stringify (v : value) : string :=
  match v with
  | VUndefined | VNull => "null"
  | VBool true => "true"
  | VBool false => "false"
  | VNum n => number_to_string n
  | VStr s => quote s
  | VArr items => "[" ++ join_comma (map stringify items) ++ "]"
  | VObj fields =>
      "{" ++ join_comma
               ((fix members (fs : list (string * value)) : list string :=
                   match fs with
                   | [] => []
                   | (k, x) :: rest =>
                       if is_textless x then members rest
                       else (quote k ++ ":" ++ stringify x) :: members rest
                   end) fields)
          ++ "}"
  | VBuiltin name =>
      if String.eqb name "Array.prototype" then "[]"
      else if String.eqb name "Object.prototype" then "{}"
      else "null"
  end.

(** [JSON.stringify(v)] as the text that [setItem] stores: a value that has
    no JSON text is stored as the string ["undefined"]. *)
Definition JSON_stringify (v : value) : string :=
  if is_textless v then "undefined" else stringify v.

(** ** [JSON.parse] *)

Fixpoint skip_ws (s : string) : string :=
  match s with
  | String c rest => if is_ws c then skip_ws rest else s
  | EmptyString => s
  end.

(** The bytes of a [\uXXXX] escape: the UTF-8 encoding of its code unit. *)
Definition utf8 (n : N) : string :=
  if (n <? 128)%N then String (ascii_of_N n) ""
  else if (n <? 2048)%N
       then String (ascii_of_N (192 + n / 64))
              (String (ascii_of_N (128 + n mod 64)) "")
  else String (ascii_of_N (224 + n / 4096))
         (String (ascii_of_N (128 + (n / 64) mod 64))
            (String (ascii_of_N (128 + n mod 64)) "")).

Definition hex4 (h1 h2 h3 h4 : ascii) : option N :=
  match hex_value h1, hex_value h2, hex_value h3, hex_value h4 with
  | Some a, Some b, Some c, Some d => Some (((a * 16 + b) * 16 + c) * 16 + d)%N
  | _, _, _, _ => None
  end.

(** The character that a one-letter escape stands for. *)
Definition unescape (e : ascii) : option ascii :=
  if ascii_eqb e dquote then Some dquote
  else if ascii_eqb e backslash then Some backslash
  else if ascii_eqb e "/" then Some "/"%char
  else if ascii_eqb e "b" then Some (ascii_of_N 8)
  else if ascii_eqb e "f" then Some (ascii_of_N 12)
  else if ascii_eqb e "n" then Some (ascii_of_N 10)
  else if ascii_eqb e "r" then Some (ascii_of_N 13)
  else if ascii_eqb e "t" then Some (ascii_of_N 9)
  else None.

Definition prepend (p : string) (r : option (string * string))
    : option (string * string) :=
  match r with
  | Some (str, rest) => Some (p ++ str, rest)
  | None => None
  end.

(** The characters of a string literal after its opening quote, up to the
    closing quote, and the text that follows. *)
Fixpoint parse_string (s : string) : option (string * string) :=
  match s with
  | EmptyString => None
  | String c rest =>
      if ascii_eqb c dquote then Some ("", rest)
      else if ascii_eqb c backslash then
        match rest with
        | EmptyString => None
        | String e rest1 =>
            if ascii_eqb e "u" then
              match rest1 with
              | String h1 (String h2 (String h3 (String h4 rest2))) =>
                  match hex4 h1 h2 h3 h4 with
                  | Some n => prepend (utf8 n) (parse_string rest2)
                  | None => None
                  end
              | _ => None
              end
            else
              match unescape e with
              | Some ch => prepend (String ch "") (parse_string rest1)
              | None => None
              end
        end
      else if (code c <? 32)%N then None
      else prepend (String c "") (parse_string rest)
  end.

Definition parse_fraction (int : Z) (s : string) : option (Z * Z * string) :=
  match s with
  | String c rest =>
      if ascii_eqb c "." then
        match read_digits int 0 rest with
        | (_, O, _) => None
        | (m, count, rest') => Some (m, - Z.of_nat count, rest')
        end
      else Some (int, 0, s)
  | EmptyString => Some (int, 0, s)
  end.

Definition parse_exponent (s : string) : option (Z * string) :=
  match s with
  | String c rest =>
      if ascii_eqb c "e" || ascii_eqb c "E" then
        let (negative, rest1) :=
          match rest with
          | String sg rest' =>
              if ascii_eqb sg "-" then (true, rest')
              else if ascii_eqb sg "+" then (false, rest')
              else (false, rest)
          | EmptyString => (false, rest)
          end in
        match read_digits 0 0 rest1 with
        | (_, O, _) => None
        | (x, _, rest2) => Some (if negative then - x else x, rest2)
        end
      else Some (0, s)
  | EmptyString => Some (0, s)
  end.

(** A number literal: an optional minus sign; a zero, or digits that do not
    start with a zero; an optional fraction, a dot and digits; an optional
    exponent, [e] or [E], an optional sign and digits. *)
Definition parse_number (s : string) : option (Decimal * string) :=
  let (negative, s1) :=
    match s with
    | String c rest => if ascii_eqb c "-" then (true, rest) else (false, s)
    | EmptyString => (false, s)
    end in
  let int_part :=
    match s1 with
    | String c rest =>
        if ascii_eqb c "0" then Some (0, rest)
        else match read_digits 0 0 s1 with
             | (_, O, _) => None
             | (n, _, rest') => Some (n, rest')
             end
    | EmptyString => None
    end in
  match int_part with
  | None => None
  | Some (int, s2) =>
      match parse_fraction int s2 with
      | None => None
      | Some (m, e, s3) =>
          match parse_exponent s3 with
          | None => None
          | Some (x, s4) =>
              Some (mkDecimal (if negative then - m else m) (e + x), s4)
          end
      end
  end.

(** [s.startsWith(p)] *)
Fixpoint starts_with (p s : string) : bool :=
  match p, s with
  | EmptyString, _ => true
  | String a p', String b s' => ascii_eqb a b && starts_with p' s'
  | String _ _, EmptyString => false
  end.

(** [s.slice(n)] *)
Fixpoint drop (n : nat) (s : string) : string :=
  match n, s with
  | S n', String _ rest => drop n' rest
  | _, _ => s
  end.

(** The object that the members of an object literal build, one definition
    after the other: a repeated key keeps its place and takes its last
    value. *)
Definition build_object (members : list (string * value)) : list (string * value) :=
  fold_left (fun fields kv => obj_set (fst kv) (snd kv) fields) members [].

(** The recursive descent.  Every call consumes a character before it calls
    again, so that a fuel above the length of the text is never used up. *)
Fixpoint parse_value (fuel : nat) (s : string) : option (value * string) :=
  match fuel with
  | O => None
  | S fuel' =>
      match skip_ws s with
      | EmptyString => None
      | String c rest =>
          if ascii_eqb c "{" then
            match skip_ws rest with
            | String c' rest' =>
                if ascii_eqb c' "}" then Some (VObj [], rest')
                else match parse_members fuel' rest with
                     | Some (members, rest'') =>
                         Some (VObj (build_object members), rest'')
                     | None => None
                     end
            | EmptyString => None
            end
          else if ascii_eqb c "[" then
            match skip_ws rest with
            | String c' rest' =>
                if ascii_eqb c' "]" then Some (VArr [], rest')
                else match parse_elements fuel' rest with
                     | Some (items, rest'') => Some (VArr items, rest'')
                     | None => None
                     end
            | EmptyString => None
            end
          else if ascii_eqb c dquote then
            match parse_string rest with
            | Some (str, rest') => Some (VStr str, rest')
            | None => None
            end
          else if starts_with "true" (String c rest)
               then Some (VBool true, drop 4 (String c rest))
          else if starts_with "false" (String c rest)
               then Some (VBool false, drop 5 (String c rest))
          else if starts_with "null" (String c rest)
               then Some (VNull, drop 4 (String c rest))
          else
            match parse_number (String c rest) with
            | Some (n, rest') => Some (VNum n, rest')
            | None => None
            end
      end
  end

with parse_elements (fuel : nat) (s : string) : option (list value * string) :=
  match fuel with
  | O => None
  | S fuel' =>
      match parse_value fuel' s with
      | None => None
      | Some (v, rest) =>
          match skip_ws rest with
          | String c rest' =>
              if ascii_eqb c "," then
                match parse_elements fuel' rest' with
                | Some (items, rest'') => Some (v :: items, rest'')
                | None => None
                end
              else if ascii_eqb c "]" then Some ([v], rest')
              else None
          | EmptyString => None
          end
      end
  end

with parse_members (fuel : nat) (s : string)
    : option (list (string * value) * string) :=
  match fuel with
  | O => None
  | S fuel' =>
      match skip_ws s with
      | String q rest =>
          if ascii_eqb q dquote then
            match parse_string rest with
            | None => None
            | Some (key, rest1) =>
                match skip_ws rest1 with
                | String colon rest2 =>
                    if ascii_eqb colon ":" then
                      match parse_value fuel' rest2 with
                      | None => None
                      | Some (v, rest3) =>
                          match skip_ws rest3 with
                          | String c rest4 =>
                              if ascii_eqb c "," then
                                match parse_members fuel' rest4 with
                                | Some (members, rest5) =>
                                    Some ((key, v) :: members, rest5)
                                | None => None
                                end
                              else if ascii_eqb c "}" then Some ([(key, v)], rest4)
                              else None
                          | EmptyString => None
                          end
                      end
                    else None
                | EmptyString => None
                end
            end
          else None
      | EmptyString => None
      end
  end.

(** [JSON.parse(text)]; [None] is the [SyntaxError] it throws. *)
Definition JSON_parse (text : string) : option value :=
  match parse_value (S (String.length text)) text with
  | Some (v, rest) =>
      match skip_ws rest with
      | EmptyString => Some v
      | String _ _ => None
      end
  | None => None
  end.

(** What is left of a value in its JSON text: the properties that have no
    text are gone, and the elements that have none are [null]. *)
Fixpoint jsonify (v : value) : value :=
  match v with
  | VUndefined => VNull
  | VArr items => VArr (map jsonify items)
  | VObj fields =>
      VObj ((fix members (fs : list (string * value)) : list (string * value) :=
               match fs with
               | [] => []
               | (k, x) :: rest =>
                   if is_textless x then members rest
                   else (k, jsonify x) :: members rest
               end) fields)
  | VBuiltin name =>
      if String.eqb name "Array.prototype" then VArr []
      else if String.eqb name "Object.prototype" then VObj []
      else VNull
  | _ => v
  end.

(** The properties of an object that have a text. *)
Definition defined (fields : list (string * value)) : list (string * value) :=
  List.filter (fun kv => negb (is_textless (snd kv))) fields.

(** The names of a list stand in the order of enumeration: none of them
    precedes a name that stands before it. *)
Fixpoint in_order (keys : list string) : Prop :=
  match keys with
  | [] => True
  | k :: rest => Forall (fun k' => precedes k' k = false) rest /\ in_order rest
  end.

(** The values whose text is read back by [JSON_parse]: no number, no
    built-in object, and no object with two properties of the same name or
    with its properties out of the order of enumeration. *)
Unset Elimination Schemes.
Inductive plain : value -> Prop :=
| plain_undefined : plain VUndefined
| plain_null : plain VNull
| plain_bool (b : bool) : plain (VBool b)
| plain_str (s : string) : plain (VStr s)
| plain_arr (items : list value) :
    Forall plain items -> plain (VArr items)
| plain_obj (fields : list (string * value)) :
    Forall (fun kv => plain (snd kv)) fields ->
    List.NoDup (map fst (defined fields)) ->
    in_order (map fst (defined fields)) ->
    plain (VObj fields).
Set Elimination Schemes.

(** The text of one member of an object literal. *)
Definition member_text (kv : string * value) : string :=
  quote (fst kv) ++ ":" ++ stringify (snd kv).

(** [parse_value] reads the text of [v] back, whatever follows it, with a
    fuel above the length of the text. *)
Definition reads_back (v : value) : Prop :=
  forall fuel rest,
    (String.length (stringify v) < fuel)%nat ->
    parse_value fuel (stringify v ++ rest) = Some (jsonify v, rest).


(* ===================================================================== *)
(** * 7. Dates as ISO-8601 strings                                       *)
(* ===================================================================== *)

Definition msPerDay : Z := 86400000.

(** The largest magnitude of a time value: 100,000,000 days. *)
Definition maxTime : Z := 8640000000000000.

(** The proleptic Gregorian calendar in eras of 400 years, 146097 days each,
    the years of an era counted from the first of March.  The year of the
    era, the month and the day of the month of a day of the era ... *)
Definition date_in_era (doe : Z) : Z * Z * Z :=
  let yoe := (doe - doe / 1460 + doe / 36524 - doe / 146096) / 365 in
  let doy := doe - (365 * yoe + yoe / 4 - yoe / 100) in
  let mp := (5 * doy + 2) / 153 in
  let d := doy - (153 * mp + 2) / 5 + 1 in
  let m := if mp <? 10 then mp + 3 else mp - 9 in
  (yoe, m, d).

(** ... and the day of the era of such a date. *)
Definition day_in_era (yoe m d : Z) : Z :=
  let mp := if 2 <? m then m - 3 else m + 9 in
  let doy := (153 * mp + 2) / 5 + d - 1 in
  yoe * 365 + yoe / 4 - yoe / 100 + doy.

(** The date of a day number, counted from 1970-01-01. *)
Definition civil_from_days (z : Z) : Z * Z * Z :=
  let z := z + 719468 in
  let era := z / 146097 in
  let '(yoe, m, d) := date_in_era (z mod 146097) in
  let y := yoe + era * 400 in
  (if m <=? 2 then y + 1 else y, m, d).

(** The day number of a date; the inverse of [civil_from_days]. *)
Definition days_from_civil (y m d : Z) : Z :=
  let y := if m <=? 2 then y - 1 else y in
  let era := y / 400 in
  let yoe := y mod 400 in
  era * 146097 + day_in_era yoe m d - 719468.

Definition is_leap_year (y : Z) : bool :=
  (y mod 4 =? 0) && (negb (y mod 100 =? 0) || (y mod 400 =? 0)).

Definition days_in_month (y m : Z) : Z :=
  if m =? 2 then (if is_leap_year y then 29 else 28)
  else if (m =? 4) || (m =? 6) || (m =? 9) || (m =? 11) then 30
  else 31.

(** The last [width] decimal digits of [n].  The fields of an ISO string
    are padded with zeros to a width that they never exceed. *)
Fixpoint pad (width : nat) (n : Z) : string :=
  match width with
  | O => ""
  | S w => pad w (n / 10) ++ String (digit_char (n mod 10)) ""
  end.

(** The year of an ISO string: four digits from 0 to 9999, and otherwise a
    sign and six digits. *)
Definition iso_year (y : Z) : string :=
  if (0 <=? y) && (y <=? 9999) then pad 4 y
  else (if y <? 0 then "-" else "+") ++ pad 6 (Z.abs y).

Definition iso_of_time (t : Z) : string :=
  let '(y, m, d) := civil_from_days (t / msPerDay) in
  let ms := t mod msPerDay in
  iso_year y ++ "-" ++ pad 2 m ++ "-" ++ pad 2 d ++ "T"
  ++ pad 2 (ms / 3600000) ++ ":" ++ pad 2 (ms / 60000 mod 60) ++ ":"
  ++ pad 2 (ms / 1000 mod 60) ++ "." ++ pad 3 (ms mod 1000) ++ "Z".

(** [date.toISOString()]; [None] is the [RangeError] that an invalid date
    throws. *)
Definition toISOString (d : Date) : option string :=
  match d with
  | InvalidDate => None
  | DateAt t => if Z.abs t <=? maxTime then Some (iso_of_time t) else None
  end.

(** Exactly [n] digits and their value. *)
Fixpoint fixed_digits (n : nat) (acc : Z) (s : string) : option (Z * string) :=
  match n with
  | O => Some (acc, s)
  | S n' =>
      match s with
      | String c rest =>
          if is_digit c then fixed_digits n' (10 * acc + digit_value c) rest
          else None
      | EmptyString => None
      end
  end.

Definition expect (c : ascii) (s : string) : option string :=
  match s with
  | String c' rest => if ascii_eqb c' c then Some rest else None
  | EmptyString => None
  end.

Definition parse_year (s : string) : option (Z * string) :=
  match s with
  | String c rest =>
      if ascii_eqb c "+" then fixed_digits 6 0 rest
      else if ascii_eqb c "-" then
        match fixed_digits 6 0 rest with
        | Some (y, rest') => if y =? 0 then None else Some (- y, rest')
        | None => None
        end
      else fixed_digits 4 0 s
  | EmptyString => None
  end.

(** The time value of a string in the format of [toISOString],
    [YYYY-MM-DDTHH:mm:ss.sssZ] with a four-digit or a signed six-digit
    year. *)
Definition parse_iso (s : string) : option Z :=
  '(y, s) ← parse_year s;
  s ← expect "-" s;
  '(mo, s) ← fixed_digits 2 0 s;
  s ← expect "-" s;
  '(d, s) ← fixed_digits 2 0 s;
  s ← expect "T" s;
  '(h, s) ← fixed_digits 2 0 s;
  s ← expect ":" s;
  '(mi, s) ← fixed_digits 2 0 s;
  s ← expect ":" s;
  '(sec, s) ← fixed_digits 2 0 s;
  s ← expect "." s;
  '(ms, s) ← fixed_digits 3 0 s;
  s ← expect "Z" s;
  if negb (String.eqb s "") then None
  else if negb ((1 <=? mo) && (mo <=? 12) && (1 <=? d) && (d <=? days_in_month y mo))
  then None
  else if negb (((h <=? 23) && (mi <=? 59) && (sec <=? 59))
                || ((h =? 24) && (mi =? 0) && (sec =? 0) && (ms =? 0)))
  then None
  else Some (days_from_civil y mo d * msPerDay
             + h * 3600000 + mi * 60000 + sec * 1000 + ms).

(** A parser of dates that reads the format of [toISOString] and no other,
    with the time clipped to the range of a [Date]. *)
Definition Date_parse (s : string) : Date :=
  match parse_iso s with
  | Some t => if Z.abs t <=? maxTime then DateAt t else InvalidDate
  | None => InvalidDate
  end.

(** What the program asks of the engine besides the [Host] of the validator:
    the local time of an instant, [LocalTime(t)] of ECMA-262, which is [t]
    shifted by the offset of the time zone at [t]; and [new Date(text)] on a
    string, which ECMA-262 prescribes for some formats and leaves to the
    engine, and to its time zone, for the others. *)
Record Engine : Type := mkEngine {
  LocalTime : Z -> Z;
  Date_of_string : string -> Date
}.

(** The one thing that the persistence adapter needs of [new Date(text)],
    and that ECMA-262 requires of every engine: the string that
    [toISOString] prints for a date is read back as that date. *)
Definition reads_iso_strings (engine : Engine) : Prop :=
  forall d iso, toISOString d = Some iso -> Date_of_string engine iso = d.

(** An engine whose local time is UTC and which reads the format of
    [toISOString] only. *)
Definition isoEngine : Engine := mkEngine (fun t => t) Date_parse.

(** [new Date(v)] on a value read from a stored record.  A string is parsed
    by the engine; a number or a boolean is a time value; the program
    constructs dates from strings only. *)
Definition new_Date (engine : Engine) (v : value) : Date :=
  match v with
  | VStr s => Date_of_string engine s
  | VBool true => DateAt 1
  | VBool false | VNull => DateAt 0
  | VNum n =>
      if (0 <=? exponent n) && (Z.abs (mantissa n * 10 ^ exponent n) <=? maxTime)
      then DateAt (mantissa n * 10 ^ exponent n)
      else InvalidDate
  | _ => InvalidDate
  end.

(** A [Date] object whose time is not NaN holds a time value in the range of
    100,000,000 days around the epoch. *)
Definition valid_date (d : Date) : Prop :=
  exists t, d = DateAt t /\ Z.abs t <= maxTime.

(* ===================================================================== *)
(** * 8. The key-value store                                             *)
(* ===================================================================== *)

(** A thrown [Error], identified by its [name]. *)
Inductive exn : Type := Error (name : string).

Definition error_name (e : exn) : string := match e with Error n => n end.

Definition QuotaExceededError : exn := Error "QuotaExceededError".
Definition RangeError : exn := Error "RangeError".
Definition SyntaxError : exn := Error "SyntaxError".
Definition TypeError : exn := Error "TypeError".

(** [localStorage]: the items it holds, and what its next operations will
    meet, in order: [None] for an operation that goes through, [Some e] for
    one that throws [e].  Past the end of the script every operation goes
    through. *)
Record storage : Type := mkStorage {
  items : gmap string string;
  failures : list (option exn)
}.

Inductive outcome (A : Type) : Type :=
| Returned (a : A)
| Thrown (e : exn).
Arguments Returned {A} a.
Arguments Thrown {A} e.

(** Computations that use the store and may throw. *)
Definition M (A : Type) : Type := storage -> outcome A * storage.

Definition ret {A : Type} (a : A) : M A := fun st => (Returned a, st).

Definition throw {A : Type} (e : exn) : M A := fun st => (Thrown e, st).

Definition bind {A B : Type} (m : M A) (k : A -> M B) : M B :=
  fun st =>
    match m st with
    | (Returned a, st') => k a st'
    | (Thrown e, st') => (Thrown e, st')
    end.

(** [try { m } catch (error) { handler error }] *)
Definition try_catch {A : Type} (m : M A) (handler : exn -> M A) : M A :=
  fun st =>
    match m st with
    | (Returned a, st') => (Returned a, st')
    | (Thrown e, st') => handler e st'
    end.

Notation "'let*' x ':=' m 'in' k" := (bind m (fun x => k))
  (at level 10, x name, m at level 100, k at level 200).
Notation "m ';;;' k" := (bind m (fun _ => k))
  (at level 100, k at level 200, right associativity).

(** A value or the exception that stands for its absence. *)
Definition or_throw {A : Type} (e : exn) (o : option A) : M A :=
  match o with Some a => ret a | None => throw e end.

(** One operation of the [Storage] interface: it consumes the head of the
    script, and either throws or acts on the items. *)
Definition storage_op {A : Type}
    (act : gmap string string -> A * gmap string string) : M A :=
  fun st =>
    match failures st with
    | Some e :: rest => (Thrown e, mkStorage (items st) rest)
    | None :: rest =>
        let (a, its) := act (items st) in (Returned a, mkStorage its rest)
    | [] =>
        let (a, its) := act (items st) in (Returned a, mkStorage its [])
    end.

Definition setItem (key text : string) : M unit :=
  storage_op (fun its => (tt, <[key := text]> its)).

Definition getItem (key : string) : M (option string) :=
  storage_op (fun its => (its !! key, its)).

Definition removeItem (key : string) : M unit :=
  storage_op (fun its => (tt, delete key its)).

(* ===================================================================== *)
(** * 9. Persistence adapter ([utils/localStorage.ts])                   *)
(* ===================================================================== *)

Definition STORAGE_KEY : string := "curriculum-progress-tracker".
Definition STORAGE_VERSION : string := "1.0.0".

Definition isLocalStorageAvailable : M bool :=
  try_catch
    (let testKey := "__localStorage_test__" in
     setItem testKey "test" ;;;
     removeItem testKey ;;;
     ret true)
    (fun _ => ret false).

(** The type guard [validateStoredData].  A [for (k in o)] loop that returns
    [false] from its body is a [forallb] over the properties of [o]. *)
Definition validateStoredData (data : value) : bool :=
  if negb (truthy data) || negb (is_type type_object data) || is_null data
  then false
  else
  let obj := data in
  if negb (truthy (get obj "version")) || negb (truthy (get obj "lastUpdated"))
     || negb (truthy (get obj "curriculum"))
  then false
  else
  if negb (is_type type_object (get obj "curriculum"))
     || is_null (get obj "curriculum")
  then false
  else
  let curriculum := get obj "curriculum" in
  forallb
    (fun weekEntry =>
       let weekData := get curriculum (fst weekEntry) in
       if negb (is_type type_object weekData) || is_null weekData then false
       else
       let weekObj := weekData in
       forallb
         (fun courseEntry =>
            let courseData := get weekObj (fst courseEntry) in
            if negb (is_type type_object courseData) || is_null courseData
            then false
            else
            let courseObj := courseData in
            if negb (is_type type_boolean (get courseObj "completed")) then false
            else if truthy (get courseObj "startDate")
                    && negb (is_type type_string (get courseObj "startDate"))
            then false
            else if truthy (get courseObj "endDate")
                    && negb (is_type type_string (get courseObj "endDate"))
            then false
            else true)
         (entries weekObj))
    (entries curriculum).

(** [date?.toISOString()]: [undefined] for an absent date; [None] when
    [toISOString] throws. *)
Definition optional_iso (d : option Date) : option value :=
  match d with
  | None => Some VUndefined
  | Some d => VStr <$> toISOString d
  end.

Definition storedCourse (course : Course) : option value :=
  startDate ← optional_iso (startDate course);
  endDate ← optional_iso (endDate course);
  Some (VObj [("startDate", startDate); ("endDate", endDate);
              ("completed", VBool (completed course))]).

(** [week.courses.forEach(course => { curriculum[weekKey][course.id] = ... })]
    on the object [weekObj] that [curriculum[weekKey]] holds. *)
Fixpoint storeCourses (cs : list Course) (weekObj : list (string * value))
    : option (list (string * value)) :=
  match cs with
  | [] => Some weekObj
  | course :: rest =>
      stored ← storedCourse course;
      storeCourses rest (obj_assign (cId course) stored weekObj)
  end.

(** [state.weeks.forEach(week => { curriculum[week.id.toString()] = {}; ... })] *)
Fixpoint storeWeeks (ws : list Week) (curriculum : list (string * value))
    : option (list (string * value)) :=
  match ws with
  | [] => Some curriculum
  | week :: rest =>
      weekObj ← storeCourses (courses week) [];
      storeWeeks rest (obj_assign (pretty (wId week)) (VObj weekObj) curriculum)
  end.

(** [curriculumStateToStoredData]; [now] is the reading of the clock, and
    [None] the [RangeError] of a [toISOString] on an invalid date. *)
Definition curriculumStateToStoredData (now : Date) (state : CurriculumState)
    : option value :=
  curriculum ← storeWeeks (weeks state) [];
  lastUpdated ← toISOString now;
  Some (VObj [("version", VStr STORAGE_VERSION);
              ("lastUpdated", VStr lastUpdated);
              ("curriculum", VObj curriculum)]).

(** [courseData.completed] as the [completed] of a course: a boolean when
    [courseData] is a course of a record that passed [validateStoredData].
    When [courseData] is something else that the read [weekData[course.id]]
    found, a built-in object of the prototype chain or the length of an
    array, the field is [undefined] in the code, which the program takes
    for [false] wherever it tests the [completed] of a course: the model
    has [false].  Only [JSON.stringify] tells the two apart, when a state
    that holds such a course is saved. *)
Definition boolean_field (v : value) : bool :=
  match v with VBool b => b | _ => truthy v end.

Definition storedDataToCurriculumState (engine : Engine) (storedData : value)
    (initialState : CurriculumState) : CurriculumState :=
  let updatedWeeks :=
    map (fun week =>
           let weekData := get (get storedData "curriculum") (pretty (wId week)) in
           if negb (truthy weekData) then week
           else
             let updatedCourses :=
               map (fun course =>
                      let courseData := get weekData (cId course) in
                      if negb (truthy courseData) then course
                      else
                        mkCourse (cId course) (cName course)
                          (if truthy (get courseData "startDate")
                           then Some (new_Date engine (get courseData "startDate"))
                           else None)
                          (if truthy (get courseData "endDate")
                           then Some (new_Date engine (get courseData "endDate"))
                           else None)
                          (boolean_field (get courseData "completed")))
                   (courses week) in
             with_courses week updatedCourses)
        (weeks initialState) in
  mkState updatedWeeks 0.

(** [v !== s] for a string [s] *)
Definition strict_ne_string (v : value) (s : string) : bool :=
  match v with VStr x => negb (String.eqb x s) | _ => true end.

(** [!serializedData]: [null] and the empty string. *)
Definition falsy_text (t : option string) : bool :=
  match t with
  | None => true
  | Some s => String.eqb s ""
  end.

Definition saveCurriculumState (now : Date) (state : CurriculumState) : M bool :=
  let* available := isLocalStorageAvailable in
  if negb available then ret false
  else
  try_catch
    (let* storedData := or_throw RangeError (curriculumStateToStoredData now state) in
     let serializedData := JSON_stringify storedData in
     setItem STORAGE_KEY serializedData ;;;
     ret true)
    (fun error =>
       if String.eqb (error_name error) "QuotaExceededError"
       then
         try_catch
           (removeItem STORAGE_KEY ;;;
            let* storedData :=
              or_throw RangeError (curriculumStateToStoredData now state) in
            let serializedData := JSON_stringify storedData in
            setItem STORAGE_KEY serializedData ;;;
            ret true)
           (fun retryError => ret false)
       else ret false).

Definition loadCurriculumState (engine : Engine) (initialState : CurriculumState)
    : M (option CurriculumState) :=
  let* available := isLocalStorageAvailable in
  if negb available then ret None
  else
  try_catch
    (let* serializedData := getItem STORAGE_KEY in
     if falsy_text serializedData then ret None
     else
     let* parsedData :=
       or_throw SyntaxError (JSON_parse (default "" serializedData)) in
     if negb (validateStoredData parsedData)
     then removeItem STORAGE_KEY ;;; ret None
     else
     if strict_ne_string (get parsedData "version") STORAGE_VERSION
     then removeItem STORAGE_KEY ;;; ret None
     else
     let curriculumState :=
       storedDataToCurriculumState engine parsedData initialState in
     ret (Some curriculumState))
    (fun error =>
       try_catch (removeItem STORAGE_KEY) (fun clearError => ret tt) ;;;
       ret None).

Definition clearCurriculumState : M bool :=
  let* available := isLocalStorageAvailable in
  if negb available then ret false
  else
  try_catch (removeItem STORAGE_KEY ;;; ret true) (fun error => ret false).

Record StorageInfo : Type := mkInfo {
  hasData : bool;
  info_lastUpdated : option value;
  info_version : option value;
  info_size : option Z
}.

Definition noData : StorageInfo := mkInfo false None None None.

(** [getStorageInfo]; reading a property of [null] throws a [TypeError], and
    [size] is the [length] of the text. *)
Definition getStorageInfo : M StorageInfo :=
  let* available := isLocalStorageAvailable in
  if negb available then ret noData
  else
  try_catch
    (let* serializedData := getItem STORAGE_KEY in
     if falsy_text serializedData then ret noData
     else
     let text := default "" serializedData in
     let* parsedData := or_throw SyntaxError (JSON_parse text) in
     if is_null parsedData then throw TypeError
     else
     ret (mkInfo true (Some (get parsedData "lastUpdated"))
            (Some (get parsedData "version"))
            (Some (Z.of_nat (utf16_length text)))))
    (fun error => ret noData).

(** ** Sample stores *)

Definition emptyStore : storage := mkStorage ∅ [].

Definition storeWith (text : string) : storage :=
  mkStorage {[ STORAGE_KEY := text ]} [].

(** 2024-02-01T09:30:00Z *)
Definition sampleNow : Date := DateAt 1706779800000.

Definition sampleState : CurriculumState :=
  mkState
    [mkWeek 1 "week 1"
       [mkCourse "1-1" "first" (Some jan15) (Some jan20) true;
        mkCourse "1-2" "second" (Some jan20) None false] 50;
     mkWeek 2 "week 2"
       [mkCourse "2-1" "third" None None true] 100]
    67.

(** The catalog the sample state grew from: no date, nothing completed. *)
Definition sampleSeed : CurriculumState :=
  mkState
    [mkWeek 1 "week 1"
       [mkCourse "1-1" "first" None None false;
        mkCourse "1-2" "second" None None false] 0;
     mkWeek 2 "week 2"
       [mkCourse "2-1" "third" None None false] 0]
    0.

(** What the [i]-th operation from now on will meet. *)
Definition failure_at (st : storage) (i : nat) : option exn :=
  nth i (failures st) None.


(** The text that [saveCurriculumState] writes, when the state serializes. *)
Definition recordText (now : Date) (state : CurriculumState) : option string :=
  JSON_stringify <$> curriculumStateToStoredData now state.

(** The items of a store after the availability probe went through. *)
Definition probed (its : gmap string string) : gmap string string :=
  delete "__localStorage_test__" (<["__localStorage_test__" := "test"]> its).

(** The shape that [validateStoredData] accepts, as a proposition.  A stored
    course is an object whose [completed] is a boolean and whose [startDate]
    and [endDate] are strings unless they are falsy. *)
Definition is_object (v : value) : Prop := typeof v = type_object /\ v <> VNull.

Definition well_formed_course (courseData : value) : Prop :=
  is_object courseData
  /\ typeof (get courseData "completed") = type_boolean
  /\ (truthy (get courseData "startDate") = true ->
      typeof (get courseData "startDate") = type_string)
  /\ (truthy (get courseData "endDate") = true ->
      typeof (get courseData "endDate") = type_string).

Definition well_formed_record (data : value) : Prop :=
  is_object data
  /\ truthy (get data "version") = true
  /\ truthy (get data "lastUpdated") = true
  /\ is_object (get data "curriculum")
  /\ forall weekKey weekValue,
       In (weekKey, weekValue) (entries (get data "curriculum")) ->
       let weekData := get (get data "curriculum") weekKey in
       is_object weekData
       /\ forall courseKey courseValue,
            In (courseKey, courseValue) (entries weekData) ->
            well_formed_course (get weekData courseKey).

(** What makes a record unreadable: it is absent or empty, its text does
    not parse, the parsed value is not a well-formed record, or its version
    is not the one of the adapter. *)
Definition unreadable (record : option string) : Prop :=
  falsy_text record = true
  \/ exists text, record = Some text
       /\ (JSON_parse text = None
           \/ exists data, JSON_parse text = Some data
                /\ (~ well_formed_record data
                    \/ get data "version" <> VStr STORAGE_VERSION)).

(** A record in which a course has the number 0 for start date. *)
Definition zeroDateText : string :=
  "{" ++ quote "version" ++ ":" ++ quote "1.0.0" ++ ","
  ++ quote "lastUpdated" ++ ":" ++ quote "2024-02-01T09:30:00.000Z" ++ ","
  ++ quote "curriculum" ++ ":{" ++ quote "1" ++ ":{" ++ quote "1-1"
  ++ ":{" ++ quote "completed" ++ ":true," ++ quote "startDate" ++ ":0}}}}".

(** The store of the unit test of the quota: the probe passes, the write
    fails with [QuotaExceededError], the operations after it go through. *)
Definition quotaOnceStore : storage :=
  mkStorage {[ STORAGE_KEY := "old" ]} [None; None; Some QuotaExceededError].

(** The same store when the second write fails as well. *)
Definition quotaTwiceStore : storage :=
  mkStorage {[ STORAGE_KEY := "old" ]}
    [None; None; Some QuotaExceededError; None; Some QuotaExceededError].

(** A store whose write fails for another reason. *)
Definition brokenWriteStore : storage :=
  mkStorage {[ STORAGE_KEY := "old" ]} [None; None; Some (Error "Error")].

(** A store whose first operation fails: the availability probe does not
    pass.  It holds the record of the sample state. *)
Definition unavailableStore : storage :=
  mkStorage
    {[ STORAGE_KEY := default "" (recordText sampleNow sampleState) ]}
    [Some (Error "SecurityError")].

(* ===================================================================== *)
(** * 10. The vocabulary of the round trip                               *)
(* ===================================================================== *)



(** The identifiers of the weeks are unique, and so are those of the courses
    of each week: the invariants of the domain model. *)
Definition unique_ids (s : CurriculumState) : Prop :=
  List.NoDup (map wId (weeks s))
  /\ forall w, In w (weeks s) -> List.NoDup (map cId (courses w)).

Definition valid_optional_date (d : option Date) : Prop :=
  match d with Some d => valid_date d | None => True end.

(** Every date of the state is a valid date. *)
Definition dates_valid (s : CurriculumState) : Prop :=
  forall w c, In w (weeks s) -> In c (courses w) ->
    valid_optional_date (startDate c) /\ valid_optional_date (endDate c).

(** The three persisted fields of [c'] are those of [c]. *)
Definition same_fields (c c' : Course) : Prop :=
  completed c' = completed c
  /\ startDate c' = startDate c
  /\ endDate c' = endDate c.

(** The property that a course leaves in a stored record. *)
Definition isoField (d : option Date) : value :=
  match d with
  | Some d => match toISOString d with Some iso => VStr iso | None => VUndefined end
  | None => VUndefined
  end.

Definition storedCourseObject (c : Course) : value :=
  VObj [("startDate", isoField (startDate c));
        ("endDate", isoField (endDate c));
        ("completed", VBool (completed c))].

(** The object that a list of assignments [obj[k] = v] leaves, from the
    properties [fields] on. *)
Definition assign_all (members fields : list (string * value))
    : list (string * value) :=
  fold_left (fun obj kv => obj_assign (fst kv) (snd kv) obj) members fields.

Definition storedWeekObject (w : Week) : value :=
  VObj (assign_all (map (fun c => (cId c, storedCourseObject c)) (courses w)) []).

Definition storedCurriculum (ws : list Week) : list (string * value) :=
  assign_all (map (fun w => (pretty (wId w), storedWeekObject w)) ws) [].

(** No course of the state has the identifier ["__proto__"], the one name
    under which an assignment creates no property. *)
Definition no_proto_id (s : CurriculumState) : Prop :=
  forall w c, In w (weeks s) -> In c (courses w) -> cId c <> "__proto__".

(** The overlay of a stored course on a course of the seed, as
    [storedDataToCurriculumState] computes it. *)
Definition overlayCourse (engine : Engine) (weekData : value) (course : Course)
    : Course :=
  let courseData := get weekData (cId course) in
  if negb (truthy courseData) then course
  else
    mkCourse (cId course) (cName course)
      (if truthy (get courseData "startDate")
       then Some (new_Date engine (get courseData "startDate")) else None)
      (if truthy (get courseData "endDate")
       then Some (new_Date engine (get courseData "endDate")) else None)
      (boolean_field (get courseData "completed")).

(** The properties of an object, each once through JSON. *)
Definition jsonify_fields (fields : list (string * value))
    : list (string * value) :=
  map (fun kv => (fst kv, jsonify (snd kv))) fields.

(** The record of a state, once through JSON. *)
Definition readRecord (lastUpdated : string) (s : CurriculumState) : value :=
  VObj [("version", VStr STORAGE_VERSION);
        ("lastUpdated", VStr lastUpdated);
        ("curriculum", VObj (jsonify_fields (storedCurriculum (weeks s))))].





(* ===================================================================== *)
(** * 11. Progress statistics ([utils/progressCalculator.ts])            *)
(* ===================================================================== *)

(** An entry of [weekProgresses].  The fields [weekId], [title], [progress],
    [totalCourses] and [completedCourses] of the source carry the prefix
    [wp_] here, those of the statistics the prefix [stat_]. *)
Record WeekProgress : Type := mkWeekProgress {
  wp_weekId : Z;
  wp_title : string;
  wp_progress : Z;
  wp_totalCourses : Z;
  wp_completedCourses : Z
}.

Record ProgressStatistics : Type := mkStatistics {
  stat_totalCourses : Z;
  stat_completedCourses : Z;
  stat_remainingCourses : Z;
  stat_overallProgress : Z;
  stat_totalWeeks : Z;
  stat_completedWeeks : Z;
  stat_inProgressWeeks : Z;
  stat_notStartedWeeks : Z;
  stat_weekProgresses : list WeekProgress
}.

(** The statistics read the stored [progress] and [overallProgress]; they
    recompute neither. *)
Definition getProgressStatistics (state : CurriculumState) : ProgressStatistics :=
  let totalCourses :=
    fold_left (fun total week => total + Z.of_nat (length (courses week)))
              (weeks state) 0 in
  let completedCourses :=
    fold_left (fun total week =>
                 total + Z.of_nat (length (List.filter completed (courses week))))
              (weeks state) 0 in
  let remainingCourses := totalCourses - completedCourses in
  let completedWeeks :=
    Z.of_nat (length (List.filter (fun week => progress week =? 100) (weeks state))) in
  let inProgressWeeks :=
    Z.of_nat (length (List.filter
                        (fun week => (0 <? progress week) && (progress week <? 100))
                        (weeks state))) in
  let notStartedWeeks :=
    Z.of_nat (length (List.filter (fun week => progress week =? 0) (weeks state))) in
  mkStatistics totalCourses completedCourses remainingCourses
    (overallProgress state)
    (Z.of_nat (length (weeks state)))
    completedWeeks inProgressWeeks notStartedWeeks
    (map (fun week =>
            mkWeekProgress (wId week) (title week) (progress week)
              (Z.of_nat (length (courses week)))
              (Z.of_nat (length (List.filter completed (courses week)))))
         (weeks state)).

(** [xs.reduce((sum, x) => sum + x, 0)] *)
Definition sumZ (xs : list Z) : Z := fold_left Z.add xs 0.

(** A week all of whose courses are completed, and there is one; a week none
    of whose courses is. *)
Definition all_completed (w : Week) : bool :=
  negb (Nat.eqb (length (courses w)) 0) && forallb completed (courses w).
Definition none_completed (w : Week) : bool :=
  forallb (fun course => negb (completed course)) (courses w).

(** The number of elements of [l] that satisfy [p]. *)
Definition count {A : Type} (p : A -> bool) (l : list A) : Z :=
  Z.of_nat (length (List.filter p l)).

(** What the binary64 evaluation of the percentage of [c] courses in [n]
    gives at the two ends of the scale: a number from 0 to 100, which is 100
    only when [c = n] and 0 only when [c = 0]. *)
Definition percent_extremes (c n : nat) : bool :=
  let r := Math_round (js_ratio_times_100 (Z.of_nat c) (Z.of_nat n)) in
  (0 <=? r) && (r <=? 100)
  && Bool.eqb (r =? 100) (c =? n)%nat && Bool.eqb (r =? 0) (c =? 0)%nat.

Definition percent_extremes_upto (bound : nat) : bool :=
  forallb (fun n => forallb (fun c => percent_extremes c n) (seq 0 (S n)))
          (seq 1 bound).

(** A week of two hundred courses, the first [k] of them completed. *)
Definition twoHundredCourses (k : nat) : list Course :=
  map (fun i => mkCourse ("1-" ++ pretty (Z.of_nat i)) "course" None None (i <=? k)%nat)
      (seq 1 200).

(* ===================================================================== *)
(** * 12. The algebra of the course-level transitions                    *)
(* ===================================================================== *)

(** What a state holds besides the three fields that the transitions write
    and the percentages: identifiers, titles and names, in order. *)
Definition catalog (s : CurriculumState)
    : list (Z * string * list (string * string)) :=
  map (fun w => (wId w, title w, map (fun c => (cId c, cName c)) (courses w)))
      (weeks s).

(** The field update of a course-level action. *)
Definition field_update (a : CurriculumAction) (course : Course) : Course :=
  match type_ a with
  | SET_START_DATE => with_startDate course (date (payload a))
  | SET_END_DATE => with_endDate course (date (payload a))
  | TOGGLE_COMPLETION => with_completed course (negb (completed course))
  | _ => course
  end.

(** Two actions that address the same week and course identifiers. *)
Definition same_target (a b : CurriculumAction) : Prop :=
  weekId (payload a) = weekId (payload b)
  /\ courseId (payload a) = courseId (payload b).

(** The percentages of a state: week by week, and overall. *)
Definition percentages (s : CurriculumState) : list Z * Z :=
  (map progress (weeks s), overallProgress s).

(** The state after a sequence of actions. *)
Definition reduceAll (s : CurriculumState) (actions : list CurriculumAction)
    : CurriculumState :=
  fold_left curriculumReducer actions s.

(* ===================================================================== *)
(** * 13. Date utilities ([utils/dateValidation.ts])                     *)
(* ===================================================================== *)

(** The date utilities and the date picker ask two things of the [Engine]:
    the local time of an instant, and [new Date(text)] on a string. *)

(** [x === y] on two numbers; [None] is NaN, which equals nothing. *)
Definition number_eq (x y : option Z) : bool :=
  match x, y with
  | Some a, Some b => a =? b
  | _, _ => false
  end.

(** [s.padStart(targetLength, fill)] for a fill of one character. *)
Definition padStart (targetLength : nat) (fill : ascii) (s : string) : string :=
  String.concat "" (repeat (String fill "") (targetLength - String.length s)) ++ s.

(** [/^\d{4}-\d{2}-\d{2}$/.test(s)]: four digits, a hyphen, two digits, a
    hyphen, two digits, and the end of the string. *)
Definition matches_date_pattern (s : string) : bool :=
  match ('(_, s) ← fixed_digits 4 0 s;
         s ← expect "-" s;
         '(_, s) ← fixed_digits 2 0 s;
         s ← expect "-" s;
         '(_, s) ← fixed_digits 2 0 s;
         Some s) with
  | Some rest => String.eqb rest ""
  | None => false
  end.

Section DateUtilities.

Variable engine : Engine.

(** The local date of an instant: year, month from 1 to 12, day of the
    month. *)
Definition local_date (t : Z) : Z * Z * Z :=
  civil_from_days (LocalTime engine t / msPerDay).

(** [date.getFullYear()], [date.getMonth()], from 0 to 11, and
    [date.getDate()]; NaN on an invalid date. *)
Definition getFullYear (d : Date) : option Z :=
  match d with
  | InvalidDate => None
  | DateAt t => let '(y, _, _) := local_date t in Some y
  end.
Definition getMonth (d : Date) : option Z :=
  match d with
  | InvalidDate => None
  | DateAt t => let '(_, m, _) := local_date t in Some (m - 1)
  end.
Definition getDate (d : Date) : option Z :=
  match d with
  | InvalidDate => None
  | DateAt t => let '(_, _, day) := local_date t in Some day
  end.

Definition isSameDay (date1 date2 : Date) : bool :=
  number_eq (getFullYear date1) (getFullYear date2)
  && number_eq (getMonth date1) (getMonth date2)
  && number_eq (getDate date1) (getDate date2).

Definition isValidDateString (dateString : string) : bool :=
  if String.eqb dateString "" then false
  else if negb (matches_date_pattern dateString) then false
  else
    let date := Date_of_string engine (dateString ++ "T00:00:00") in
    negb (isNaN_time date).

(* ===================================================================== *)
(** * 14. Date picker ([components/DatePicker.tsx])                      *)
(* ===================================================================== *)

(** [`${year}-${month}-${day}`] of the local date, the month and the day
    padded to two digits; the year is written as it is. *)
Definition formatDateForInput (date : option Date) : string :=
  match date with
  | None => ""
  | Some date =>
      if isNaN_time date then ""
      else
        let year := default 0 (getFullYear date) in
        let month := padStart 2 "0" (pretty (default 0 (getMonth date) + 1)) in
        let day := padStart 2 "0" (pretty (default 0 (getDate date))) in
        pretty year ++ "-" ++ month ++ "-" ++ day
  end.

Definition parseDateFromInput (dateString : string) : option Date :=
  if String.eqb dateString "" then None
  else
    let date := Date_of_string engine (dateString ++ "T00:00:00") in
    if isNaN_time date then None else Some date.

(** The properties of the picker that its change handler reads.  A field
    carries the prefix [pp_]. *)
Record DatePickerProps : Type := mkPickerProps {
  pp_disabled : bool;
  pp_required : bool;
  pp_minDate : option Date;
  pp_maxDate : option Date;
  pp_warnFutureDates : bool;
  pp_requireFutureDates : bool;
  pp_disallowFutureDates : bool;
  pp_validationOptions : DateValidationOptions
}.

(** [{ required, minDate, maxDate, warnFutureDates, requireFutureDates,
    disallowFutureDates, ...validationOptions }]; a [None] field of
    [validationOptions] is an absent property. *)
Definition pickerOptions (props : DatePickerProps) : DateValidationOptions :=
  let over := pp_validationOptions props in
  mkOptions
    (override (Some (pp_required props)) (required over))
    (override (pp_minDate props) (minDate over))
    (override (pp_maxDate props) (maxDate over))
    (override (Some (pp_warnFutureDates props)) (warnFutureDates over))
    (override (Some (pp_requireFutureDates props)) (requireFutureDates over))
    (override (Some (pp_disallowFutureDates props)) (disallowFutureDates over))
    (customMessages over).

(** What the change handler does: it sets the error of the picker, and it
    calls [onChange]. *)
Inductive PickerEffect : Type :=
| SetInternalError (message : string)
| OnChange (date : option Date).

Variable host : Host.

Definition validateDateValue (props : DatePickerProps) (date : option Date)
    : string :=
  errorMessage (validateDate host date (pickerOptions props)).

(** [handleDateChange] on the text [inputValue] of the input element. *)
Definition handleDateChange (props : DatePickerProps) (inputValue : string)
    : list PickerEffect :=
  if pp_disabled props then []
  else
  SetInternalError "" ::
  if String.eqb inputValue "" then
    let validationError := validateDateValue props None in
    (if negb (String.eqb validationError "")
     then [SetInternalError validationError] else [])
    ++ [OnChange None]
  else
  if negb (isValidDateString inputValue)
  then [SetInternalError "올바른 날짜 형식이 아닙니다."]
  else
  match parseDateFromInput inputValue with
  | None => [SetInternalError "올바른 날짜 형식이 아닙니다."]
  | Some parsedDate =>
      let validationError := validateDateValue props (Some parsedDate) in
      if negb (String.eqb validationError "")
      then [SetInternalError validationError]
      else [OnChange (Some parsedDate)]
  end.

End DateUtilities.

(** An engine reads the local dates when [new Date] on [YYYY-MM-DDT00:00:00]
    is the instant whose local time is the midnight that starts that day. *)
Definition reads_local_dates (engine : Engine) : Prop :=
  forall y m d,
    0 <= y <= 9999 -> 1 <= m <= 12 -> 1 <= d <= days_in_month y m ->
    exists t,
      Date_of_string engine
        (pad 4 y ++ "-" ++ pad 2 m ++ "-" ++ pad 2 d ++ "T00:00:00") = DateAt t
      /\ LocalTime engine t = days_from_civil y m d * msPerDay.

(** An engine whose local time is UTC.  Of the strings it reads only those
    of the picker, [YYYY-MM-DDT00:00:00] with a date of the calendar. *)
Definition utcEngine : Engine :=
  mkEngine
    (fun t => t)
    (fun text =>
       match ('(y, s) ← fixed_digits 4 0 text;
              s ← expect "-" s;
              '(m, s) ← fixed_digits 2 0 s;
              s ← expect "-" s;
              '(d, s) ← fixed_digits 2 0 s;
              if String.eqb s "T00:00:00"
                 && (1 <=? m) && (m <=? 12) && (1 <=? d) && (d <=? days_in_month y m)
              then Some (days_from_civil y m d * msPerDay)
              else None) with
       | Some t => DateAt t
       | None => InvalidDate
       end).

(* ===================================================================== *)
(** * 15. Course row ([components/CourseRow.tsx])                        *)
(* ===================================================================== *)

(** The options of the two pickers of a row; [CourseRow] and [CourseCard]
    hold the same ones and the same handlers. *)
Definition startDateValidationOptions : DateValidationOptions :=
  mkOptions None None None None None (Some true)
    (Some (mkMessages None
             (Some "올바른 날짜 형식이 아닙니다.")
             (Some "시작일은 종료일보다 이전이어야 합니다.")
             None None
             (Some "시작일은 미래 날짜를 선택할 수 없습니다.")
             None None)).

Definition endDateValidationOptions : DateValidationOptions :=
  mkOptions None None None None None None
    (Some (mkMessages None
             (Some "올바른 날짜 형식이 아닙니다.")
             (Some "종료일은 시작일보다 이후여야 합니다.")
             None None None None None)).

(** What a handler of the row does: it sets one of the three error messages
    of the row, and it dispatches an action. *)
Inductive RowEffect : Type :=
| SetDateError (message : string)
| SetStartDateError (message : string)
| SetEndDateError (message : string)
| Dispatch (action : CurriculumAction).

Definition validateDates (startDate endDate : option Date) : string :=
  errorMessage (validateDateRange startDate endDate startDateValidationOptions).

Section CourseRow.

Variable host : Host.

Definition handleStartDateChange (course : Course) (weekId : Z)
    (date : option Date) : list RowEffect :=
  SetDateError "" :: SetStartDateError "" ::
  let startDateValidation :=
    validateCourseDate host date (endDate course) true startDateValidationOptions in
  if negb (isValid startDateValidation)
  then [SetStartDateError (errorMessage startDateValidation)]
  else
  let rangeError := validateDates date (endDate course) in
  if negb (String.eqb rangeError "") then [SetDateError rangeError]
  else
  [Dispatch (mkAction SET_START_DATE
               (mkPayload (Some weekId) (Some (cId course)) date None))].

Definition handleEndDateChange (course : Course) (weekId : Z)
    (date : option Date) : list RowEffect :=
  SetDateError "" :: SetEndDateError "" ::
  let endDateValidation :=
    validateCourseDate host date (startDate course) false endDateValidationOptions in
  if negb (isValid endDateValidation)
  then [SetEndDateError (errorMessage endDateValidation)]
  else
  let rangeError := validateDates (startDate course) date in
  if negb (String.eqb rangeError "") then [SetDateError rangeError]
  else
  [Dispatch (mkAction SET_END_DATE
               (mkPayload (Some weekId) (Some (cId course)) date None))].

End CourseRow.

(** The state once the actions that a handler dispatched went through the
    reducer. *)
Definition dispatched (s : CurriculumState) (effects : list RowEffect)
    : CurriculumState :=
  fold_left (fun state effect =>
               match effect with
               | Dispatch action => curriculumReducer state action
               | _ => state
               end)
            effects s.

(** Neither date of the course is an invalid date, and the course does not
    start after it ends. *)
Definition course_dates_consistent (c : Course) : Prop :=
  startDate c <> Some InvalidDate
  /\ endDate c <> Some InvalidDate
  /\ forall a b, startDate c = Some (DateAt a) -> endDate c = Some (DateAt b) ->
                 a <= b.

Definition dates_consistent (s : CurriculumState) : Prop :=
  forall w c, In w (weeks s) -> In c (courses w) -> course_dates_consistent c.

(** The date that the start picker of a row lets through. *)
Definition start_date_passes (host : Host) (course : Course) (date : option Date)
    : Prop :=
  match date with
  | None => True
  | Some d =>
      exists t, d = DateAt t /\ t <= startOfLocalDay host (currentTime host)
        /\ match endDate course with
           | None => True
           | Some e => exists u, e = DateAt u /\ t <= u
           end
  end.

(** The date that the end picker of a row lets through. *)
Definition end_date_passes (course : Course) (date : option Date) : Prop :=
  match date with
  | None => True
  | Some d =>
      exists t, d = DateAt t
        /\ match startDate course with
           | None => True
           | Some b => exists u, b = DateAt u /\ u <= t
           end
  end.

(* ===================================================================== *)
(** * 16. Provider ([context/CurriculumContext.tsx])                     *)
(* ===================================================================== *)

(** [state.weeks.some(week => week.courses.some(course =>
      course.completed || course.startDate || course.endDate))] *)
Definition hasProgressData (state : CurriculumState) : bool :=
  existsb (fun week =>
             existsb (fun course =>
                        completed course || truthy_object (startDate course)
                        || truthy_object (endDate course))
                     (courses week))
          (weeks state).

(** The effect that runs on mount, on the provider whose state is [state]:
    the state that the provider holds once the dispatched [LOAD_DATA], if
    there is one, went through the reducer. *)
Definition loadOnMount (engine : Engine) (initialState state : CurriculumState)
    : M CurriculumState :=
  try_catch
    (let* savedState := loadCurriculumState engine initialState in
     match savedState with
     | Some saved =>
         ret (curriculumReducer state
                (mkAction LOAD_DATA (mkPayload None None None (Some saved))))
     | None => ret state
     end)
    (fun error => ret state).

(** The effect that runs when the state changes. *)
Definition saveOnChange (now : Date) (state : CurriculumState) : M unit :=
  if hasProgressData state
  then try_catch (saveCurriculumState now state ;;; ret tt) (fun error => ret tt)
  else ret tt.

(* ===================================================================== *)
(** * 17. Progress bar ([components/ProgressBar.tsx])                    *)
(* ===================================================================== *)

(** [Math.max(0, Math.min(100, progress))] *)
Definition normalizedProgress (progress : Z) : Z := Z.max 0 (Z.min 100 progress).

(** The two shapes of a verdict: valid, with no message and no error type;
    or invalid, with an error type. *)
Definition verdict_shape (r : DateValidationResult) : Prop :=
  if isValid r then r = mkResult true "" None else errorType r <> None.

(** Options under which [disallowFutureDates] and [requireFutureDates] are
    both set. *)
Definition bothFutureOptions : DateValidationOptions :=
  mkOptions None None None None (Some true) (Some true) None.

(** A start picker as a row holds it, and the same picker with an empty
    message for the dates of the future. *)
Definition startPicker : DatePickerProps :=
  mkPickerProps false false None None false false true startDateValidationOptions.

Definition silentPicker : DatePickerProps :=
  mkPickerProps false false None None false false true
    (mkOptions None None None None None None
       (Some (mkMessages None None None None None (Some "") None None))).

(** [padStart 2 "0" (pretty n) = pad 2 n] on the numbers from 0 to [bound]. *)
Definition two_digits_upto (bound : nat) : bool :=
  forallb (fun n => String.eqb (padStart 2 "0" (pretty (Z.of_nat n)))
                               (pad 2 (Z.of_nat n)))
          (seq 0 (S bound)).

(* ===================================================================== *)
(** * 18. The keys of the adapter                                        *)
(* ===================================================================== *)

(** A computation that leaves the items of the store as they are, but for
    the record of the curriculum and the key of the availability probe. *)
Definition leaves_other_keys {A : Type} (m : M A) : Prop :=
  forall st k,
    k <> STORAGE_KEY -> k <> "__localStorage_test__" ->
    items (snd (m st)) !! k = items st !! k.

(** A state in which a date is an invalid date, or lies out of the range of
    a [Date], so that [toISOString] throws on it. *)
Definition has_unprintable_date (s : CurriculumState) : Prop :=
  exists w c, In w (weeks s) /\ In c (courses w)
    /\ (optional_iso (startDate c) = None \/ optional_iso (endDate c) = None).

(** A week whose second course has an invalid start date. *)
Definition brokenState : CurriculumState :=
  mkState
    [mkWeek 1 "week 1"
       [mkCourse "1-1" "first" None None true;
        mkCourse "1-2" "second" (Some InvalidDate) None false] 50]
    50.

(** A state with one completed course and no date, and the state that
    [TOGGLE_COMPLETION] on that course leads to. *)
Definition oneDoneState : CurriculumState :=
  mkState
    [mkWeek 1 "week 1"
       [mkCourse "1-1" "first" None None true;
        mkCourse "1-2" "second" None None false] 50;
     mkWeek 2 "week 2"
       [mkCourse "2-1" "third" None None false] 0]
    33.

Definition noneDoneState : CurriculumState :=
  curriculumReducer oneDoneState (toggle 1 "1-1").

(** A store that holds a record and whose operations fail now and then. *)
Definition flakyStore : storage :=
  mkStorage {[ STORAGE_KEY := default "" (recordText sampleNow sampleState) ]}
    [None; None; None; None; Some (Error "SecurityError")].

(** The sample state as [loadCurriculumState] returns it on the seed: the
    percentages are those of the seed. *)
Definition sampleLoaded : CurriculumState :=
  mkState (map (fun w => with_progress w 0) (weeks sampleState)) 0.
(* ===================================================================== *)
(** * Properties                                                         *)
(* ===================================================================== *)

Lemma updateAllProgress_courses (s : CurriculumState) :
  map courses (weeks (updateAllProgress s)) = map courses (weeks s).
Proof.
  unfold updateAllProgress; simpl.
  induction (weeks s) as [|w ws IH]; simpl; [reflexivity | now rewrite IH].
Qed.

(** Recomputing the weeks of a recomputed state changes none of them. *)
Lemma updateAllProgress_weeks_fixed (s : CurriculumState) :
  map (fun week => with_progress week (calculateWeekProgress (courses week)))
      (weeks (updateAllProgress s))
  = weeks (updateAllProgress s).
Proof.
  unfold updateAllProgress; simpl. rewrite map_map.
  apply map_ext. intros w. reflexivity.
Qed.

(** C2. Recomputing is idempotent:
    [updateAllProgress (updateAllProgress s) = updateAllProgress s]. *)
Theorem C2_updateAllProgress_idempotent (s : CurriculumState) :
  updateAllProgress (updateAllProgress s) = updateAllProgress s.
Proof.
  unfold updateAllProgress at 1. cbv zeta.
  rewrite updateAllProgress_weeks_fixed. reflexivity.
Qed.


(* --------------------------------------------------------------------- *)
(** ** Progress engine                                                   *)
(* --------------------------------------------------------------------- *)

Lemma updateAllProgress_week (s : CurriculumState) (w : Week) :
  In w (weeks (updateAllProgress s)) ->
  progress w = calculateWeekProgress (courses w).
Proof.
  unfold updateAllProgress; simpl. rewrite in_map_iff.
  intros [w0 [<- _]]. reflexivity.
Qed.

Lemma fold_left_add_shift {A : Type} (f : A -> Z) (l : list A) (a : Z) :
  fold_left (fun total x => total + f x) l a
  = a + fold_left (fun total x => total + f x) l 0.
Proof.
  revert a. induction l as [|x l IH]; intros a; simpl; [lia|].
  rewrite (IH (a + f x)), (IH (0 + f x)). lia.
Qed.

Lemma totalCourses_flat (ws : list Week) :
  totalCourses ws = Z.of_nat (length (concat (map courses ws))).
Proof.
  unfold totalCourses. induction ws as [|w ws IH]; simpl; [reflexivity|].
  rewrite fold_left_add_shift, IH, length_app. lia.
Qed.

Lemma totalCompleted_flat (ws : list Week) :
  totalCompleted ws = completedCount (concat (map courses ws)).
Proof.
  unfold totalCompleted, completedCount.
  induction ws as [|w ws IH]; simpl; [reflexivity|].
  rewrite fold_left_add_shift, IH, List.filter_app, length_app. lia.
Qed.

(** The overall percentage is the week percentage of the flattened course
    list: every course counts once, whatever week it sits in. *)
Lemma calculateOverallProgress_flat (ws : list Week) :
  calculateOverallProgress ws = calculateWeekProgress (concat (map courses ws)).
Proof.
  unfold calculateOverallProgress, calculateWeekProgress.
  now rewrite totalCourses_flat, totalCompleted_flat.
Qed.

Lemma updateAllProgress_overall (s : CurriculumState) :
  overallProgress (updateAllProgress s)
  = calculateWeekProgress (concat (map courses (weeks s))).
Proof.
  rewrite <- updateAllProgress_courses.
  unfold updateAllProgress at 1; simpl. apply calculateOverallProgress_flat.
Qed.

Lemma completedCount_bounds (cs : list Course) :
  0 <= completedCount cs <= Z.of_nat (length cs).
Proof.
  unfold completedCount. pose proof (List.filter_length_le completed cs). lia.
Qed.

(** Below forty courses the binary64 evaluation of [(c / n) * 100] rounds to
    the percentage of the specification: checked on each of the pairs. *)
Definition percent_agrees (c n : nat) : bool :=
  Math_round (js_ratio_times_100 (Z.of_nat c) (Z.of_nat n))
  =? round_percent (Z.of_nat c) (Z.of_nat n).

Definition percent_agrees_upto (bound : nat) : bool :=
  forallb (fun n => forallb (fun c => percent_agrees c n) (seq 0 (S n)))
          (seq 1 bound).

Lemma percent_agrees_below_40 : percent_agrees_upto 39 = true.
Proof. vm_compute. reflexivity. Qed.

Lemma Math_round_exact_below_40 (c n : Z) :
  0 <= c <= n -> 0 < n < 40 ->
  Math_round (js_ratio_times_100 c n) = round_percent c n.
Proof.
  intros Hc Hn.
  pose proof percent_agrees_below_40 as H. unfold percent_agrees_upto in H.
  rewrite forallb_forall in H.
  specialize (H (Z.to_nat n)).
  rewrite forallb_forall in H.
  assert (Hin : In (Z.to_nat n) (seq 1 39)) by (apply in_seq; lia).
  specialize (H Hin (Z.to_nat c)).
  assert (Hic : In (Z.to_nat c) (seq 0 (S (Z.to_nat n)))) by (apply in_seq; lia).
  specialize (H Hic). unfold percent_agrees in H.
  rewrite !Z2Nat.id in H by lia. now apply Z.eqb_eq.
Qed.

Lemma calculateWeekProgress_exact_below_40 (cs : list Course) :
  (length cs < 40)%nat ->
  calculateWeekProgress cs =
    if Z.of_nat (length cs) =? 0 then 0
    else round_percent (completedCount cs) (Z.of_nat (length cs)).
Proof.
  intros Hlen. unfold calculateWeekProgress.
  destruct (Z.eqb_spec (Z.of_nat (length cs)) 0) as [|Hne]; [reflexivity|].
  apply Math_round_exact_below_40; [apply completedCount_bounds | lia].
Qed.

(* --------------------------------------------------------------------- *)
(** ** Reducer                                                           *)
(* --------------------------------------------------------------------- *)

(** Off the no-op path the reducer ends in [updateAllProgress]. *)
Lemma curriculumReducer_recomputes (s : CurriculumState) (a : CurriculumAction) :
  takes_noop_path a = false ->
  exists s', curriculumReducer s a = updateAllProgress s'.
Proof.
  unfold takes_noop_path, curriculumReducer.
  destruct (type_ a); intros H.
  1-3: rewrite negb_false_iff in H; rewrite ?andb_true_iff in H;
       repeat match goal with H : _ /\ _ |- _ => destruct H end;
       repeat match goal with H : _ = true |- _ => rewrite H; clear H end;
       simpl; eexists; reflexivity.
  - destruct (data (payload a)); [eexists; reflexivity | discriminate].
  - discriminate.
Qed.

(** So the derived fields of its result are those of the progress engine. *)
Lemma curriculumReducer_progress (s : CurriculumState) (a : CurriculumAction) :
  takes_noop_path a = false ->
  let s' := curriculumReducer s a in
  (forall w, In w (weeks s') -> progress w = calculateWeekProgress (courses w))
  /\ overallProgress s' = calculateWeekProgress (concat (map courses (weeks s'))).
Proof.
  intros H. destruct (curriculumReducer_recomputes s a H) as [s0 E].
  cbv zeta. rewrite E. split.
  - apply updateAllProgress_week.
  - rewrite updateAllProgress_overall.
    f_equal. f_equal. symmetry. apply updateAllProgress_courses.
Qed.

(** With fewer than forty courses in all, these fields satisfy the
    derived-value invariant of the specification. *)
Lemma curriculumReducer_invariant_below_40
    (s : CurriculumState) (a : CurriculumAction) :
  takes_noop_path a = false ->
  let s' := curriculumReducer s a in
  (length (concat (map courses (weeks s'))) < 40)%nat ->
  (forall w, In w (weeks s') -> week_progress_ok w) /\ overall_progress_ok s'.
Proof.
  intros H s' Hlen. destruct (curriculumReducer_progress s a H) as [Hw Ho].
  fold s' in Hw, Ho. split.
  - intros w Hin. unfold week_progress_ok. rewrite (Hw w Hin).
    apply calculateWeekProgress_exact_below_40.
    assert (length (courses w) <= length (concat (map courses (weeks s'))))%nat; [|lia].
    clear - Hin. induction (weeks s') as [|w0 ws IH]; simpl in *; [tauto|].
    rewrite length_app. destruct Hin as [->|Hin]; [lia | specialize (IH Hin); lia].
  - unfold overall_progress_ok. cbv zeta. rewrite Ho.
    now apply calculateWeekProgress_exact_below_40.
Qed.

(** C1, at a state the reducer can receive.  Twenty-two of the forty courses
    of the week are completed and [TOGGLE_COMPLETION] completes the
    twenty-third.  The transition recomputes, but [(23 / 40) * 100] is
    [57.49999999999999] in binary64 and [Math.round] takes it to [57], where
    [round (100 * 23 / 40)] is [58], the tie going up or to the even
    neighbour alike. *)
Theorem C1_reducer_percentage_of_23_in_40 :
  let s' := curriculumReducer (fortyState 22) (toggle 1 "1-23") in
  takes_noop_path (toggle 1 "1-23") = false
  /\ map (fun w => (Z.of_nat (length (courses w)), completedCount (courses w), progress w))
         (weeks s') = [(40, 23, 57)]
  /\ overallProgress s' = 57
  /\ round_percent 23 40 = 58
  /\ round_percent_half_even 23 40 = 58
  /\ ~ (forall w, In w (weeks s') -> week_progress_ok w).
Proof.
  cbv zeta.
  split; [reflexivity|]. split; [vm_compute; reflexivity|].
  split; [vm_compute; reflexivity|]. split; [reflexivity|]. split; [reflexivity|].
  intros H.
  assert (Hin : In (mkWeek 1 "week 1" (fortyCourses 23) 57)
                   (weeks (curriculumReducer (fortyState 22) (toggle 1 "1-23")))).
  { vm_compute. left. reflexivity. }
  specialize (H _ Hin). vm_compute in H. discriminate H.
Qed.

Lemma updateAllProgress_In (s : CurriculumState) (w : Week) :
  In w (weeks s) ->
  In (with_progress w (calculateWeekProgress (courses w))) (weeks (updateAllProgress s)).
Proof.
  intros H. unfold updateAllProgress; simpl.
  apply (in_map (fun week => with_progress week (calculateWeekProgress (courses week)))).
  exact H.
Qed.

Lemma updateAllProgress_In_inv (s : CurriculumState) (w' : Week) :
  In w' (weeks (updateAllProgress s)) ->
  exists w, In w (weeks s) /\ wId w' = wId w /\ title w' = title w
            /\ courses w' = courses w.
Proof.
  unfold updateAllProgress; simpl. rewrite in_map_iff.
  intros [w [<- Hin]]. exists w. repeat split; assumption.
Qed.

(** When no week carries the identifier, [updateCourse] changes nothing. *)
Lemma updateCourse_no_week (s : CurriculumState) (wid : option Z)
    (cid : option string) (f : Course -> Course) :
  (forall w, In w (weeks s) -> number_strict_eq (wId w) wid = false) ->
  updateCourse s wid cid f = s.
Proof.
  intros H. unfold updateCourse, with_weeks. destruct s as [ws o]; simpl in *.
  f_equal. induction ws as [|w ws IH]; simpl; [reflexivity|].
  rewrite (H w) by (left; reflexivity).
  f_equal. apply IH. intros w0 Hin. apply H. right. exact Hin.
Qed.

(** C5, as the specification states it, fails on a state whose derived
    fields are stale: no week is numbered 999, yet the transition recomputes
    the percentages and returns a different state. *)
Lemma C5_counterexample :
  (forall w, In w (weeks staleState) -> wId w <> 999)
  /\ curriculumReducer staleState (toggle 999 "1-1") <> staleState
  /\ curriculumReducer staleState (toggle 999 "1-1") = freshState.
Proof.
  split; [|split].
  - intros w [<-|[]]. discriminate.
  - vm_compute. discriminate.
  - vm_compute. reflexivity.
Qed.

(** C5, amended.  [TOGGLE_COMPLETION] with a course identifier and a week
    identifier that matches no week returns the state [s] itself when the
    guard takes an identifier for missing, the week identifier being 0 or
    the course identifier the empty string, and [updateAllProgress s]
    otherwise.  So it returns a state equal to [s] exactly when the guard
    applies or the derived fields of [s] are up to date, that is,
    [updateAllProgress s = s]. *)
Theorem C5_toggle_unknown_week (s : CurriculumState) (wid : Z) (cid : string) :
  (forall w, In w (weeks s) -> wId w <> wid) ->
  let s' := curriculumReducer s (toggle wid cid) in
  s' = (if (wid =? 0) || String.eqb cid "" then s else updateAllProgress s)
  /\ (s' = s <-> wid = 0 \/ cid = "" \/ updateAllProgress s = s).
Proof.
  intros Hno. cbv zeta.
  assert (Hred : curriculumReducer s (toggle wid cid)
                 = if (wid =? 0) || String.eqb cid "" then s
                   else updateAllProgress s).
  { unfold curriculumReducer, toggle; simpl. rewrite !negb_involutive.
    destruct ((wid =? 0) || String.eqb cid ""); [reflexivity|].
    rewrite updateCourse_no_week; [reflexivity|].
    intros w Hin. simpl. apply Z.eqb_neq. apply Hno, Hin. }
  split; [exact Hred|]. rewrite Hred.
  destruct (Z.eqb_spec wid 0) as [Hw|Hw]; cbn [orb]; [tauto|].
  destruct (String.eqb_spec cid "") as [Hc|Hc]; [tauto|].
  tauto.
Qed.

Lemma C5_toggle_unknown_week_witness :
  let s' := curriculumReducer staleState (toggle 999 "1-1") in
  s' = updateAllProgress staleState
  /\ (s' = staleState <->
        999 = 0 \/ "1-1" = "" \/ updateAllProgress staleState = staleState).
Proof.
  apply (C5_toggle_unknown_week staleState 999 "1-1").
  intros w [<-|[]]. discriminate.
Defined.

(** C6, as the specification states it, fails for a week numbered 0: the
    guard [!weekId] takes the identifier for a missing field and the start
    date is not stored. *)
Lemma C6_counterexample :
  In zeroWeek (weeks zeroState) /\ In zeroCourse (courses zeroWeek)
  /\ endDate zeroCourse = Some jan15
  /\ curriculumReducer zeroState (setStartDate (wId zeroWeek) (cId zeroCourse) jan20)
     = zeroState
  /\ forall w c, In w (weeks zeroState) -> In c (courses w) -> startDate c = None.
Proof.
  repeat split; try (left; reflexivity).
  intros w c [<-|[]] [<-|[]]. reflexivity.
Qed.

Lemma curriculumReducer_setStartDate (s : CurriculumState) (wid : Z)
    (cid : string) (d : Date) :
  wid <> 0 -> cid <> "" ->
  curriculumReducer s (setStartDate wid cid d)
  = updateAllProgress
      (updateCourse s (Some wid) (Some cid)
         (fun course => with_startDate course (Some d))).
Proof.
  intros Hw Hc. unfold curriculumReducer, setStartDate; simpl.
  apply Z.eqb_neq in Hw. apply String.eqb_neq in Hc. now rewrite Hw, Hc.
Qed.

Lemma updateCourse_In (s : CurriculumState) (wid : Z) (cid : string)
    (f : Course -> Course) (w : Week) (c : Course) :
  In w (weeks s) -> In c (courses w) -> wId w = wid -> cId c = cid ->
  exists w', In w' (weeks (updateCourse s (Some wid) (Some cid) f))
             /\ wId w' = wid /\ In (f c) (courses w').
Proof.
  intros Hw Hc Ew Ec.
  exists (with_courses w
            (map (fun course => if string_strict_eq (cId course) (Some cid)
                                then f course else course) (courses w))).
  split; [|split].
  - unfold updateCourse; simpl.
    apply in_map_iff. exists w. split; [|exact Hw].
    rewrite Ew, Z.eqb_refl. reflexivity.
  - exact Ew.
  - simpl. apply in_map_iff. exists c. split; [|exact Hc].
    rewrite Ec, String.eqb_refl. reflexivity.
Qed.

Lemma updateCourse_In_inv (s : CurriculumState) (wid : Z) (cid : string)
    (f : Course -> Course) (w' : Week) (c' : Course) :
  In w' (weeks (updateCourse s (Some wid) (Some cid) f)) -> wId w' = wid ->
  In c' (courses w') -> cId c' = cid ->
  (forall c, cId (f c) = cId c) ->
  exists c, c' = f c.
Proof.
  unfold updateCourse; simpl. intros Hw Ew Hc Ec Hf.
  apply in_map_iff in Hw as [w [<- _]]. simpl in *.
  destruct (Z.eqb_spec (wId w) wid) as [_|NE]; [|contradiction].
  simpl in Hc. apply in_map_iff in Hc as [c [<- _]].
  destruct (String.eqb_spec (cId c) cid) as [_|NE].
  - exists c. reflexivity.
  - contradiction.
Qed.

(** C6, amended.  The reducer validates no date: when the week identifier is
    not 0 and the course identifier is not the empty string, [SET_START_DATE]
    with a date strictly after the end date of the course is accepted.  The
    returned state is recomputed, holds the course with the new start date
    and its end date unchanged, and every course of that identifier in a week
    of that identifier has the new start date. *)
Theorem C6_start_after_end_is_stored
    (s : CurriculumState) (w : Week) (c : Course) (e d : Z) :
  In w (weeks s) -> In c (courses w) ->
  endDate c = Some (DateAt e) -> e < d ->
  wId w <> 0 -> cId c <> "" ->
  let s' := curriculumReducer s (setStartDate (wId w) (cId c) (DateAt d)) in
  updateAllProgress s' = s'
  /\ (exists w', In w' (weeks s') /\ wId w' = wId w
        /\ In (with_startDate c (Some (DateAt d))) (courses w'))
  /\ (forall w' c', In w' (weeks s') -> wId w' = wId w ->
        In c' (courses w') -> cId c' = cId c ->
        startDate c' = Some (DateAt d)).
Proof.
  intros Hw Hc _ _ Hw0 Hc0. cbv zeta.
  rewrite (curriculumReducer_setStartDate s _ _ (DateAt d) Hw0 Hc0).
  split.
  { unfold updateAllProgress at 1. cbv zeta.
    rewrite updateAllProgress_weeks_fixed. reflexivity. }
  split.
  - destruct (updateCourse_In s (wId w) (cId c)
                (fun course => with_startDate course (Some (DateAt d)))
                w c Hw Hc eq_refl eq_refl) as [w1 [Hin1 [Hid1 Hc1]]].
    exists (with_progress w1 (calculateWeekProgress (courses w1))).
    split; [apply updateAllProgress_In; exact Hin1|]. split; assumption.
  - intros w' c' Hin' Hid Hc' Hcid.
    apply updateAllProgress_In_inv in Hin' as [w1 [Hin1 [Hid1 [_ Hcs]]]].
    rewrite Hcs in Hc'. rewrite Hid1 in Hid.
    destruct (updateCourse_In_inv s _ _ _ w1 c' Hin1 Hid Hc' Hcid) as [c0 ->];
      reflexivity.
Qed.

Lemma C6_start_after_end_is_stored_witness :
  let s' := curriculumReducer datedState (setStartDate 1 "1-1" jan20) in
  updateAllProgress s' = s'
  /\ (exists w', In w' (weeks s') /\ wId w' = 1
        /\ In (with_startDate datedCourse (Some jan20)) (courses w'))
  /\ (forall w' c', In w' (weeks s') -> wId w' = 1 ->
        In c' (courses w') -> cId c' = "1-1" ->
        startDate c' = Some jan20).
Proof.
  apply (C6_start_after_end_is_stored datedState datedWeek datedCourse
           1705276800000 1705708800000).
  - left; reflexivity.
  - left; reflexivity.
  - reflexivity.
  - reflexivity.
  - discriminate.
  - discriminate.
Defined.

(** C10, as the specification states it, fails in its last clause: a week
    numbered 0 is modified through the action interface.  [LOAD_DATA]
    replaces the weeks of the state, that week among them; and an action on
    a course of another week recomputes the percentage of that week, which
    was stale. *)
Lemma C10_counterexample :
  nth_error (weeks zeroFirstState) 0 = Some zeroDoneWeek /\ wId zeroDoneWeek = 0
  /\ curriculumReducer zeroFirstState (loadData datedState)
     = mkState [datedWeek] 0
  /\ nth_error (weeks (curriculumReducer zeroFirstState (toggle 1 "1-1"))) 0
     = Some (with_progress zeroDoneWeek 100)
  /\ with_progress zeroDoneWeek 100 <> zeroDoneWeek.
Proof.
  split; [reflexivity|]. split; [reflexivity|].
  split; [vm_compute; reflexivity|]. split; [vm_compute; reflexivity|].
  discriminate.
Qed.

(** C10, amended.  [SET_START_DATE], [SET_END_DATE] and [TOGGLE_COMPLETION]
    with [weekId: 0], or with an empty [courseId], return the input state,
    whatever the rest of the payload.  Whatever its payload, none of these
    three actions changes the identifier, the title or the courses of a
    week numbered 0; its percentage stays when the action takes the guard
    and is recomputed from its courses otherwise.  [LOAD_DATA] with a state
    replaces the whole state by that one, recomputed. *)
Theorem C10_week_zero_cannot_be_addressed (s : CurriculumState) :
  (forall t wid cid d dt,
     is_course_action t = true -> wid = Some 0 \/ cid = Some "" ->
     curriculumReducer s (mkAction t (mkPayload wid cid d dt)) = s)
  /\ (forall t p i w,
        is_course_action t = true ->
        nth_error (weeks s) i = Some w -> wId w = 0 ->
        exists w', nth_error (weeks (curriculumReducer s (mkAction t p))) i = Some w'
                   /\ wId w' = 0 /\ title w' = title w /\ courses w' = courses w
                   /\ progress w'
                      = if takes_noop_path (mkAction t p) then progress w
                        else calculateWeekProgress (courses w))
  /\ (forall p d, data p = Some d ->
        curriculumReducer s (mkAction LOAD_DATA p) = updateAllProgress d).
Proof.
  split; [|split].
  - intros t wid cid d dt Ht [-> | ->]; destruct t; try discriminate;
      unfold curriculumReducer; cbn; rewrite ?orb_true_r; reflexivity.
  - intros t p i w Ht Hi Hz.
    assert (Hupd : forall f,
      truthy_number (weekId p) = true ->
      nth_error (weeks (updateAllProgress
                          (updateCourse s (weekId p) (courseId p) f))) i
      = Some (with_progress w (calculateWeekProgress (courses w)))).
    { intros f Etr. unfold updateAllProgress, updateCourse; simpl.
      rewrite !nth_error_map, Hi. simpl.
      assert (E : number_strict_eq (wId w) (weekId p) = false).
      { rewrite Hz. destruct (weekId p) as [[|n|n]|]; simpl in *; congruence. }
      now rewrite E. }
    unfold curriculumReducer, takes_noop_path; cbn [type_ payload].
    destruct t; try discriminate.
    all: destruct (truthy_number (weekId p)) eqn:Etr; cbn [negb andb orb];
      [|exists w; auto].
    all: destruct (truthy_string (courseId p)); cbn [negb andb orb];
      [|exists w; auto].
    all: try match goal with
             | |- context [truthy_object (date ?q)] =>
                 destruct (truthy_object (date q)); cbn [negb andb orb];
                 [|exists w; auto]
             end.
    all: rewrite (Hupd _ eq_refl); eexists; split; [reflexivity|];
      cbn [wId title courses progress with_progress]; auto.
  - intros p d Hd. unfold curriculumReducer. cbn [type_ payload].
    now rewrite Hd.
Qed.

(* --------------------------------------------------------------------- *)
(** ** Date validator                                                    *)
(* --------------------------------------------------------------------- *)

(** C7.  The checks of [validateDate] run in a fixed order and the first
    failure wins: a present date whose time is NaN yields [INVALID_FORMAT]
    under every options, those that say [required: true] among them, and so
    never [REQUIRED_FIELD]; a missing date yields [REQUIRED_FIELD] when
    [required] is true and is valid when it is false or left out. *)
Theorem C7_validateDate_order (host : Host) (options : DateValidationOptions) :
  (isValid (validateDate host (Some InvalidDate) options) = false
   /\ errorType (validateDate host (Some InvalidDate) options) = Some INVALID_FORMAT)
  /\ (required options = Some true ->
      isValid (validateDate host None options) = false
      /\ errorType (validateDate host None options) = Some REQUIRED_FIELD)
  /\ (required options <> Some true ->
      validateDate host None options = mkResult true "" None).
Proof.
  unfold validateDate. split; [|split].
  - simpl. rewrite andb_false_r. simpl. split; reflexivity.
  - intros ->. simpl. split; reflexivity.
  - intros H. destruct (required options) as [[|]|]; simpl;
      [congruence | reflexivity | reflexivity].
Qed.

Lemma C7_validateDate_order_witness :
  (isValid (validateDate sampleHost (Some InvalidDate) requiredOptions) = false
   /\ errorType (validateDate sampleHost (Some InvalidDate) requiredOptions)
      = Some INVALID_FORMAT)
  /\ (isValid (validateDate sampleHost None requiredOptions) = false
      /\ errorType (validateDate sampleHost None requiredOptions)
         = Some REQUIRED_FIELD)
  /\ validateDate sampleHost None noOptions = mkResult true "" None.
Proof.
  destruct (C7_validateDate_order sampleHost requiredOptions) as [H1 [H2 _]].
  destruct (C7_validateDate_order sampleHost noOptions) as [_ [_ H3]].
  split; [exact H1|]. split; [apply H2; reflexivity|].
  apply H3. discriminate.
Defined.

(** C8.  [validateDateRange] is valid as soon as one side is absent; with
    both sides present it fails with [INVALID_FORMAT] when one of them has a
    NaN time; and on two valid dates it fails with [START_AFTER_END] exactly
    when the start is strictly after the end, equal dates being valid. *)
Theorem C8_validateDateRange (options : DateValidationOptions) :
  (forall e, validateDateRange None e options = mkResult true "" None)
  /\ (forall s, validateDateRange s None options = mkResult true "" None)
  /\ (forall e,
        isValid (validateDateRange (Some InvalidDate) (Some e) options) = false
        /\ errorType (validateDateRange (Some InvalidDate) (Some e) options)
           = Some INVALID_FORMAT)
  /\ (forall s,
        isValid (validateDateRange (Some s) (Some InvalidDate) options) = false
        /\ errorType (validateDateRange (Some s) (Some InvalidDate) options)
           = Some INVALID_FORMAT)
  /\ (forall a b,
        let r := validateDateRange (Some (DateAt a)) (Some (DateAt b)) options in
        if b <? a
        then isValid r = false /\ errorType r = Some START_AFTER_END
        else r = mkResult true "" None).
Proof.
  unfold validateDateRange. repeat split.
  - destruct s; reflexivity.
  - simpl. now rewrite orb_true_r.
  - simpl. now rewrite orb_true_r.
  - intros a b. simpl. unfold Date_gt, Date_lt; simpl.
    destruct (b <? a); [split|]; reflexivity.
Qed.

Example validateDateRange_boundary :
  validateDateRange (Some jan15) (Some jan15) noOptions = mkResult true "" None
  /\ errorType (validateDateRange (Some jan20) (Some jan15) noOptions)
     = Some START_AFTER_END.
Proof. split; reflexivity. Qed.

(* --------------------------------------------------------------------- *)
(** ** Persistence adapter: saving                                       *)
(* --------------------------------------------------------------------- *)


Example save_retries_after_quota :
  fst (saveCurriculumState sampleNow sampleState quotaOnceStore) = Returned true
  /\ items (snd (saveCurriculumState sampleNow sampleState quotaOnceStore))
       !! STORAGE_KEY = recordText sampleNow sampleState
  /\ failures (snd (saveCurriculumState sampleNow sampleState quotaOnceStore)) = [].
Proof. repeat split; vm_compute; reflexivity. Qed.

Example save_gives_up_after_second_quota :
  fst (saveCurriculumState sampleNow sampleState quotaTwiceStore) = Returned false
  /\ items (snd (saveCurriculumState sampleNow sampleState quotaTwiceStore))
       !! STORAGE_KEY = None
  /\ failures (snd (saveCurriculumState sampleNow sampleState quotaTwiceStore)) = [].
Proof. repeat split; vm_compute; reflexivity. Qed.

Example save_does_not_retry_other_errors :
  fst (saveCurriculumState sampleNow sampleState brokenWriteStore) = Returned false
  /\ items (snd (saveCurriculumState sampleNow sampleState brokenWriteStore))
       !! STORAGE_KEY = Some "old"
  /\ failures (snd (saveCurriculumState sampleNow sampleState brokenWriteStore)) = [].
Proof. repeat split; vm_compute; reflexivity. Qed.

(* --------------------------------------------------------------------- *)
(** ** Persistence adapter: loading                                      *)
(* --------------------------------------------------------------------- *)

#[local] Arguments is_type : simpl never.
#[local] Arguments is_null : simpl never.
#[local] Arguments get : simpl never.
#[local] Arguments truthy : simpl never.

Lemma is_object_true (v : value) :
  negb (is_type type_object v) || is_null v = false <-> is_object v.
Proof.
  unfold is_object, is_type, is_null.
  destruct v as [| | | | | | |name]; cbn; try destruct (is_prototype name);
    split; intros H;
    try discriminate H; try reflexivity;
    try (apply proj1 in H; discriminate H);
    try (apply proj2 in H; exfalso; apply H; reflexivity);
    (split; [reflexivity | discriminate]).
Qed.

Lemma is_object_guard (v : value) :
  negb (truthy v) || negb (is_type type_object v) || is_null v = false
  <-> is_object v.
Proof.
  rewrite <- is_object_true. unfold truthy, is_type, is_null.
  destruct v as [| | | | | | |name]; cbn; try destruct (is_prototype name);
    rewrite ?orb_true_r, ?orb_false_r; tauto.
Qed.

Lemma is_object_truthy (v : value) : is_object v -> truthy v = true.
Proof.
  intros [H1 H2]. destruct v; cbn in H1; try discriminate H1;
    try reflexivity; congruence.
Qed.

Lemma typeof_is_type (t : js_type) (v : value) :
  is_type t v = true <-> typeof v = t.
Proof.
  unfold is_type. destruct (typeof v), t; split; intros H;
    first [reflexivity | discriminate H].
Qed.

Lemma string_guard (v : value) :
  truthy v && negb (is_type type_string v) = false
  <-> (truthy v = true -> typeof v = type_string).
Proof.
  rewrite <- typeof_is_type.
  destruct (truthy v), (is_type type_string v); cbn; split; auto; try discriminate.
  intros H. discriminate (H eq_refl).
Qed.

(** The body of the inner loop of [validateStoredData]. *)
Lemma course_guard (cd : value) :
  (if negb (is_type type_object cd) || is_null cd then false
   else if negb (is_type type_boolean (get cd "completed")) then false
   else if truthy (get cd "startDate")
           && negb (is_type type_string (get cd "startDate")) then false
   else if truthy (get cd "endDate")
           && negb (is_type type_string (get cd "endDate")) then false
   else true) = true
  <-> well_formed_course cd.
Proof.
  unfold well_formed_course.
  rewrite <- is_object_true, <- typeof_is_type, <- !string_guard.
  destruct (negb (is_type type_object cd) || is_null cd);
    [split; [discriminate | intros [? _]; discriminate]|].
  destruct (is_type type_boolean (get cd "completed")); cbn;
    [|split; [discriminate | intros (_ & ? & _); discriminate]].
  destruct (truthy (get cd "startDate") && negb (is_type type_string (get cd "startDate")));
    [split; [discriminate | intros (_ & _ & ? & _); discriminate]|].
  destruct (truthy (get cd "endDate") && negb (is_type type_string (get cd "endDate")));
    [split; [discriminate | intros (_ & _ & _ & ?); discriminate]|].
  tauto.
Qed.

(** [validateStoredData] decides [well_formed_record]. *)
Lemma validateStoredData_spec (data : value) :
  validateStoredData data = true <-> well_formed_record data.
Proof.
  unfold validateStoredData, well_formed_record.
  destruct (negb (truthy data) || negb (is_type type_object data) || is_null data) eqn:E1.
  { split; [discriminate|]. intros [Hobj _]. apply is_object_guard in Hobj. congruence. }
  apply is_object_guard in E1.
  destruct (truthy (get data "version")); cbn;
    [|split; [discriminate | intros (_ & ? & _); discriminate]].
  destruct (truthy (get data "lastUpdated")); cbn;
    [|split; [discriminate | intros (_ & _ & ? & _); discriminate]].
  destruct (truthy (get data "curriculum")) eqn:E4; cbn.
  2:{ split; [discriminate|]. intros (_ & _ & _ & Hc & _).
      apply is_object_truthy in Hc. congruence. }
  destruct (negb (is_type type_object (get data "curriculum"))
            || is_null (get data "curriculum")) eqn:E5.
  { split; [discriminate|]. intros (_ & _ & _ & Hc & _).
    apply is_object_true in Hc. congruence. }
  apply is_object_true in E5.
  rewrite forallb_forall. split.
  - intros H. repeat (split; [assumption || reflexivity|]).
    intros wk wv Hin. specialize (H (wk, wv) Hin). cbn [fst] in H. cbv zeta.
    destruct (negb (is_type type_object (get (get data "curriculum") wk))
              || is_null (get (get data "curriculum") wk)) eqn:E6; [discriminate|].
    apply is_object_true in E6. split; [exact E6|].
    rewrite forallb_forall in H. intros ck cv Hin'.
    specialize (H (ck, cv) Hin'). cbn [fst] in H.
    apply course_guard. exact H.
  - intros (_ & _ & _ & _ & H) [wk wv] Hin. specialize (H wk wv Hin).
    cbv zeta in H. destruct H as [Hw Hcs]. cbn [fst].
    apply is_object_true in Hw. rewrite Hw.
    rewrite forallb_forall. intros [ck cv] Hin'. specialize (Hcs ck cv Hin').
    cbn [fst]. apply course_guard. exact Hcs.
Qed.

Lemma strict_ne_string_false (v : value) (s : string) :
  strict_ne_string v s = false <-> v = VStr s.
Proof.
  unfold strict_ne_string. destruct v; try (split; [discriminate | congruence]).
  rewrite negb_false_iff, String.eqb_eq. split; congruence.
Qed.

(** The operations of the store, unfolded. *)
Ltac run_store :=
  unfold isLocalStorageAvailable, or_throw, try_catch, bind, ret, throw,
    setItem, removeItem, getItem, storage_op;
  cbn [failures items fst snd negb].

Lemma probe_passes (its : gmap string string) :
  isLocalStorageAvailable (mkStorage its []) = (Returned true, mkStorage (probed its) []).
Proof. reflexivity. Qed.

Lemma probed_record (its : gmap string string) :
  probed its !! STORAGE_KEY = its !! STORAGE_KEY.
Proof. unfold probed. rewrite lookup_delete_ne, lookup_insert_ne; done. Qed.

(** [loadCurriculumState] on a store whose operations all go through. *)
Lemma loadCurriculumState_healthy (engine : Engine) (seed : CurriculumState)
    (its : gmap string string) :
  loadCurriculumState engine seed (mkStorage its [])
  = match its !! STORAGE_KEY with
    | None => (Returned None, mkStorage (probed its) [])
    | Some text =>
        if String.eqb text "" then (Returned None, mkStorage (probed its) [])
        else
          match JSON_parse text with
          | None => (Returned None, mkStorage (delete STORAGE_KEY (probed its)) [])
          | Some data =>
              if validateStoredData data
                 && negb (strict_ne_string (get data "version") STORAGE_VERSION)
              then (Returned (Some (storedDataToCurriculumState engine data seed)),
                    mkStorage (probed its) [])
              else (Returned None, mkStorage (delete STORAGE_KEY (probed its)) [])
          end
    end.
Proof.
  unfold loadCurriculumState, bind at 1. rewrite probe_passes. cbn [negb].
  unfold try_catch at 1, bind at 1, getItem, storage_op. cbn [failures items].
  rewrite probed_record.
  destruct (its !! STORAGE_KEY) as [text|]; [|reflexivity].
  cbn [falsy_text]. change (default "" (Some text)) with text.
  destruct (String.eqb text ""); [reflexivity|].
  unfold bind at 1.
  destruct (JSON_parse text) as [data|]; [|reflexivity].
  cbn [or_throw]. unfold ret at 1.
  destruct (validateStoredData data); [|reflexivity].
  destruct (strict_ne_string (get data "version") STORAGE_VERSION); reflexivity.
Qed.

(** [getStorageInfo] on such a store. *)
Lemma getStorageInfo_healthy (its : gmap string string) :
  fst (getStorageInfo (mkStorage its []))
  = match its !! STORAGE_KEY with
    | None => Returned noData
    | Some text =>
        if String.eqb text "" then Returned noData
        else
          match JSON_parse text with
          | None | Some VNull => Returned noData
          | Some data =>
              Returned (mkInfo true (Some (get data "lastUpdated"))
                          (Some (get data "version"))
                          (Some (Z.of_nat (utf16_length text))))
          end
    end.
Proof.
  unfold getStorageInfo, bind at 1. rewrite probe_passes. cbn [negb].
  unfold try_catch at 1, bind at 1, getItem, storage_op. cbn [failures items].
  rewrite probed_record.
  destruct (its !! STORAGE_KEY) as [text|]; [|reflexivity].
  cbn [falsy_text]. change (default "" (Some text)) with text.
  destruct (String.eqb text ""); [reflexivity|].
  unfold bind at 1.
  destruct (JSON_parse text) as [data|]; [|reflexivity].
  destruct data; reflexivity.
Qed.

(** C4, as the specification states it, fails twice.  A stored course whose
    [startDate] is the number 0 has a date field that is not a string, yet
    the record passes the validation and is loaded.  And when the store is
    not available, [null] is returned although the record is present, parses,
    passes the validation and has the expected version. *)
Lemma C4_counterexample :
  (exists data s,
      JSON_parse zeroDateText = Some data
      /\ typeof (get (get (get (get data "curriculum") "1") "1-1") "startDate")
         = type_number
      /\ validateStoredData data = true
      /\ fst (loadCurriculumState isoEngine sampleSeed (storeWith zeroDateText))
         = Returned (Some s))
  /\ (exists text data,
        items unavailableStore !! STORAGE_KEY = Some text
        /\ JSON_parse text = Some data
        /\ validateStoredData data = true
        /\ get data "version" = VStr STORAGE_VERSION
        /\ fst (loadCurriculumState isoEngine sampleSeed unavailableStore) = Returned None).
Proof.
  split.
  - eexists. eexists.
    split; [vm_compute; reflexivity|]. split; [vm_compute; reflexivity|].
    split; vm_compute; reflexivity.
  - eexists. eexists.
    split; [vm_compute; reflexivity|]. split; [vm_compute; reflexivity|].
    split; [vm_compute; reflexivity|]. split; vm_compute; reflexivity.
Qed.

(** A store without a record, or with an empty one, reports no data,
    whichever of its operations fail. *)
Lemma getStorageInfo_falsy (st : storage) :
  falsy_text (items st !! STORAGE_KEY) = true ->
  fst (getStorageInfo st) = Returned noData.
Proof.
  destruct st as [its fs]. cbn [items]. intros Hfalsy.
  unfold getStorageInfo.
  destruct fs as [|[e0|] [|[e1|] [|[e2|] fs]]]; run_store; try reflexivity.
  all: rewrite ?lookup_delete_ne, ?lookup_insert_ne, ?Hfalsy by done;
    cbn [fst]; reflexivity.
Qed.

(** C4, amended.  [loadCurriculumState] never throws.  With the outcomes of
    its successive store operations numbered from 0 (0 and 1 are the
    availability probe, 2 is the read of the record, 3 its removal), it
    returns [null] exactly when the probe fails, whatever the record holds,
    or the read fails, or the record is unreadable: absent or empty, or its
    text does not parse, or the parsed value is not a well-formed record (an
    object with truthy [version], [lastUpdated] and [curriculum], whose
    weeks and courses are objects, each course with a boolean [completed]
    and with [startDate] and [endDate] either falsy or strings), or its
    version is not the expected one.  A state that it returns is the
    overlay of the parsed record on the seed.  When it returns [null] after
    the probe has passed and the removal goes through, a record that was
    not empty is deleted, and [getStorageInfo] reports no data, whichever
    operations fail from then on. *)
Theorem C4_load_null_iff (engine : Engine) (seed : CurriculumState) (st : storage) :
  let f := failure_at st in
  let r := loadCurriculumState engine seed st in
  let record := items st !! STORAGE_KEY in
  exists result,
    fst r = Returned result
    /\ (result = None <->
          is_Some (f 0%nat) \/ is_Some (f 1%nat) \/ is_Some (f 2%nat)
          \/ unreadable record)
    /\ (forall s, result = Some s ->
          exists text data, record = Some text /\ JSON_parse text = Some data
            /\ s = storedDataToCurriculumState engine data seed)
    /\ (result = None -> f 0%nat = None -> f 1%nat = None -> f 3%nat = None ->
          (falsy_text record = false -> items (snd r) !! STORAGE_KEY = None)
          /\ fst (getStorageInfo (snd r)) = Returned noData).
Proof.
  cbv zeta. unfold failure_at, unreadable.
  assert (Hinfo : forall st', falsy_text (items st' !! STORAGE_KEY) = true ->
            fst (getStorageInfo st') = Returned noData)
    by apply getStorageInfo_falsy.
  destruct st as [its fs]. cbn [items failures].
  unfold loadCurriculumState.
  destruct fs as [|[e0|] [|[e1|] [|[e2|] [|[e3|] fs]]]]; run_store; cbn [nth].
  all: rewrite ?lookup_delete_ne, ?lookup_insert_ne by done.
  all: destruct (its !! STORAGE_KEY) as [text|] eqn:Erec; cbn [falsy_text];
    try change (default "" (Some text)) with text.
  all: try match goal with
           | |- context [String.eqb ?t ""] => destruct (String.eqb t "") eqn:Eempty
           end.
  all: try match goal with
           | |- context [JSON_parse ?t] =>
               destruct (JSON_parse t) as [data|] eqn:Eparse
           end.
  all: try match goal with
           | |- context [validateStoredData ?d] =>
               destruct (validateStoredData d) eqn:Evalid
           end.
  all: try match goal with
           | |- context [strict_ne_string (get ?d "version") STORAGE_VERSION] =>
               destruct (strict_ne_string (get d "version") STORAGE_VERSION) eqn:Ever
           end.
  all: cbn [negb fst snd failures items].
  all: repeat match goal with
              | |- context [match ?l with [] => _ | _ :: _ => _ end] =>
                  destruct l as [|[?|] ?]; cbn [fst snd failures items]
              end.
  all: (eexists; split; [reflexivity|]).
  all: rewrite ?lookup_delete_eq, ?lookup_delete_ne, ?lookup_insert_ne by done.
  all: try (apply validateStoredData_spec in Evalid).
  all: try (apply strict_ne_string_false in Ever).
  all: try match goal with
           | H : validateStoredData ?d = false |- _ =>
               assert (~ well_formed_record d)
                 by (rewrite <- validateStoredData_spec; congruence)
           end.
  all: try match goal with
           | H : strict_ne_string (get ?d "version") STORAGE_VERSION = true |- _ =>
               assert (get d "version" <> VStr STORAGE_VERSION)
                 by (rewrite <- strict_ne_string_false; congruence)
           end.
  all: (split; [split; [intros Hres | intros Hcause] | split]).
  (* a cause for [null] *)
  all: try (first
    [ discriminate Hres
    | left; eexists; reflexivity
    | right; left; eexists; reflexivity
    | right; right; left; eexists; reflexivity
    | right; right; right; left; reflexivity
    | right; right; right; right; exists text; split; [reflexivity|];
      first [ left; assumption
            | right; exists data; split; [assumption|];
              first [left; assumption | right; assumption] ] ]).
  (* no cause when a state is returned *)
  all: try (first
    [ reflexivity
    | exfalso;
      destruct Hcause
        as [[x [=]]|[[x [=]]|[[x [=]]|[Hf|(t & [= <-] & [Hp|(d & Hd & [Hw|Hv])])]]]];
      first [ discriminate | congruence
            | rewrite Eparse in Hd; injection Hd as <-; contradiction ] ]).
  (* the state that is returned *)
  all: try (intros s' Hs;
            first [discriminate Hs | injection Hs as <-; exists text, data; auto]).
  (* the record after [null] *)
  all: try (intros Hres Hf0 Hf1 Hf3;
            first [ discriminate Hres | discriminate Hf0 | discriminate Hf1
                  | discriminate Hf3
                  | split;
                    [ intros Hrec;
                      first [ discriminate Hrec
                            | rewrite ?lookup_delete_eq; reflexivity ]
                    | apply Hinfo; cbn [items];
                      rewrite ?lookup_delete_eq, ?lookup_delete_ne,
                        ?lookup_insert_ne, ?Erec by done;
                      cbn [falsy_text]; first [reflexivity | assumption] ] ]).
Qed.

(** The self-healing of the specification: a text that is not JSON is
    removed by the load, which returns [null]; no data is reported then. *)
Example load_heals_a_corrupted_record :
  let r := loadCurriculumState isoEngine sampleSeed (storeWith "invalid json") in
  fst r = Returned None
  /\ items (snd r) !! STORAGE_KEY = None
  /\ fst (getStorageInfo (snd r)) = Returned noData.
Proof. repeat split; vm_compute; reflexivity. Qed.

(* --------------------------------------------------------------------- *)
(** ** Dates through ISO-8601 strings                                    *)
(* --------------------------------------------------------------------- *)

(** On a day of the era, [day_in_era] inverts [date_in_era], whose result
    is a date of the calendar. *)
Lemma date_in_era_spec (doe : Z) :
  0 <= doe < 146097 ->
  let '(yoe, m, d) := date_in_era doe in
  0 <= yoe <= 399 /\ 1 <= m <= 12 /\ 1 <= d
  /\ d <= days_in_month (if m <=? 2 then yoe + 1 else yoe) m
  /\ day_in_era yoe m d = doe.
Proof.
  intros H. unfold date_in_era, day_in_era, days_in_month, is_leap_year.
  set (yoe := (doe - doe / 1460 + doe / 36524 - doe / 146096) / 365).
  set (doy := doe - (365 * yoe + yoe / 4 - yoe / 100)).
  set (mp := (5 * doy + 2) / 153).
  assert (Hyoe : 0 <= yoe <= 399 /\ 0 <= doy <= 365
                 /\ (doy = 365 -> (yoe + 1) mod 4 = 0
                                  /\ ((yoe + 1) mod 100 <> 0 \/ (yoe + 1) mod 400 = 0))).
  { subst doy yoe. Z.div_mod_to_equations. lia. }
  destruct Hyoe as (Hyoe & Hdoy & Hleap).
  assert (Hmp : 0 <= mp <= 11) by (subst mp; Z.div_mod_to_equations; lia).
  assert (Hdoe : doe = 365 * yoe + yoe / 4 - yoe / 100 + doy) by (subst doy; lia).
  clearbody doy. clearbody yoe.
  destruct (Z.ltb_spec mp 10) as [Hlt|Hge].
  - replace (mp + 3 <=? 2) with false by (symmetry; apply Z.leb_gt; lia).
    replace (2 <? mp + 3) with true by (symmetry; apply Z.ltb_lt; lia).
    replace (mp + 3 =? 2) with false by (symmetry; apply Z.eqb_neq; lia).
    replace (mp + 3 - 3) with mp by lia.
    destruct ((mp + 3 =? 4) || (mp + 3 =? 6) || (mp + 3 =? 9) || (mp + 3 =? 11)) eqn:E.
    + rewrite !orb_true_iff, !Z.eqb_eq in E.
      subst mp. repeat split; Z.div_mod_to_equations; lia.
    + rewrite !orb_false_iff, !Z.eqb_neq in E.
      subst mp. repeat split; Z.div_mod_to_equations; lia.
  - replace (mp - 9 <=? 2) with true by (symmetry; apply Z.leb_le; lia).
    replace (2 <? mp - 9) with false by (symmetry; apply Z.ltb_ge; lia).
    replace (mp - 9 + 9) with mp by lia.
    replace ((mp - 9 =? 4) || (mp - 9 =? 6) || (mp - 9 =? 9) || (mp - 9 =? 11)) with false
      by (symmetry; rewrite !orb_false_iff, !Z.eqb_neq; lia).
    destruct (Z.eqb_spec (mp - 9) 2) as [E2|N2].
    + assert (Hd : doy = 365 \/ doy <= 364) by lia.
      destruct ((yoe + 1) mod 4 =? 0) eqn:E4; cbn [andb];
        [destruct (negb ((yoe + 1) mod 100 =? 0) || ((yoe + 1) mod 400 =? 0)) eqn:E100|].
      * subst mp. repeat split; Z.div_mod_to_equations; lia.
      * rewrite orb_false_iff, negb_false_iff, Z.eqb_eq, Z.eqb_neq in E100.
        assert (doy <> 365) by (intros D; specialize (Hleap D); lia).
        subst mp. repeat split; Z.div_mod_to_equations; lia.
      * apply Z.eqb_neq in E4.
        assert (doy <> 365) by (intros D; specialize (Hleap D); lia).
        subst mp. repeat split; Z.div_mod_to_equations; lia.
    + subst mp. repeat split; Z.div_mod_to_equations; lia.
Qed.

Lemma is_leap_year_era (y era : Z) :
  is_leap_year (y + era * 400) = is_leap_year y.
Proof.
  unfold is_leap_year.
  replace ((y + era * 400) mod 4) with (y mod 4)
    by (replace (era * 400) with (era * 100 * 4) by lia; now rewrite Z_mod_plus_full).
  replace ((y + era * 400) mod 100) with (y mod 100)
    by (replace (era * 400) with (era * 4 * 100) by lia; now rewrite Z_mod_plus_full).
  now rewrite Z_mod_plus_full.
Qed.

Lemma days_in_month_era (y era m : Z) :
  days_in_month (y + era * 400) m = days_in_month y m.
Proof. unfold days_in_month. now rewrite is_leap_year_era. Qed.

(** [days_from_civil] inverts [civil_from_days], whose result is a date of
    the calendar. *)
Lemma civil_round_trip (z : Z) :
  let '(y, m, d) := civil_from_days z in
  days_from_civil y m d = z
  /\ 1 <= m <= 12 /\ 1 <= d <= days_in_month y m
  /\ (z + 719468) / 146097 * 400 <= y <= (z + 719468) / 146097 * 400 + 400.
Proof.
  unfold civil_from_days.
  pose proof (Z.mod_pos_bound (z + 719468) 146097 ltac:(lia)) as Hdoe.
  pose proof (date_in_era_spec _ Hdoe) as Hok.
  pose proof (Z.div_mod (z + 719468) 146097 ltac:(lia)) as Hz.
  set (era := (z + 719468) / 146097) in *.
  set (doe := (z + 719468) mod 146097) in *.
  destruct (date_in_era doe) as [[yoe m] d].
  destruct Hok as (Hyoe & Hm & H5 & H6 & H7).
  assert (Hy : (if m <=? 2
                then (if m <=? 2 then yoe + era * 400 + 1 else yoe + era * 400) - 1
                else (if m <=? 2 then yoe + era * 400 + 1 else yoe + era * 400))
               = yoe + era * 400) by (destruct (m <=? 2); lia).
  split; [|split; [lia|split]].
  - unfold days_from_civil. rewrite Hy.
    rewrite Z.div_add by lia. rewrite Z_mod_plus_full.
    rewrite Z.div_small, Z.mod_small by lia. rewrite H7. lia.
  - split; [lia|].
    replace (if m <=? 2 then yoe + era * 400 + 1 else yoe + era * 400)
      with ((if m <=? 2 then yoe + 1 else yoe) + era * 400)
      by (destruct (m <=? 2); lia).
    rewrite days_in_month_era. exact H6.
  - destruct (m <=? 2); lia.
Qed.

(** *** Digits *)

Lemma digit_char_spec (x : Z) :
  0 <= x <= 9 ->
  is_digit (digit_char x) = true /\ digit_value (digit_char x) = x.
Proof.
  intros H.
  assert (C : x = 0 \/ x = 1 \/ x = 2 \/ x = 3 \/ x = 4 \/ x = 5 \/ x = 6
              \/ x = 7 \/ x = 8 \/ x = 9) by lia.
  repeat (destruct C as [->|C]; [split; reflexivity|]). subst. split; reflexivity.
Qed.

Lemma fixed_digits_succ (w : nat) (acc : Z) (s : string) :
  fixed_digits (S w) acc s
  = match fixed_digits w acc s with
    | Some (a, s') => fixed_digits 1 a s'
    | None => None
    end.
Proof.
  revert acc s. induction w as [|w IH]; intros acc s.
  - reflexivity.
  - change (fixed_digits (S (S w)) acc s)
      with (match s with
            | String c rest =>
                if is_digit c then fixed_digits (S w) (10 * acc + digit_value c) rest
                else None
            | EmptyString => None
            end).
    destruct s as [|c rest]; [reflexivity|].
    destruct (is_digit c) eqn:E.
    + rewrite IH. cbn [fixed_digits]. rewrite E. reflexivity.
    + cbn [fixed_digits]. rewrite E. reflexivity.
Qed.

Lemma string_app_assoc (a b c : string) : (a ++ b) ++ c = a ++ (b ++ c).
Proof.
  induction a as [|x a IH]; [reflexivity|].
  change (String x ((a ++ b) ++ c) = String x (a ++ (b ++ c))). now rewrite IH.
Qed.

(** Reading back the digits of [pad]. *)
Lemma fixed_digits_pad (w : nat) (n acc : Z) (rest : string) :
  0 <= n < 10 ^ Z.of_nat w ->
  fixed_digits w acc (pad w n ++ rest) = Some (acc * 10 ^ Z.of_nat w + n, rest).
Proof.
  revert n rest. induction w as [|w IH]; intros n rest Hn.
  - cbn. f_equal. f_equal. change (10 ^ Z.of_nat 0) with 1 in *. lia.
  - rewrite fixed_digits_succ. cbn [pad]. rewrite string_app_assoc.
    assert (Hpow : 10 ^ Z.of_nat (S w) = 10 * 10 ^ Z.of_nat w).
    { rewrite Nat2Z.inj_succ, Z.pow_succ_r by lia. reflexivity. }
    rewrite IH.
    2:{ rewrite Hpow in Hn. split; [apply Z.div_pos; lia|].
        apply Z.div_lt_upper_bound; lia. }
    cbn [fixed_digits append].
    pose proof (Z.mod_pos_bound n 10 ltac:(lia)) as Hm.
    destruct (digit_char_spec (n mod 10) ltac:(lia)) as [Hd Hv].
    change (String (digit_char (n mod 10)) "" ++ rest)
      with (String (digit_char (n mod 10)) rest). cbv iota.
    rewrite Hd, Hv. f_equal. f_equal. rewrite Hpow.
    pose proof (Z.div_mod n 10 ltac:(lia)). lia.
Qed.

Lemma pad_head (w : nat) (n : Z) (rest : string) :
  exists c s, pad (S w) n ++ rest = String c s /\ is_digit c = true.
Proof.
  revert n rest. induction w as [|w IH]; intros n rest.
  - cbn. eexists. eexists. split; [reflexivity|].
    apply digit_char_spec. pose proof (Z.mod_pos_bound n 10 ltac:(lia)). lia.
  - change (pad (S (S w)) n) with (pad (S w) (n / 10) ++ String (digit_char (n mod 10)) "").
    rewrite string_app_assoc. apply IH.
Qed.

Lemma is_digit_not_sign (c : ascii) :
  is_digit c = true -> ascii_eqb c "+" = false /\ ascii_eqb c "-" = false.
Proof.
  destruct c as [[] [] [] [] [] [] [] []]; cbn; intros H;
    first [discriminate H | split; reflexivity].
Qed.

Lemma parse_year_iso (y : Z) (rest : string) :
  Z.abs y < 10 ^ 6 ->
  parse_year (iso_year y ++ rest) = Some (y, rest).
Proof.
  intros Hy. unfold iso_year.
  destruct ((0 <=? y) && (y <=? 9999)) eqn:E.
  - apply andb_true_iff in E as [E1 E2]. apply Z.leb_le in E1, E2.
    destruct (pad_head 3 y rest) as (c & s & Hs & Hc).
    unfold parse_year. rewrite Hs.
    destruct (is_digit_not_sign c Hc) as [-> ->]. rewrite <- Hs.
    rewrite fixed_digits_pad by (change (10 ^ Z.of_nat 4) with 10000; lia).
    reflexivity.
  - destruct (y <? 0) eqn:Eneg.
    + apply Z.ltb_lt in Eneg.
      change (("-" ++ pad 6 (Z.abs y)) ++ rest) with (String "-" (pad 6 (Z.abs y) ++ rest)).
      unfold parse_year.
      change (ascii_eqb "-" "+") with false. change (ascii_eqb "-" "-") with true.
      cbv iota.
      rewrite fixed_digits_pad by (change (Z.of_nat 6) with 6; lia).
      destruct (Z.eqb_spec (0 * 10 ^ Z.of_nat 6 + Z.abs y) 0) as [E0|_]; [lia|].
      f_equal. f_equal. lia.
    + apply Z.ltb_ge in Eneg.
      change (("+" ++ pad 6 (Z.abs y)) ++ rest) with (String "+" (pad 6 (Z.abs y) ++ rest)).
      unfold parse_year.
      change (ascii_eqb "+" "+") with true. cbv iota.
      rewrite fixed_digits_pad by (change (Z.of_nat 6) with 6; lia).
      f_equal. f_equal. lia.
Qed.

Lemma expect_app (c : ascii) (rest : string) :
  expect c (String c "" ++ rest) = Some rest.
Proof.
  change (String c "" ++ rest) with (String c rest).
  unfold expect, ascii_eqb. now rewrite Ascii.eqb_refl.
Qed.

(** *** The round trip *)

Lemma parse_iso_of_time (t : Z) :
  Z.abs t <= maxTime -> parse_iso (iso_of_time t) = Some t.
Proof.
  intros Ht. unfold iso_of_time.
  pose proof (civil_round_trip (t / msPerDay)) as Hciv.
  destruct (civil_from_days (t / msPerDay)) as [[y m] d].
  destruct Hciv as (Hdays & Hm & Hd & Hy).
  pose proof (Z.mod_pos_bound t msPerDay ltac:(unfold msPerDay; lia)) as Hms.
  pose proof (Z.div_mod t msPerDay ltac:(unfold msPerDay; lia)) as Hdm.
  set (ms := t mod msPerDay) in *.
  assert (Hera : -700 <= (t / msPerDay + 719468) / 146097 <= 700).
  { unfold maxTime, msPerDay in *.
    assert (-100000000 <= t / 86400000 <= 100000000).
    { split; [apply Z.div_le_lower_bound | apply Z.div_le_upper_bound]; lia. }
    split; [apply Z.div_le_lower_bound | apply Z.div_le_upper_bound]; lia. }
  assert (Hdm31 : d <= 31).
  { unfold days_in_month in Hd.
    destruct (m =? 2); [destruct (is_leap_year y)|destruct (_ || _)]; lia. }
  unfold msPerDay in *.
  assert (Hh : 0 <= ms / 3600000 <= 23).
  { split; [apply Z.div_pos; lia|].
    assert (ms / 3600000 < 24) by (apply Z.div_lt_upper_bound; lia). lia. }
  pose proof (Z.mod_pos_bound (ms / 60000) 60 ltac:(lia)) as Hmi.
  pose proof (Z.mod_pos_bound (ms / 1000) 60 ltac:(lia)) as Hsec.
  pose proof (Z.mod_pos_bound ms 1000 ltac:(lia)) as Hmsec.
  unfold parse_iso.
  assert (Hy6 : Z.abs y < 10 ^ 6).
  { change (10 ^ 6) with 1000000. lia. }
  rewrite parse_year_iso by exact Hy6. cbn [mbind option_bind].
  rewrite expect_app. cbn [mbind option_bind].
  rewrite fixed_digits_pad by (change (10 ^ Z.of_nat 2) with 100; lia).
  cbn [mbind option_bind]. rewrite expect_app. cbn [mbind option_bind].
  rewrite fixed_digits_pad by (change (10 ^ Z.of_nat 2) with 100; lia).
  cbn [mbind option_bind]. rewrite expect_app. cbn [mbind option_bind].
  rewrite fixed_digits_pad by (change (10 ^ Z.of_nat 2) with 100; lia).
  cbn [mbind option_bind]. rewrite expect_app. cbn [mbind option_bind].
  rewrite fixed_digits_pad by (change (10 ^ Z.of_nat 2) with 100; lia).
  cbn [mbind option_bind]. rewrite expect_app. cbn [mbind option_bind].
  rewrite fixed_digits_pad by (change (10 ^ Z.of_nat 2) with 100; lia).
  cbn [mbind option_bind]. rewrite expect_app. cbn [mbind option_bind].
  replace ("Z") with ("Z" ++ "") by reflexivity.
  rewrite fixed_digits_pad by (change (10 ^ Z.of_nat 3) with 1000; lia).
  cbn [mbind option_bind]. rewrite expect_app. cbn [mbind option_bind].
  change (negb ("" =? "")%string) with false. cbv iota.
  change (0 * 10 ^ Z.of_nat 2) with 0. change (0 * 10 ^ Z.of_nat 3) with 0.
  rewrite !Z.add_0_l.
  assert (G1 : (1 <=? m) && (m <=? 12) && (1 <=? d) && (d <=? days_in_month y m) = true).
  { rewrite !andb_true_iff, !Z.leb_le. lia. }
  rewrite G1. cbn [negb].
  assert (G2 : (ms / 3600000 <=? 23) && (ms / 60000 mod 60 <=? 59)
               && (ms / 1000 mod 60 <=? 59) = true).
  { rewrite !andb_true_iff, !Z.leb_le. lia. }
  rewrite G2. cbn [orb negb].
  f_equal. rewrite Hdays.
  pose proof (Z.div_mod ms 3600000 ltac:(lia)).
  pose proof (Z.div_mod ms 60000 ltac:(lia)).
  pose proof (Z.div_mod ms 1000 ltac:(lia)).
  pose proof (Z.div_mod (ms / 60000) 60 ltac:(lia)).
  pose proof (Z.div_mod (ms / 1000) 60 ltac:(lia)).
  assert (ms / 60000 / 60 = ms / 3600000) by (rewrite Z.div_div by lia; reflexivity).
  assert (ms / 1000 / 60 = ms / 60000) by (rewrite Z.div_div by lia; reflexivity).
  unfold msPerDay. clearbody ms. lia.
Qed.

(** A valid date comes back from its ISO string. *)
Lemma Date_parse_toISOString (d : Date) :
  valid_date d ->
  exists iso, toISOString d = Some iso /\ Date_parse iso = d /\ iso <> "".
Proof.
  intros [t [-> Ht]]. exists (iso_of_time t). unfold toISOString, Date_parse.
  destruct (Z.leb_spec (Z.abs t) maxTime) as [_|]; [|lia].
  rewrite parse_iso_of_time by exact Ht.
  destruct (Z.leb_spec (Z.abs t) maxTime) as [_|]; [|lia].
  repeat split. unfold iso_of_time.
  destruct (civil_from_days (t / msPerDay)) as [[y m] dd].
  unfold iso_year. destruct ((0 <=? y) && (y <=? 9999)).
  - destruct (pad_head 3 y ("-" ++ pad 2 m ++ "-" ++ pad 2 dd ++ "T" ++
      pad 2 (t mod msPerDay / 3600000) ++ ":" ++ pad 2 (t mod msPerDay / 60000 mod 60) ++
      ":" ++ pad 2 (t mod msPerDay / 1000 mod 60) ++ "." ++
      pad 3 (t mod msPerDay mod 1000) ++ "Z")) as (c & s & Hs & _).
    rewrite Hs. discriminate.
  - destruct (y <? 0); discriminate.
Qed.

(** A date that prints is a valid date. *)
Lemma toISOString_valid (d : Date) (iso : string) :
  toISOString d = Some iso -> valid_date d.
Proof.
  destruct d as [|t]; [discriminate|]. cbn [toISOString].
  destruct (Z.leb_spec (Z.abs t) maxTime) as [Ht|]; [|discriminate].
  intros _. exists t. split; [reflexivity | exact Ht].
Qed.

(** The reference engine reads back the strings of [toISOString]. *)
Lemma isoEngine_reads_iso_strings : reads_iso_strings isoEngine.
Proof.
  intros d iso Hiso.
  destruct (Date_parse_toISOString d (toISOString_valid d iso Hiso))
    as (iso' & Hiso' & Hparse & _).
  cbn [isoEngine Date_of_string]. congruence.
Qed.

(* --------------------------------------------------------------------- *)
(** ** Objects                                                           *)
(* --------------------------------------------------------------------- *)

Lemma assoc_None (k : string) (fields : list (string * value)) :
  assoc k fields = None <-> ~ In k (map fst fields).
Proof.
  induction fields as [|[k' v'] fields IH]; cbn [assoc map fst In]; [tauto|].
  destruct (String.eqb_spec k' k) as [->|Hne].
  - split; [discriminate | tauto].
  - rewrite IH. tauto.
Qed.

Lemma has_own_In (k : string) (fields : list (string * value)) :
  has_own k fields = true <-> In k (map fst fields).
Proof.
  unfold has_own. pose proof (assoc_None k fields) as H.
  destruct (assoc k fields).
  - split; [|reflexivity]. intros _.
    destruct (in_dec string_dec k (map fst fields)) as [Hin|Hout]; [exact Hin|].
    apply H in Hout. discriminate.
  - split; [discriminate|]. intros Hin. exfalso. now apply (proj1 H).
Qed.

(** [precedes] is a strict order: the indices in ascending order, ahead of
    the other names. *)
Lemma precedes_after (a b c : string) :
  precedes a b = true -> precedes c b = false -> precedes c a = false.
Proof.
  unfold precedes.
  destruct (array_index a), (array_index b), (array_index c); try discriminate;
    try reflexivity; rewrite ?Z.ltb_lt, ?Z.ltb_ge; lia.
Qed.

Lemma precedes_asym (a b : string) :
  precedes a b = true -> precedes b a = false.
Proof.
  unfold precedes.
  destruct (array_index a), (array_index b); try discriminate;
    try reflexivity; rewrite ?Z.ltb_lt, ?Z.ltb_ge; lia.
Qed.

Lemma replace_own_keys (k : string) (v : value) (fields : list (string * value)) :
  map fst (replace_own k v fields) = map fst fields.
Proof.
  induction fields as [|[k' v'] fields IH]; [reflexivity|].
  cbn [replace_own]. destruct (String.eqb_spec k' k) as [->|_]; cbn [map fst].
  - reflexivity.
  - now rewrite IH.
Qed.

Lemma insert_own_keys (k : string) (v : value) (fields : list (string * value)) :
  forall k', In k' (map fst (insert_own k v fields)) <-> k' = k \/ In k' (map fst fields).
Proof.
  induction fields as [|[k0 v0] fields IH]; intros k'; cbn [insert_own map fst In].
  - intuition congruence.
  - destruct (precedes k k0); cbn [map fst In]; [intuition congruence|].
    rewrite IH. intuition congruence.
Qed.

Lemma insert_own_NoDup (k : string) (v : value) (fields : list (string * value)) :
  ~ In k (map fst fields) -> List.NoDup (map fst fields) ->
  List.NoDup (map fst (insert_own k v fields)).
Proof.
  induction fields as [|[k0 v0] fields IH]; intros Hk Hnd; cbn [insert_own map fst] in *.
  - constructor; [intros []|constructor].
  - destruct (precedes k k0); cbn [map fst].
    + constructor; assumption.
    + apply List.NoDup_cons_iff in Hnd as [H0 Hnd]. constructor.
      * rewrite insert_own_keys. cbn [In] in Hk. intuition congruence.
      * apply IH; [cbn [In] in Hk; tauto | exact Hnd].
Qed.

Lemma obj_set_NoDup (k : string) (v : value) (fields : list (string * value)) :
  List.NoDup (map fst fields) -> List.NoDup (map fst (obj_set k v fields)).
Proof.
  intros Hnd. unfold obj_set. destruct (has_own k fields) eqn:E.
  - now rewrite replace_own_keys.
  - apply insert_own_NoDup; [|exact Hnd]. rewrite <- has_own_In. congruence.
Qed.

Lemma insert_own_in_order (k : string) (v : value) (fields : list (string * value)) :
  in_order (map fst fields) -> in_order (map fst (insert_own k v fields)).
Proof.
  induction fields as [|[k0 v0] fields IH]; intros Hord;
    cbn [insert_own map fst in_order] in *.
  - split; [constructor | exact I].
  - destruct Hord as [H0 Hord]. destruct (precedes k k0) eqn:E; cbn [map fst in_order].
    + split; [|split; assumption]. constructor.
      * now apply precedes_asym.
      * apply Forall_forall. intros k' Hk'. apply list_elem_of_In in Hk'.
        rewrite Forall_forall in H0.
        apply (precedes_after k k0 k' E). apply H0. now apply list_elem_of_In.
    + split; [|now apply IH].
      apply Forall_forall. intros k' Hk'. apply list_elem_of_In in Hk'.
      apply insert_own_keys in Hk' as [->|Hk']; [exact E|].
      rewrite Forall_forall in H0. apply H0. now apply list_elem_of_In.
Qed.

Lemma obj_set_in_order (k : string) (v : value) (fields : list (string * value)) :
  in_order (map fst fields) -> in_order (map fst (obj_set k v fields)).
Proof.
  intros Hord. unfold obj_set. destruct (has_own k fields).
  - now rewrite replace_own_keys.
  - now apply insert_own_in_order.
Qed.

(** A new property that precedes none of the properties of the object is
    the last one. *)
Lemma insert_own_last (k : string) (v : value) (fields : list (string * value)) :
  Forall (fun k' => precedes k k' = false) (map fst fields) ->
  insert_own k v fields = (fields ++ [(k, v)])%list.
Proof.
  induction fields as [|[k0 v0] fields IH]; intros H; [reflexivity|].
  cbn [map fst] in H. apply Forall_cons in H as [H0 H].
  cbn [insert_own]. rewrite H0. cbn [app]. now rewrite IH.
Qed.

Lemma obj_set_last (k : string) (v : value) (fields : list (string * value)) :
  ~ In k (map fst fields) ->
  Forall (fun k' => precedes k k' = false) (map fst fields) ->
  obj_set k v fields = (fields ++ [(k, v)])%list.
Proof.
  intros Hk H. unfold obj_set.
  destruct (has_own k fields) eqn:E; [apply has_own_In in E; contradiction|].
  now apply insert_own_last.
Qed.

Lemma in_order_app_l (l1 l2 : list string) (k : string) :
  in_order (l1 ++ k :: l2) -> Forall (fun k' => precedes k k' = false) l1.
Proof.
  induction l1 as [|a l1 IH]; cbn [app in_order]; [constructor|].
  intros [Ha Hord]. constructor; [|now apply IH].
  rewrite Forall_forall in Ha. apply Ha. apply list_elem_of_In, in_or_app.
  right. left. reflexivity.
Qed.

(** Defining properties of distinct names, in the order of enumeration,
    lists them in that order. *)
Lemma fold_obj_set (members acc : list (string * value)) :
  List.NoDup (map fst (acc ++ members)) ->
  in_order (map fst (acc ++ members)) ->
  fold_left (fun fields kv => obj_set (fst kv) (snd kv) fields) members acc
  = (acc ++ members)%list.
Proof.
  revert acc. induction members as [|[k v] members IH]; intros acc Hnd Hord.
  - cbn. now rewrite app_nil_r.
  - cbn [fold_left fst snd].
    rewrite obj_set_last.
    + rewrite IH; rewrite <- app_assoc; [reflexivity | exact Hnd | exact Hord].
    + rewrite map_app in Hnd. cbn [map fst] in Hnd.
      apply List.NoDup_remove_2 in Hnd. intros Hin. apply Hnd, in_or_app. now left.
    + rewrite map_app in Hord. cbn [map fst] in Hord.
      now apply in_order_app_l in Hord.
Qed.

Lemma build_object_distinct (members : list (string * value)) :
  List.NoDup (map fst members) -> in_order (map fst members) ->
  build_object members = members.
Proof.
  intros Hnd Hord. unfold build_object. now rewrite fold_obj_set.
Qed.

(** What a read finds after a definition. *)
Lemma assoc_replace_own (k k' : string) (v : value) (fields : list (string * value)) :
  assoc k' (replace_own k v fields)
  = if String.eqb k k' && has_own k fields then Some v else assoc k' fields.
Proof.
  unfold has_own.
  induction fields as [|[k0 v0] fields IH]; cbn [replace_own assoc].
  - now rewrite andb_false_r.
  - destruct (String.eqb_spec k0 k) as [->|Hne]; cbn [assoc].
    + destruct (String.eqb_spec k k') as [->|Hne']; [reflexivity|].
      reflexivity.
    + destruct (String.eqb_spec k0 k') as [->|Hne'].
      * destruct (String.eqb_spec k k') as [->|_]; [congruence | reflexivity].
      * exact IH.
Qed.

Lemma assoc_insert_own (k k' : string) (v : value) (fields : list (string * value)) :
  has_own k fields = false ->
  assoc k' (insert_own k v fields)
  = if String.eqb k k' then Some v else assoc k' fields.
Proof.
  unfold has_own.
  induction fields as [|[k0 v0] fields IH]; intros Hk; cbn [insert_own assoc] in *.
  - reflexivity.
  - destruct (String.eqb_spec k0 k) as [->|Hne]; [discriminate|].
    destruct (precedes k k0); cbn [assoc].
    + reflexivity.
    + destruct (String.eqb_spec k0 k') as [->|Hne'].
      * destruct (String.eqb_spec k k') as [->|_]; [congruence | reflexivity].
      * now apply IH.
Qed.

Lemma assoc_obj_set (k k' : string) (v : value) (fields : list (string * value)) :
  assoc k' (obj_set k v fields)
  = if String.eqb k k' then Some v else assoc k' fields.
Proof.
  unfold obj_set. destruct (has_own k fields) eqn:E.
  - rewrite assoc_replace_own, E, andb_true_r. reflexivity.
  - now apply assoc_insert_own.
Qed.

Lemma In_replace_own (k : string) (v : value) (fields : list (string * value))
    (kv : string * value) :
  In kv (replace_own k v fields) -> kv = (k, v) \/ In kv fields.
Proof.
  induction fields as [|[k0 v0] fields IH]; cbn [replace_own In]; [tauto|].
  destruct (String.eqb k0 k); cbn [In]; intuition.
Qed.

Lemma In_insert_own (k : string) (v : value) (fields : list (string * value))
    (kv : string * value) :
  In kv (insert_own k v fields) -> kv = (k, v) \/ In kv fields.
Proof.
  induction fields as [|[k0 v0] fields IH]; cbn [insert_own In]; [intuition|].
  destruct (precedes k k0); cbn [In]; intuition.
Qed.

Lemma In_obj_set (k : string) (v : value) (fields : list (string * value))
    (kv : string * value) :
  In kv (obj_set k v fields) -> kv = (k, v) \/ In kv fields.
Proof.
  unfold obj_set. destruct (has_own k fields);
    [apply In_replace_own | apply In_insert_own].
Qed.

(* --------------------------------------------------------------------- *)
(** ** JSON texts                                                        *)
(* --------------------------------------------------------------------- *)

(** Induction on values, with the hypothesis on the elements of an array
    and on the properties of an object. *)
Lemma value_induction (P : value -> Prop) :
  P VUndefined -> P VNull -> (forall b, P (VBool b)) -> (forall n, P (VNum n)) ->
  (forall s, P (VStr s)) ->
  (forall items, Forall P items -> P (VArr items)) ->
  (forall fields, Forall (fun kv => P (snd kv)) fields -> P (VObj fields)) ->
  (forall name, P (VBuiltin name)) ->
  forall v, P v.
Proof.
  intros Hu Hn Hb Hnum Hs Ha Ho Hf.
  fix IH 1. intros [| |b|n|s|items|fields|name].
  - exact Hu.
  - exact Hn.
  - apply Hb.
  - apply Hnum.
  - apply Hs.
  - apply Ha. induction items as [|x items IHi]; constructor; [apply IH | exact IHi].
  - apply Ho. induction fields as [|[k x] fields IHf]; constructor;
      [apply IH | exact IHf].
  - apply Hf.
Qed.

Lemma stringify_obj (fields : list (string * value)) :
  stringify (VObj fields)
  = "{" ++ join_comma (map member_text (defined fields)) ++ "}".
Proof.
  cbn [stringify]. f_equal. f_equal. f_equal.
  induction fields as [|[k x] fields IH]; [reflexivity|].
  unfold defined in *. cbn [List.filter snd].
  destruct (is_textless x); cbn [negb map]; [exact IH|].
  rewrite <- IH. reflexivity.
Qed.

Lemma jsonify_obj (fields : list (string * value)) :
  jsonify (VObj fields)
  = VObj (map (fun kv => (fst kv, jsonify (snd kv))) (defined fields)).
Proof.
  cbn [jsonify]. f_equal.
  induction fields as [|[k x] fields IH]; [reflexivity|].
  unfold defined in *. cbn [List.filter snd].
  destruct (is_textless x); cbn [negb map]; [exact IH|].
  rewrite <- IH. reflexivity.
Qed.

Lemma string_length_app (a b : string) :
  String.length (a ++ b) = (String.length a + String.length b)%nat.
Proof.
  induction a as [|c a IH]; [reflexivity|].
  change (S (String.length (a ++ b)) = S (String.length a + String.length b)).
  now rewrite IH.
Qed.

(** *** String literals *)

Lemma parse_string_escape_char (c : ascii) (tail : string) :
  parse_string (escape_char c ++ tail) = prepend (String c "") (parse_string tail).
Proof.
  destruct c as [[] [] [] [] [] [] [] []]; reflexivity.
Qed.

Lemma parse_string_escape (s rest : string) :
  parse_string (escape s ++ String dquote rest) = Some (s, rest).
Proof.
  induction s as [|c s IH]; [reflexivity|].
  cbn [escape]. rewrite string_app_assoc, parse_string_escape_char, IH.
  reflexivity.
Qed.

Lemma parse_string_quote (s rest : string) :
  exists body, quote s ++ rest = String dquote body
               /\ parse_string body = Some (s, rest).
Proof.
  exists (escape s ++ String dquote rest). split.
  - unfold quote. change (String dquote (escape s ++ String dquote "") ++ rest)
      with (String dquote ((escape s ++ String dquote "") ++ rest)).
    now rewrite string_app_assoc.
  - apply parse_string_escape.
Qed.

(** *** Values *)

(** The text of a value does not start with a space, nor with the bracket
    that closes an array. *)
Lemma stringify_head (v : value) :
  plain v ->
  exists c s, stringify v = String c s
              /\ is_ws c = false /\ ascii_eqb c "]" = false.
Proof.
  intros Hv. destruct Hv as [| |[]|s|items _|fields _ _ _];
    (eexists; eexists; split; [reflexivity | split; reflexivity]).
Qed.

Lemma skip_ws_head (c : ascii) (s : string) :
  is_ws c = false -> skip_ws (String c s) = String c s.
Proof. intros H. cbn [skip_ws]. now rewrite H. Qed.

Lemma parse_elements_reads_back (items : list value) :
  items <> [] ->
  Forall plain items -> Forall reads_back items ->
  forall fuel rest,
    (String.length (join_comma (map stringify items)) + 1 < fuel)%nat ->
    parse_elements fuel (join_comma (map stringify items) ++ "]" ++ rest)
    = Some (map jsonify items, rest).
Proof.
  induction items as [|x items IH]; [congruence|].
  intros _ Hplain Hread fuel rest Hfuel.
  inversion Hplain as [|? ? Hpx Hpl]; subst.
  inversion Hread as [|? ? Hrx Hrl]; subst.
  destruct fuel as [|fuel]; [lia|].
  destruct items as [|y items].
  - cbn [map join_comma] in *. cbn [parse_elements].
    rewrite Hrx by lia.
    change ("]" ++ rest) with (String "]" rest).
    rewrite skip_ws_head by reflexivity. reflexivity.
  - change (join_comma (map stringify (x :: y :: items)))
      with (stringify x ++ "," ++ join_comma (map stringify (y :: items))) in *.
    rewrite !string_length_app in Hfuel. cbn [String.length] in Hfuel.
    rewrite !string_app_assoc. cbn [parse_elements].
    rewrite Hrx by lia.
    change ("," ++ join_comma (map stringify (y :: items)) ++ "]" ++ rest)
      with (String "," (join_comma (map stringify (y :: items)) ++ "]" ++ rest)).
    rewrite skip_ws_head by reflexivity.
    change (ascii_eqb "," ",") with true. cbv iota.
    rewrite IH; [reflexivity | discriminate | assumption | assumption | lia].
Qed.

Lemma parse_members_reads_back (fields : list (string * value)) :
  fields <> [] ->
  Forall (fun kv => plain (snd kv)) fields ->
  Forall (fun kv => reads_back (snd kv)) fields ->
  forall fuel rest,
    (String.length (join_comma (map member_text fields)) + 1 < fuel)%nat ->
    parse_members fuel (join_comma (map member_text fields) ++ "}" ++ rest)
    = Some (map (fun kv => (fst kv, jsonify (snd kv))) fields, rest).
Proof.
  induction fields as [|[k x] fields IH]; [congruence|].
  intros _ Hplain Hread fuel rest Hfuel.
  inversion Hplain as [|? ? Hpx Hpl]; subst.
  inversion Hread as [|? ? Hrx Hrl]; subst.
  cbn [snd] in Hpx, Hrx.
  destruct fuel as [|fuel]; [lia|].
  assert (Hmember : forall tail,
    member_text (k, x) ++ tail = quote k ++ ":" ++ stringify x ++ tail).
  { intros tail. unfold member_text. cbn [fst snd].
    now rewrite !string_app_assoc. }
  assert (Hlen : (String.length (stringify x) < String.length (member_text (k, x)))%nat).
  { unfold member_text, quote. cbn [fst snd].
    rewrite !string_length_app. cbn [String.length]. rewrite string_length_app.
    cbn [String.length]. lia. }
  destruct fields as [|kv fields].
  - cbn [map join_comma] in *. rewrite Hmember.
    destruct (parse_string_quote k (":" ++ stringify x ++ "}" ++ rest))
      as (body & -> & Hbody).
    cbn [parse_members]. rewrite skip_ws_head by reflexivity.
    change (ascii_eqb dquote dquote) with true. cbv iota.
    rewrite Hbody.
    change (":" ++ stringify x ++ "}" ++ rest)
      with (String ":" (stringify x ++ "}" ++ rest)).
    rewrite skip_ws_head by reflexivity.
    change (ascii_eqb ":" ":") with true. cbv iota.
    rewrite Hrx by lia.
    change ("}" ++ rest) with (String "}" rest).
    rewrite skip_ws_head by reflexivity. reflexivity.
  - change (join_comma (map member_text ((k, x) :: kv :: fields)))
      with (member_text (k, x) ++ "," ++ join_comma (map member_text (kv :: fields))) in *.
    rewrite !string_length_app in Hfuel. cbn [String.length] in Hfuel.
    rewrite string_app_assoc, Hmember.
    destruct (parse_string_quote k
                (":" ++ stringify x ++
                 ("," ++ join_comma (map member_text (kv :: fields))) ++ "}" ++ rest))
      as (body & -> & Hbody).
    cbn [parse_members]. rewrite skip_ws_head by reflexivity.
    change (ascii_eqb dquote dquote) with true. cbv iota.
    rewrite Hbody.
    change (":" ++ stringify x ++
            ("," ++ join_comma (map member_text (kv :: fields))) ++ "}" ++ rest)
      with (String ":" (stringify x ++
            String "," (join_comma (map member_text (kv :: fields)) ++ "}" ++ rest))).
    rewrite skip_ws_head by reflexivity.
    change (ascii_eqb ":" ":") with true. cbv iota.
    rewrite Hrx by lia.
    rewrite skip_ws_head by reflexivity.
    change (ascii_eqb "," ",") with true. cbv iota.
    rewrite IH; [reflexivity | discriminate | assumption | assumption | lia].
Qed.

(** The text of a plain value is read back, up to [jsonify]. *)
Lemma parse_value_stringify (v : value) : plain v -> reads_back v.
Proof.
  induction v as [| |b|n|s|items IH|fields IH|name] using value_induction;
    intros Hv fuel rest Hfuel; (destruct fuel as [|fuel]; [lia|]).
  - reflexivity.
  - reflexivity.
  - destruct b; reflexivity.
  - inversion Hv.
  - cbn [stringify jsonify].
    destruct (parse_string_quote s rest) as (body & -> & Hbody).
    cbn [parse_value]. rewrite skip_ws_head by reflexivity.
    change (ascii_eqb dquote "{") with false.
    change (ascii_eqb dquote "[") with false.
    change (ascii_eqb dquote dquote) with true. cbv iota.
    now rewrite Hbody.
  - inversion Hv as [| | | |? Hitems|]; subst.
    assert (Hread : Forall reads_back items).
    { clear - IH Hitems. induction Hitems as [|x items Hx _ IHi]; constructor.
      - inversion IH; subst. auto.
      - inversion IH; subst. auto. }
    cbn [stringify jsonify] in *.
    change (("[" ++ join_comma (map stringify items) ++ "]") ++ rest)
      with (String "[" ((join_comma (map stringify items) ++ "]") ++ rest)).
    rewrite string_app_assoc.
    cbn [parse_value]. rewrite skip_ws_head by reflexivity.
    change (ascii_eqb "[" "{") with false.
    change (ascii_eqb "[" "[") with true. cbv iota.
    destruct items as [|x items].
    + reflexivity.
    + inversion Hitems as [|? ? Hx _]; subst.
      destruct (stringify_head x Hx) as (c & tl & Hhead & Hws & Hclose).
      assert (Hstart : exists tl2, join_comma (map stringify (x :: items)) ++ "]" ++ rest
                                   = String c tl2).
      { destruct items as [|y items].
        - cbn [map join_comma]. rewrite Hhead. eexists. reflexivity.
        - change (join_comma (map stringify (x :: y :: items)))
            with (stringify x ++ "," ++ join_comma (map stringify (y :: items))).
          rewrite Hhead. eexists. reflexivity. }
      destruct Hstart as [tl2 Hstart].
      rewrite Hstart at 1. rewrite skip_ws_head by exact Hws.
      rewrite Hclose.
      change (String.length ("[" ++ join_comma (map stringify (x :: items)) ++ "]"))
        with (S (String.length (join_comma (map stringify (x :: items)) ++ "]"))) in Hfuel.
      rewrite string_length_app in Hfuel. cbn [String.length] in Hfuel.
      rewrite parse_elements_reads_back;
        [reflexivity | discriminate | assumption | assumption | lia].
  - inversion Hv as [| | | | |? Hfields Hnd Hord]; subst.
    assert (Hread : Forall (fun kv => reads_back (snd kv)) (defined fields)).
    { clear - IH Hfields. unfold defined.
      induction Hfields as [|kv fields Hx _ IHf]; [constructor|].
      inversion IH; subst. cbn [List.filter].
      destruct (negb (is_textless (snd kv))); [constructor|]; auto. }
    assert (Hplain : Forall (fun kv => plain (snd kv)) (defined fields)).
    { clear - Hfields. unfold defined.
      induction Hfields as [|kv fields Hx _ IHf]; [constructor|].
      cbn [List.filter].
      destruct (negb (is_textless (snd kv))); [constructor|]; auto. }
    rewrite stringify_obj, jsonify_obj in *.
    change (("{" ++ join_comma (map member_text (defined fields)) ++ "}") ++ rest)
      with (String "{" ((join_comma (map member_text (defined fields)) ++ "}") ++ rest)).
    rewrite string_app_assoc.
    cbn [parse_value]. rewrite skip_ws_head by reflexivity.
    change (ascii_eqb "{" "{") with true. cbv iota.
    destruct (defined fields) as [|[k x] members].
    + reflexivity.
    + assert (Hstart : exists tl2, join_comma (map member_text ((k, x) :: members))
                                     ++ "}" ++ rest = String dquote tl2).
      { destruct members as [|kv members].
        - cbn [map join_comma]. unfold member_text, quote. eexists. reflexivity.
        - change (join_comma (map member_text ((k, x) :: kv :: members)))
            with (member_text (k, x) ++ "," ++ join_comma (map member_text (kv :: members))).
          unfold member_text at 1, quote. eexists. reflexivity. }
      destruct Hstart as [tl2 Hstart].
      rewrite Hstart at 1. rewrite skip_ws_head by reflexivity.
      change (ascii_eqb dquote "}") with false. cbv iota.
      change (String.length ("{" ++ join_comma (map member_text ((k, x) :: members)) ++ "}"))
        with (S (String.length (join_comma (map member_text ((k, x) :: members)) ++ "}")))
        in Hfuel.
      rewrite string_length_app in Hfuel. cbn [String.length] in Hfuel.
      rewrite parse_members_reads_back;
        [| discriminate | assumption | assumption | lia].
      rewrite build_object_distinct; [reflexivity| |];
        rewrite map_map; cbn [fst]; assumption.
  - inversion Hv.
Qed.

(** [JSON.parse(JSON.stringify(v))] is [jsonify v]. *)
Theorem JSON_parse_stringify (v : value) :
  plain v -> v <> VUndefined -> JSON_parse (JSON_stringify v) = Some (jsonify v).
Proof.
  intros Hv Hdef. unfold JSON_parse.
  replace (JSON_stringify v) with (stringify v)
    by (destruct Hv; first [reflexivity | congruence]).
  pose proof (parse_value_stringify v Hv (S (String.length (stringify v))) ""
                ltac:(lia)) as H.
  replace (stringify v ++ "") with (stringify v) in H.
  - rewrite H. reflexivity.
  - clear. induction (stringify v) as [|c s IH]; [reflexivity|].
    change (String c s = String c (s ++ "")). now rewrite <- IH.
Qed.

(* --------------------------------------------------------------------- *)
(** ** Persistence adapter: the round trip                               *)
(* --------------------------------------------------------------------- *)

(** *** Objects built by assignments *)

Lemma assoc_obj_assign_other (k k' : string) (v : value)
    (fields : list (string * value)) :
  k <> k' -> assoc k' (obj_assign k v fields) = assoc k' fields.
Proof.
  intros Hne. unfold obj_assign.
  destruct (String.eqb k "__proto__" && negb (has_own k fields)); [reflexivity|].
  rewrite assoc_obj_set. now destruct (String.eqb_spec k k').
Qed.

Lemma assoc_obj_assign (k : string) (v : value) (fields : list (string * value)) :
  k <> "__proto__" -> assoc k (obj_assign k v fields) = Some v.
Proof.
  intros Hk. unfold obj_assign.
  destruct (String.eqb_spec k "__proto__") as [E|_]; [contradiction|].
  cbn [andb]. now rewrite assoc_obj_set, String.eqb_refl.
Qed.

Lemma In_obj_assign (k : string) (v : value) (fields : list (string * value))
    (kv : string * value) :
  In kv (obj_assign k v fields) -> kv = (k, v) \/ In kv fields.
Proof.
  unfold obj_assign.
  destruct (String.eqb k "__proto__" && negb (has_own k fields)); [tauto|].
  apply In_obj_set.
Qed.

Lemma obj_assign_NoDup (k : string) (v : value) (fields : list (string * value)) :
  List.NoDup (map fst fields) -> List.NoDup (map fst (obj_assign k v fields)).
Proof.
  unfold obj_assign.
  destruct (String.eqb k "__proto__" && negb (has_own k fields)); [tauto|].
  apply obj_set_NoDup.
Qed.

Lemma obj_assign_in_order (k : string) (v : value) (fields : list (string * value)) :
  in_order (map fst fields) -> in_order (map fst (obj_assign k v fields)).
Proof.
  unfold obj_assign.
  destruct (String.eqb k "__proto__" && negb (has_own k fields)); [tauto|].
  apply obj_set_in_order.
Qed.

(** An object that the program builds by assignments has no two properties
    of the same name, and lists its properties in the order of
    enumeration. *)
Lemma assign_all_shape (members fields : list (string * value)) :
  List.NoDup (map fst fields) -> in_order (map fst fields) ->
  List.NoDup (map fst (assign_all members fields))
  /\ in_order (map fst (assign_all members fields)).
Proof.
  revert fields. induction members as [|[k v] members IH]; intros fields Hnd Hord.
  - split; assumption.
  - apply IH; [now apply obj_assign_NoDup | now apply obj_assign_in_order].
Qed.

Lemma In_assign_all (members fields : list (string * value)) (kv : string * value) :
  In kv (assign_all members fields) -> In kv members \/ In kv fields.
Proof.
  revert fields. induction members as [|[k v] members IH]; intros fields Hin.
  - now right.
  - apply IH in Hin as [Hin|Hin]; [left; now right|].
    apply In_obj_assign in Hin as [->|Hin]; [left; now left | now right].
Qed.

Lemma assoc_assign_all_other (k : string) (members fields : list (string * value)) :
  ~ In k (map fst members) ->
  assoc k (assign_all members fields) = assoc k fields.
Proof.
  revert fields. induction members as [|[k0 v0] members IH]; intros fields Hk;
    [reflexivity|].
  cbn [map fst In] in Hk. unfold assign_all in *. cbn [fold_left fst snd].
  rewrite IH by tauto. apply assoc_obj_assign_other. tauto.
Qed.

(** Under a name other than ["__proto__"] that is assigned once, a read
    finds the value that was assigned. *)
Lemma assoc_assign_all (k : string) (v : value)
    (members fields : list (string * value)) :
  List.NoDup (map fst members) -> In (k, v) members -> k <> "__proto__" ->
  assoc k (assign_all members fields) = Some v.
Proof.
  revert fields. induction members as [|[k0 v0] members IH];
    intros fields Hnd Hin Hk; [destruct Hin|].
  cbn [map fst] in Hnd. apply List.NoDup_cons_iff in Hnd as [H0 Hnd].
  unfold assign_all in *. cbn [fold_left fst snd].
  destruct Hin as [E|Hin].
  - injection E as -> ->.
    rewrite (assoc_assign_all_other k members) by exact H0.
    now apply assoc_obj_assign.
  - now apply IH.
Qed.

Lemma assoc_jsonify_fields (k : string) (fields : list (string * value)) :
  assoc k (jsonify_fields fields) = jsonify <$> assoc k fields.
Proof.
  induction fields as [|[k0 v0] fields IH]; [reflexivity|].
  cbn [jsonify_fields map assoc fst snd]. destruct (String.eqb k0 k); [reflexivity|].
  exact IH.
Qed.

Lemma defined_all (fields : list (string * value)) :
  (forall kv, In kv fields -> is_textless (snd kv) = false) ->
  defined fields = fields.
Proof.
  intros H. unfold defined. induction fields as [|kv fields IH]; [reflexivity|].
  cbn [List.filter]. rewrite (H kv (or_introl eq_refl)). cbn [negb].
  rewrite IH; [reflexivity|]. intros kv' Hin. apply H. now right.
Qed.

(** An object of values that have a text, once through JSON. *)
Lemma jsonify_all (fields : list (string * value)) :
  (forall kv, In kv fields -> is_textless (snd kv) = false) ->
  jsonify (VObj fields) = VObj (jsonify_fields fields).
Proof. intros H. now rewrite jsonify_obj, defined_all. Qed.

(** An object that assignments build from plain values is plain. *)
Lemma plain_assigned (members : list (string * value)) :
  (forall kv, In kv members -> plain (snd kv) /\ is_textless (snd kv) = false) ->
  plain (VObj (assign_all members [])).
Proof.
  intros H.
  assert (Hin : forall kv, In kv (assign_all members []) ->
                  plain (snd kv) /\ is_textless (snd kv) = false).
  { intros kv Hkv. apply In_assign_all in Hkv as [Hkv|[]]. now apply H. }
  destruct (assign_all_shape members [] (List.NoDup_nil _) I) as [Hnd Hord].
  constructor.
  - apply Forall_forall. intros kv Hkv. apply list_elem_of_In in Hkv.
    now apply Hin.
  - rewrite defined_all; [exact Hnd|]. intros kv Hkv. now apply Hin.
  - rewrite defined_all; [exact Hord|]. intros kv Hkv. now apply Hin.
Qed.

(** The first character of a numeral is not an underscore. *)
Lemma pretty_N_char_head (x : N) : pretty_N_char x <> "_"%char.
Proof. unfold pretty_N_char. repeat case_match; discriminate. Qed.

Lemma pretty_N_go_head (x : N) :
  forall s, (0 < x)%N ->
  exists c rest, pretty_N_go x s = String c rest /\ c <> "_"%char.
Proof.
  induction x as [x IH] using (well_founded_induction N.lt_wf_0).
  intros s Hx. rewrite pretty_N_go_step by exact Hx.
  destruct (N.eq_dec (x `div` 10)%N 0%N) as [E|E].
  - rewrite E, pretty_N_go_0. eexists. eexists. split; [reflexivity|].
    apply pretty_N_char_head.
  - apply IH; [apply N.div_lt; lia|].
    destruct (x `div` 10)%N; [contradiction | reflexivity].
Qed.

(** The key of a week is not ["__proto__"]. *)
Lemma week_key_not_proto (z : Z) : pretty z <> "__proto__".
Proof.
  destruct z as [|p|p]; [discriminate| |discriminate].
  change (pretty (Z.pos p)) with (pretty (N.pos p)).
  unfold pretty, pretty_N. destruct (decide (N.pos p = 0%N)); [discriminate|].
  destruct (pretty_N_go_head (N.pos p) "" ltac:(lia)) as (c & rest & -> & Hc).
  intros [=]. contradiction.
Qed.

(** *** What is saved *)

Lemma optional_iso_valid (d : option Date) :
  valid_optional_date d -> optional_iso d = Some (isoField d).
Proof.
  destruct d as [d|]; [|reflexivity]. intros Hd.
  destruct (Date_parse_toISOString d Hd) as (iso & Hiso & _).
  unfold optional_iso, isoField. now rewrite Hiso.
Qed.

Lemma storedCourse_valid (c : Course) :
  valid_optional_date (startDate c) -> valid_optional_date (endDate c) ->
  storedCourse c = Some (storedCourseObject c).
Proof.
  intros Hs He. unfold storedCourse.
  rewrite (optional_iso_valid _ Hs), (optional_iso_valid _ He). reflexivity.
Qed.

Lemma storeCourses_valid (cs : list Course) (weekObj : list (string * value)) :
  (forall c, In c cs ->
     valid_optional_date (startDate c) /\ valid_optional_date (endDate c)) ->
  storeCourses cs weekObj
  = Some (assign_all (map (fun c => (cId c, storedCourseObject c)) cs) weekObj).
Proof.
  revert weekObj. induction cs as [|c cs IH]; intros weekObj Hvalid; [reflexivity|].
  cbn [storeCourses].
  destruct (Hvalid c (or_introl eq_refl)) as [Hs He].
  rewrite (storedCourse_valid c Hs He). cbn [mbind option_bind].
  rewrite IH; [reflexivity|]. intros c' Hc'. apply Hvalid. now right.
Qed.

Lemma storeWeeks_valid (ws : list Week) (curriculum : list (string * value)) :
  (forall w c, In w ws -> In c (courses w) ->
     valid_optional_date (startDate c) /\ valid_optional_date (endDate c)) ->
  storeWeeks ws curriculum
  = Some (assign_all (map (fun w => (pretty (wId w), storedWeekObject w)) ws)
            curriculum).
Proof.
  revert curriculum. induction ws as [|w ws IH]; intros curriculum Hvalid;
    [reflexivity|].
  cbn [storeWeeks].
  rewrite storeCourses_valid by (intros c Hc; apply (Hvalid w c); [now left | exact Hc]).
  cbn [mbind option_bind].
  rewrite IH; [reflexivity|]. intros w' c Hw'. apply Hvalid. now right.
Qed.

(** The record of a state whose dates are valid. *)
Lemma curriculumStateToStoredData_valid (now : Date) (s : CurriculumState) :
  valid_date now -> dates_valid s ->
  exists lastUpdated,
    toISOString now = Some lastUpdated
    /\ curriculumStateToStoredData now s
       = Some (VObj [("version", VStr STORAGE_VERSION);
                     ("lastUpdated", VStr lastUpdated);
                     ("curriculum", VObj (storedCurriculum (weeks s)))])
    /\ lastUpdated <> "".
Proof.
  intros Hnow Hdates.
  destruct (Date_parse_toISOString now Hnow) as (iso & Hiso & _ & Hne).
  exists iso. split; [exact Hiso|]. split; [|exact Hne].
  unfold curriculumStateToStoredData.
  rewrite storeWeeks_valid by exact Hdates.
  cbn [mbind option_bind]. rewrite Hiso. reflexivity.
Qed.

(** *** What is read back *)

Lemma isoField_cases (engine : Engine) (d : option Date) :
  reads_iso_strings engine -> valid_optional_date d ->
  (d = None /\ isoField d = VUndefined)
  \/ (exists x iso, d = Some x /\ isoField d = VStr iso
                    /\ String.eqb iso "" = false
                    /\ Date_of_string engine iso = x).
Proof.
  intros Hengine.
  destruct d as [x|]; [|left; split; reflexivity]. intros Hx. right.
  destruct (Date_parse_toISOString x Hx) as (iso & Hiso & _ & Hne).
  exists x, iso. unfold isoField. rewrite Hiso.
  repeat split; [now apply String.eqb_neq | now apply Hengine].
Qed.

(** The stored object of a course, once through JSON: it is well formed,
    and it decodes to the three fields of the course. *)
Lemma storedCourseObject_read (engine : Engine) (c : Course) :
  reads_iso_strings engine ->
  valid_optional_date (startDate c) -> valid_optional_date (endDate c) ->
  let courseData := jsonify (storedCourseObject c) in
  plain (storedCourseObject c)
  /\ well_formed_course courseData
  /\ truthy courseData = true
  /\ boolean_field (get courseData "completed") = completed c
  /\ (if truthy (get courseData "startDate")
      then Some (new_Date engine (get courseData "startDate")) else None)
     = startDate c
  /\ (if truthy (get courseData "endDate")
      then Some (new_Date engine (get courseData "endDate")) else None)
     = endDate c.
Proof.
  intros Hengine Hs He. unfold storedCourseObject.
  destruct (isoField_cases engine _ Hengine Hs)
    as [[Es ->]|(x & iso & Es & -> & Hne & Hx)];
    destruct (isoField_cases engine _ Hengine He)
      as [[Ee ->]|(y & iso' & Ee & -> & Hne' & Hy)];
    rewrite Es, Ee; cbv zeta;
    (split;
     [constructor;
      [repeat constructor
      |cbn; repeat constructor; cbn; intuition congruence
      |cbn; repeat constructor]
     |unfold well_formed_course; cbn; unfold get, truthy; cbn;
      rewrite ?Hne, ?Hne'; cbn; rewrite ?Hx, ?Hy;
      repeat split; try reflexivity; try discriminate]).
Qed.

(** The stored object of a week is plain, and so is the record. *)
Lemma plain_storedWeekObject (w : Week) :
  (forall c, In c (courses w) ->
     valid_optional_date (startDate c) /\ valid_optional_date (endDate c)) ->
  plain (storedWeekObject w).
Proof.
  intros Hdates. apply plain_assigned. intros kv Hkv.
  apply in_map_iff in Hkv as (c & <- & Hc). cbn [snd].
  split; [|reflexivity].
  destruct (Hdates c Hc) as [Hs He].
  apply (storedCourseObject_read isoEngine c isoEngine_reads_iso_strings Hs He).
Qed.

Lemma plain_record (lastUpdated : string) (s : CurriculumState) :
  dates_valid s ->
  plain (VObj [("version", VStr STORAGE_VERSION);
               ("lastUpdated", VStr lastUpdated);
               ("curriculum", VObj (storedCurriculum (weeks s)))]).
Proof.
  intros Hdates. constructor.
  - constructor; [apply plain_str|]. constructor; [apply plain_str|].
    constructor; [|constructor]. cbn [snd]. unfold storedCurriculum.
    apply plain_assigned. intros kv Hkv.
    apply in_map_iff in Hkv as (w & <- & Hw). cbn [snd].
    split; [|reflexivity]. apply plain_storedWeekObject.
    intros c Hc. now apply (Hdates w c).
  - cbn. repeat constructor; cbn; intuition congruence.
  - cbn. repeat constructor.
Qed.

(** The stored object of a week, once through JSON. *)
Lemma jsonify_storedWeekObject (w : Week) :
  jsonify (storedWeekObject w)
  = VObj (jsonify_fields
            (assign_all (map (fun c => (cId c, storedCourseObject c)) (courses w))
                        [])).
Proof.
  unfold storedWeekObject. apply jsonify_all. intros kv Hkv.
  apply In_assign_all in Hkv as [Hkv|[]].
  apply in_map_iff in Hkv as (c & <- & _). reflexivity.
Qed.

Lemma jsonify_record (lastUpdated : string) (s : CurriculumState) :
  jsonify (VObj [("version", VStr STORAGE_VERSION);
                 ("lastUpdated", VStr lastUpdated);
                 ("curriculum", VObj (storedCurriculum (weeks s)))])
  = readRecord lastUpdated s.
Proof.
  unfold readRecord.
  rewrite <- (jsonify_all (storedCurriculum (weeks s))).
  - reflexivity.
  - intros kv Hkv. apply In_assign_all in Hkv as [Hkv|[]].
    apply in_map_iff in Hkv as (w & <- & _). reflexivity.
Qed.

(** A property that an object lists is found by a read of its name, which
    gives a value that the object lists. *)
Lemma get_listed (fields : list (string * value)) (k : string) (v : value) :
  In (k, v) fields -> exists v', In (k, v') fields /\ get (VObj fields) k = v'.
Proof.
  intros Hin. unfold get.
  induction fields as [|[k0 v0] fields IH]; [destruct Hin|].
  cbn [assoc]. destruct (String.eqb_spec k0 k) as [->|Hne].
  - exists v0. split; [now left | reflexivity].
  - destruct Hin as [E|Hin]; [congruence|].
    destruct (IH Hin) as (v' & Hv' & Hget). exists v'. split; [now right | exact Hget].
Qed.

(** What the record lists under a week, and under a course of a week. *)
Lemma storedCurriculum_listed (s : CurriculumState) (k : string) (v : value) :
  In (k, v) (jsonify_fields (storedCurriculum (weeks s))) ->
  exists w, In w (weeks s) /\ v = jsonify (storedWeekObject w).
Proof.
  intros Hin. apply in_map_iff in Hin as ([k' v'] & E & Hin). injection E as <- <-.
  apply In_assign_all in Hin as [Hin|[]].
  apply in_map_iff in Hin as (w & E & Hw). injection E as <- <-.
  exists w. split; [exact Hw | reflexivity].
Qed.

Lemma storedWeekObject_listed (w : Week) (k : string) (v : value) :
  In (k, v) (jsonify_fields
               (assign_all (map (fun c => (cId c, storedCourseObject c)) (courses w))
                           [])) ->
  exists c, In c (courses w) /\ v = jsonify (storedCourseObject c).
Proof.
  intros Hin. apply in_map_iff in Hin as ([k' v'] & E & Hin). injection E as <- <-.
  apply In_assign_all in Hin as [Hin|[]].
  apply in_map_iff in Hin as (c & E & Hc). injection E as <- <-.
  exists c. split; [exact Hc | reflexivity].
Qed.

(** The record read back is well formed and of the expected version. *)
Lemma readRecord_valid (lastUpdated : string) (s : CurriculumState) :
  lastUpdated <> "" -> dates_valid s ->
  validateStoredData (readRecord lastUpdated s) = true
  /\ strict_ne_string (get (readRecord lastUpdated s) "version") STORAGE_VERSION
     = false.
Proof.
  intros Hne Hdates. split; [|reflexivity].
  apply validateStoredData_spec. unfold well_formed_record.
  change (get (readRecord lastUpdated s) "version") with (VStr STORAGE_VERSION).
  change (get (readRecord lastUpdated s) "lastUpdated") with (VStr lastUpdated).
  change (get (readRecord lastUpdated s) "curriculum")
    with (VObj (jsonify_fields (storedCurriculum (weeks s)))).
  split; [split; [reflexivity | discriminate]|].
  split; [reflexivity|].
  split; [unfold truthy; now apply negb_true_iff, String.eqb_neq|].
  split; [split; [reflexivity | discriminate]|].
  intros weekKey weekValue Hin. cbn [entries] in Hin. cbv zeta.
  destruct (get_listed _ _ _ Hin) as (v' & Hv' & ->).
  apply storedCurriculum_listed in Hv' as (w & Hw & ->).
  rewrite jsonify_storedWeekObject.
  split; [split; [reflexivity | discriminate]|].
  intros courseKey courseValue Hinc. cbn [entries] in Hinc.
  destruct (get_listed _ _ _ Hinc) as (v' & Hv' & ->).
  apply storedWeekObject_listed in Hv' as (c & Hc & ->).
  destruct (Hdates w c Hw Hc) as [Hs He].
  apply (storedCourseObject_read isoEngine c isoEngine_reads_iso_strings Hs He).
Qed.

(** *** The overlay *)

Lemma NoDup_week_keys (ws : list Week) :
  List.NoDup (map wId ws) -> List.NoDup (map (fun w => pretty (wId w)) ws).
Proof.
  induction ws as [|w ws IH]; intros H; [constructor|].
  cbn [map] in *. apply List.NoDup_cons_iff in H as [Hw H].
  constructor; [|now apply IH].
  intros Hin. apply in_map_iff in Hin as [w' [E Hw']].
  apply (inj pretty) in E. apply Hw. rewrite <- E. now apply in_map.
Qed.

(** The week that the record holds under the key of a week of the state. *)
Lemma readRecord_week (lastUpdated : string) (s : CurriculumState) (w : Week) :
  unique_ids s -> In w (weeks s) ->
  get (get (readRecord lastUpdated s) "curriculum") (pretty (wId w))
  = jsonify (storedWeekObject w).
Proof.
  intros [Hw _] Hin.
  change (get (readRecord lastUpdated s) "curriculum")
    with (VObj (jsonify_fields (storedCurriculum (weeks s)))).
  unfold get. rewrite assoc_jsonify_fields. unfold storedCurriculum.
  rewrite (assoc_assign_all (pretty (wId w)) (storedWeekObject w)).
  - reflexivity.
  - rewrite map_map. cbn [fst]. now apply NoDup_week_keys.
  - apply in_map_iff. exists w. split; [reflexivity | exact Hin].
  - apply week_key_not_proto.
Qed.

(** The course that a stored week holds under the identifier of a course
    of the week, when that identifier is not ["__proto__"]. *)
Lemma storedWeekObject_course (w : Week) (c : Course) :
  List.NoDup (map cId (courses w)) -> In c (courses w) -> cId c <> "__proto__" ->
  get (jsonify (storedWeekObject w)) (cId c) = jsonify (storedCourseObject c).
Proof.
  intros Hnd Hc Hproto. rewrite jsonify_storedWeekObject.
  unfold get. rewrite assoc_jsonify_fields.
  rewrite (assoc_assign_all (cId c) (storedCourseObject c)).
  - reflexivity.
  - rewrite map_map. cbn [fst]. exact Hnd.
  - apply in_map_iff. exists c. split; [reflexivity | exact Hc].
  - exact Hproto.
Qed.

(** A course of the seed under the stored course [c] of the same
    identifier takes the persisted fields of [c]. *)
Lemma overlayCourse_fields (engine : Engine) (lastUpdated : string)
    (s : CurriculumState) (w : Week) (c c0 : Course) :
  reads_iso_strings engine ->
  unique_ids s -> no_proto_id s -> dates_valid s ->
  In w (weeks s) -> In c (courses w) -> cId c0 = cId c ->
  let weekData := get (get (readRecord lastUpdated s) "curriculum")
                      (pretty (wId w)) in
  truthy weekData = true
  /\ cId (overlayCourse engine weekData c0) = cId c0
  /\ same_fields c (overlayCourse engine weekData c0).
Proof.
  intros Hengine Huniq Hproto Hdates Hw Hc Hid. cbv zeta.
  rewrite (readRecord_week lastUpdated s w Huniq Hw).
  split; [now rewrite jsonify_storedWeekObject|].
  unfold overlayCourse. rewrite Hid.
  rewrite (storedWeekObject_course w c (proj2 Huniq w Hw) Hc (Hproto w c Hw Hc)).
  destruct (Hdates w c Hw Hc) as [Hs He].
  destruct (storedCourseObject_read engine c Hengine Hs He)
    as (_ & _ & Htruthy & Hb & Hsd & Hed).
  cbv zeta in Htruthy, Hb, Hsd, Hed. rewrite Htruthy. cbn [negb].
  split; [reflexivity|]. unfold same_fields. cbn [completed startDate endDate].
  auto.
Qed.

Lemma storedDataToCurriculumState_weeks (engine : Engine) (data : value)
    (seed : CurriculumState) :
  weeks (storedDataToCurriculumState engine data seed)
  = map (fun week =>
           let weekData := get (get data "curriculum") (pretty (wId week)) in
           if negb (truthy weekData) then week
           else with_courses week
                  (map (overlayCourse engine weekData) (courses week)))
        (weeks seed).
Proof. reflexivity. Qed.


(** *** Saving on a store whose operations all go through *)

Lemma saveCurriculumState_healthy (now : Date) (s : CurriculumState)
    (its : gmap string string) :
  saveCurriculumState now s (mkStorage its [])
  = match recordText now s with
    | Some text =>
        (Returned true, mkStorage (<[STORAGE_KEY := text]> (probed its)) [])
    | None => (Returned false, mkStorage (probed its) [])
    end.
Proof.
  unfold saveCurriculumState, bind at 1. rewrite probe_passes. cbn [negb].
  unfold recordText, try_catch at 1, bind at 1.
  destruct (curriculumStateToStoredData now s) as [record|]; reflexivity.
Qed.





(* --------------------------------------------------------------------- *)
(** ** The algebra of the course-level transitions                       *)
(* --------------------------------------------------------------------- *)

Lemma updateAllProgress_weeks (s : CurriculumState) :
  weeks (updateAllProgress s)
  = map (fun week => with_progress week (calculateWeekProgress (courses week)))
        (weeks s).
Proof. reflexivity. Qed.

(** Two states with the same weeks up to their percentages recompute to the
    same state. *)
Lemma updateAllProgress_ext (s s' : CurriculumState) :
  map (fun week => with_progress week (calculateWeekProgress (courses week)))
      (weeks s)
  = map (fun week => with_progress week (calculateWeekProgress (courses week)))
        (weeks s') ->
  updateAllProgress s = updateAllProgress s'.
Proof. unfold updateAllProgress. cbv zeta. now intros ->. Qed.

Lemma updateCourse_weeks (s : CurriculumState) (wid : option Z)
    (cid : option string) (f : Course -> Course) :
  weeks (updateCourse s wid cid f)
  = map (fun week =>
           if number_strict_eq (wId week) wid
           then with_courses week
                  (map (fun course =>
                          if string_strict_eq (cId course) cid
                          then f course else course)
                       (courses week))
           else week)
        (weeks s).
Proof. reflexivity. Qed.

(** The percentages that a state holds play no part in a transition: they are
    recomputed at its end. *)
Lemma updateCourse_absorbs (s : CurriculumState) (wid : option Z)
    (cid : option string) (f : Course -> Course) :
  updateAllProgress (updateCourse (updateAllProgress s) wid cid f)
  = updateAllProgress (updateCourse s wid cid f).
Proof.
  apply updateAllProgress_ext.
  rewrite !updateCourse_weeks, updateAllProgress_weeks, !map_map.
  apply map_ext. intros w. cbn [wId with_progress courses].
  destruct (number_strict_eq (wId w) wid); reflexivity.
Qed.

(** Off its no-op path, a course-level action is its field update followed by
    a recomputation. *)
Lemma curriculumReducer_course_action (s : CurriculumState) (a : CurriculumAction) :
  is_course_action (type_ a) = true ->
  curriculumReducer s a
  = if takes_noop_path a then s
    else updateAllProgress
           (updateCourse s (weekId (payload a)) (courseId (payload a))
              (field_update a)).
Proof.
  unfold curriculumReducer, takes_noop_path, field_update.
  destruct (type_ a); try discriminate; intros _;
    destruct (truthy_number (weekId (payload a)));
    destruct (truthy_string (courseId (payload a)));
    try destruct (truthy_object (date (payload a))); reflexivity.
Qed.

Lemma field_update_cId (a : CurriculumAction) (c : Course) :
  cId (field_update a c) = cId c.
Proof. unfold field_update. destruct (type_ a); reflexivity. Qed.

(** Two updates of the courses that commute course by course commute on the
    state. *)
Lemma updateCourse_commute (s : CurriculumState) (wid wid' : option Z)
    (cid cid' : option string) (f g : Course -> Course) :
  (forall c, cId (f c) = cId c) -> (forall c, cId (g c) = cId c) ->
  (forall w c, number_strict_eq (wId w) wid = true ->
               number_strict_eq (wId w) wid' = true ->
               string_strict_eq (cId c) cid = true ->
               string_strict_eq (cId c) cid' = true ->
               f (g c) = g (f c)) ->
  updateCourse (updateCourse s wid cid f) wid' cid' g
  = updateCourse (updateCourse s wid' cid' g) wid cid f.
Proof.
  intros Hf Hg Hfg. unfold updateCourse, with_weeks. cbn [weeks overallProgress].
  f_equal. rewrite !map_map. apply map_ext. intros w.
  destruct (number_strict_eq (wId w) wid) eqn:E1;
    destruct (number_strict_eq (wId w) wid') eqn:E2;
    cbn [wId with_courses courses]; rewrite ?E1, ?E2; try reflexivity.
  unfold with_courses. cbn [wId title progress]. f_equal.
  rewrite !map_map. apply map_ext. intros c.
  destruct (string_strict_eq (cId c) cid) eqn:E3;
    destruct (string_strict_eq (cId c) cid') eqn:E4;
    rewrite ?Hf, ?Hg, ?E3, ?E4; try reflexivity.
  symmetry. now apply (Hfg w c).
Qed.

(** An update applied twice is the composed update applied once. *)
Lemma updateCourse_twice (s : CurriculumState) (wid : option Z)
    (cid : option string) (f g : Course -> Course) :
  (forall c, cId (f c) = cId c) ->
  updateCourse (updateCourse s wid cid f) wid cid g
  = updateCourse s wid cid (fun c => g (f c)).
Proof.
  intros Hf. unfold updateCourse, with_weeks. cbn [weeks overallProgress].
  f_equal. rewrite !map_map. apply map_ext. intros w.
  destruct (number_strict_eq (wId w) wid) eqn:E1;
    cbn [wId with_courses courses]; rewrite ?E1; try reflexivity.
  unfold with_courses. cbn [wId title progress]. f_equal.
  rewrite !map_map. apply map_ext. intros c.
  destruct (string_strict_eq (cId c) cid) eqn:E3; rewrite ?Hf, ?E3; reflexivity.
Qed.

Lemma updateCourse_ext (s : CurriculumState) (wid : option Z)
    (cid : option string) (f g : Course -> Course) :
  (forall c, f c = g c) -> updateCourse s wid cid f = updateCourse s wid cid g.
Proof.
  intros H. unfold updateCourse. f_equal. apply map_ext. intros w.
  destruct (number_strict_eq (wId w) wid); [|reflexivity].
  f_equal. apply map_ext. intros c. now rewrite H.
Qed.

Lemma updateCourse_id (s : CurriculumState) (wid : option Z) (cid : option string) :
  updateCourse s wid cid (fun c => c) = s.
Proof.
  unfold updateCourse, with_weeks. destruct s as [ws o]. cbn [weeks overallProgress].
  f_equal. rewrite <- (map_id ws) at 2. apply map_ext. intros w.
  destruct (number_strict_eq (wId w) wid); [|reflexivity].
  destruct w as [i t cs p]. unfold with_courses. cbn. f_equal.
  rewrite <- (map_id cs) at 2. apply map_ext. intros c.
  destruct (string_strict_eq (cId c) cid); reflexivity.
Qed.

Lemma truthy_number_eq (x y : option Z) (n : Z) :
  truthy_number x = true -> truthy_number y = true ->
  number_strict_eq n x = true -> number_strict_eq n y = true -> x = y.
Proof.
  destruct x as [a|], y as [b|]; cbn; try discriminate.
  intros _ _ Ha Hb. apply Z.eqb_eq in Ha, Hb. congruence.
Qed.

Lemma truthy_string_eq (x y : option string) (n : string) :
  truthy_string x = true -> truthy_string y = true ->
  string_strict_eq n x = true -> string_strict_eq n y = true -> x = y.
Proof.
  destruct x as [a|], y as [b|]; cbn; try discriminate.
  intros _ _ Ha Hb. apply String.eqb_eq in Ha, Hb. congruence.
Qed.

(** X1.  Two course-level actions commute, unless they set the same date field of
    the same course to different dates. *)
Theorem curriculumReducer_commutes (s : CurriculumState) (a b : CurriculumAction) :
  is_course_action (type_ a) = true -> is_course_action (type_ b) = true ->
  type_ a <> type_ b \/ type_ a = TOGGLE_COMPLETION \/ ~ same_target a b
  \/ date (payload a) = date (payload b) ->
  curriculumReducer (curriculumReducer s a) b
  = curriculumReducer (curriculumReducer s b) a.
Proof.
  intros Ha Hb Hfree.
  rewrite (curriculumReducer_course_action s a Ha).
  rewrite (curriculumReducer_course_action s b Hb).
  destruct (takes_noop_path a) eqn:Na.
  { rewrite (curriculumReducer_course_action s b Hb).
    destruct (takes_noop_path b) eqn:Nb.
    - rewrite (curriculumReducer_course_action s a Ha), Na. reflexivity.
    - rewrite (curriculumReducer_course_action _ a Ha), Na. reflexivity. }
  destruct (takes_noop_path b) eqn:Nb.
  { rewrite (curriculumReducer_course_action _ b Hb), Nb.
    rewrite (curriculumReducer_course_action s a Ha), Na. reflexivity. }
  rewrite (curriculumReducer_course_action _ b Hb), Nb.
  rewrite (curriculumReducer_course_action _ a Ha), Na.
  rewrite !updateCourse_absorbs. f_equal.
  apply updateCourse_commute; try apply field_update_cId.
  intros w c Hwa Hwb Hca Hcb.
  assert (Htarget : same_target a b).
  { unfold takes_noop_path in Na, Nb. split.
    - apply (truthy_number_eq _ _ (wId w)); try assumption.
      + destruct (type_ a); try discriminate;
          destruct (truthy_number (weekId (payload a))); try reflexivity;
          discriminate.
      + destruct (type_ b); try discriminate;
          destruct (truthy_number (weekId (payload b))); try reflexivity;
          discriminate.
    - apply (truthy_string_eq _ _ (cId c)); try assumption.
      + destruct (type_ a); try discriminate;
          destruct (truthy_number (weekId (payload a)));
          destruct (truthy_string (courseId (payload a))); try reflexivity;
          discriminate.
      + destruct (type_ b); try discriminate;
          destruct (truthy_number (weekId (payload b)));
          destruct (truthy_string (courseId (payload b))); try reflexivity;
          discriminate. }
  unfold field_update.
  destruct Hfree as [Hne|[Ht|[Hnt|Hd]]].
  - destruct (type_ a), (type_ b); try discriminate; try reflexivity;
      congruence.
  - rewrite Ht. destruct (type_ b); try discriminate; try reflexivity.
  - contradiction.
  - rewrite Hd. destruct (type_ a), (type_ b); try discriminate; reflexivity.
Qed.
Lemma curriculumReducer_commutes_witness :
  curriculumReducer (curriculumReducer sampleState (toggle 1 "1-1"))
                    (setStartDate 1 "1-1" jan20)
  = curriculumReducer (curriculumReducer sampleState (setStartDate 1 "1-1" jan20))
                      (toggle 1 "1-1").
Proof.
  apply (curriculumReducer_commutes sampleState (toggle 1 "1-1")
           (setStartDate 1 "1-1" jan20)).
  - reflexivity.
  - reflexivity.
  - left. discriminate.
Defined.

(** The exception is real: of two start dates set on the same course, the
    one set last stays. *)
Example set_start_dates_do_not_commute :
  curriculumReducer (curriculumReducer sampleState (setStartDate 1 "1-1" jan15))
                    (setStartDate 1 "1-1" jan20)
  <> curriculumReducer (curriculumReducer sampleState (setStartDate 1 "1-1" jan20))
                       (setStartDate 1 "1-1" jan15).
Proof. vm_compute. discriminate. Qed.

Lemma with_completed_twice (c : Course) :
  with_completed (with_completed c (negb (completed c)))
    (negb (completed (with_completed c (negb (completed c))))) = c.
Proof. destruct c as [i n sd ed []]; reflexivity. Qed.

(** X2.  Toggling the same course twice undoes the toggle: the state that comes
    back is the first one with its percentages recomputed. *)
Theorem toggle_twice (s : CurriculumState) (wid : Z) (cid : string) :
  wid <> 0 -> cid <> "" ->
  curriculumReducer (curriculumReducer s (toggle wid cid)) (toggle wid cid)
  = updateAllProgress s.
Proof.
  intros Hw Hc.
  assert (Hpath : takes_noop_path (toggle wid cid) = false).
  { unfold takes_noop_path, toggle. cbn.
    apply Z.eqb_neq in Hw. apply String.eqb_neq in Hc. now rewrite Hw, Hc. }
  rewrite !(curriculumReducer_course_action _ (toggle wid cid) eq_refl), Hpath.
  rewrite updateCourse_absorbs, updateCourse_twice by apply field_update_cId.
  f_equal. rewrite <- (updateCourse_id s (Some wid) (Some cid)) at 2.
  apply updateCourse_ext. intros c. apply with_completed_twice.
Qed.

Lemma toggle_twice_witness :
  curriculumReducer (curriculumReducer sampleState (toggle 1 "1-2")) (toggle 1 "1-2")
  = updateAllProgress sampleState.
Proof.
  apply (toggle_twice sampleState 1 "1-2"); discriminate.
Defined.

(** X3.  Of two dates set in a row on the same field of the same course, the last
    one wins: when the guard lets the second action through, the result is
    the state that the second action alone gives, and the first action
    leaves no trace; when the guard ignores the second action, for want of a
    date or of an identifier, the result is the state that the first one
    gives. *)
Theorem set_date_last_wins (s : CurriculumState) (a b : CurriculumAction) :
  type_ a = SET_START_DATE \/ type_ a = SET_END_DATE ->
  type_ b = type_ a -> same_target a b ->
  curriculumReducer (curriculumReducer s a) b
  = if takes_noop_path b then curriculumReducer s a else curriculumReducer s b.
Proof.
  intros Ha Hb [Hw Hc].
  assert (Ca : is_course_action (type_ a) = true)
    by (destruct Ha as [-> | ->]; reflexivity).
  assert (Cb : is_course_action (type_ b) = true) by now rewrite Hb.
  rewrite (curriculumReducer_course_action _ b Cb).
  destruct (takes_noop_path b) eqn:Nb; [reflexivity|].
  rewrite (curriculumReducer_course_action s a Ca).
  rewrite (curriculumReducer_course_action s b Cb), Nb.
  destruct (takes_noop_path a); [reflexivity|].
  rewrite updateCourse_absorbs, <- Hw, <- Hc.
  rewrite updateCourse_twice by apply field_update_cId.
  f_equal. apply updateCourse_ext. intros c. unfold field_update.
  rewrite Hb. destruct Ha as [-> | ->]; reflexivity.
Qed.

Lemma set_date_last_wins_witness :
  curriculumReducer (curriculumReducer sampleState (setEndDate 1 "1-2" jan15))
                    (setEndDate 1 "1-2" jan20)
  = curriculumReducer sampleState (setEndDate 1 "1-2" jan20).
Proof.
  apply (set_date_last_wins sampleState (setEndDate 1 "1-2" jan15)
           (setEndDate 1 "1-2" jan20)).
  - right. reflexivity.
  - reflexivity.
  - split; reflexivity.
Defined.

(** The percentage of a list of courses depends on their [completed] flags
    alone. *)
Lemma calculateWeekProgress_flags (cs cs' : list Course) :
  map completed cs = map completed cs' ->
  calculateWeekProgress cs = calculateWeekProgress cs'.
Proof.
  intros H. unfold calculateWeekProgress, completedCount.
  assert (Hlen : length cs = length cs').
  { rewrite <- (length_map completed cs), H. apply length_map. }
  assert (Hcount : length (List.filter completed cs)
                   = length (List.filter completed cs')).
  { clear Hlen. revert cs' H.
    induction cs as [|c cs IH]; intros [|c' cs'] H; try discriminate;
      [reflexivity|].
    cbn in H. injection H as Hc Hcs. cbn. rewrite <- Hc.
    destruct (completed c); cbn; now rewrite (IH cs' Hcs). }
  now rewrite Hlen, Hcount.
Qed.

Lemma percentages_updateAllProgress (s : CurriculumState) :
  percentages (updateAllProgress s)
  = (map (fun w => calculateWeekProgress (courses w)) (weeks s),
     calculateWeekProgress (concat (map courses (weeks s)))).
Proof.
  unfold percentages. rewrite updateAllProgress_overall, updateAllProgress_weeks.
  rewrite map_map. reflexivity.
Qed.

(** X4.  Setting a date moves no percentage: the state that comes back has the
    percentages that a recomputation of the first one gives. *)
Theorem set_date_keeps_percentages (s : CurriculumState) (a : CurriculumAction) :
  type_ a = SET_START_DATE \/ type_ a = SET_END_DATE ->
  takes_noop_path a = false ->
  percentages (curriculumReducer s a) = percentages (updateAllProgress s).
Proof.
  intros Ha Na.
  assert (Ca : is_course_action (type_ a) = true)
    by (destruct Ha as [-> | ->]; reflexivity).
  rewrite (curriculumReducer_course_action s a Ca), Na.
  rewrite !percentages_updateAllProgress, updateCourse_weeks, !map_map.
  assert (Hflags : forall w,
    map completed
      (courses (if number_strict_eq (wId w) (weekId (payload a))
                then with_courses w
                       (map (fun course =>
                               if string_strict_eq (cId course) (courseId (payload a))
                               then field_update a course else course) (courses w))
                else w))
    = map completed (courses w)).
  { intros w. destruct (number_strict_eq (wId w) (weekId (payload a)));
      [|reflexivity].
    cbn [courses with_courses]. rewrite map_map. apply map_ext. intros c.
    destruct (string_strict_eq (cId c) (courseId (payload a))); [|reflexivity].
    unfold field_update. destruct Ha as [-> | ->]; reflexivity. }
  f_equal.
  - apply map_ext. intros w. apply calculateWeekProgress_flags, Hflags.
  - apply calculateWeekProgress_flags. rewrite !concat_map, !map_map.
    f_equal. apply map_ext. intros w. apply Hflags.
Qed.

Lemma set_date_keeps_percentages_witness :
  percentages (curriculumReducer staleState (setStartDate 1 "1-1" jan15))
  = percentages (updateAllProgress staleState).
Proof.
  apply (set_date_keeps_percentages staleState (setStartDate 1 "1-1" jan15)).
  - left. reflexivity.
  - reflexivity.
Defined.

Lemma catalog_updateAllProgress (s : CurriculumState) :
  catalog (updateAllProgress s) = catalog s.
Proof.
  unfold catalog. rewrite updateAllProgress_weeks, map_map.
  apply map_ext. intros w. reflexivity.
Qed.

Lemma catalog_updateCourse (s : CurriculumState) (wid : option Z)
    (cid : option string) (f : Course -> Course) :
  (forall c, cId (f c) = cId c /\ cName (f c) = cName c) ->
  catalog (updateCourse s wid cid f) = catalog s.
Proof.
  intros Hf. unfold catalog. rewrite updateCourse_weeks, map_map.
  apply map_ext. intros w.
  destruct (number_strict_eq (wId w) wid); [|reflexivity].
  cbn [wId title courses with_courses]. f_equal.
  rewrite map_map. apply map_ext. intros c.
  destruct (string_strict_eq (cId c) cid); [|reflexivity].
  destruct (Hf c) as [-> ->]. reflexivity.
Qed.

(** X5.  The reducer never adds, removes, renames or reorders a week or a course:
    the identifiers, titles and names of the state that comes back are those
    of the state it received, or those of the loaded state after a
    [LOAD_DATA] that carries one. *)
Theorem curriculumReducer_catalog (s : CurriculumState) (a : CurriculumAction) :
  catalog (curriculumReducer s a)
  = catalog (match type_ a, data (payload a) with
             | LOAD_DATA, Some loaded => loaded
             | _, _ => s
             end).
Proof.
  destruct (is_course_action (type_ a)) eqn:Ca.
  - rewrite (curriculumReducer_course_action s a Ca).
    assert (E : match type_ a, data (payload a) with
                | LOAD_DATA, Some loaded => loaded
                | _, _ => s
                end = s)
      by (destruct (type_ a); try discriminate; reflexivity).
    rewrite E. destruct (takes_noop_path a); [reflexivity|].
    rewrite catalog_updateAllProgress. apply catalog_updateCourse.
    intros c. unfold field_update. destruct (type_ a); split; reflexivity.
  - unfold curriculumReducer. destruct (type_ a); try discriminate.
    + destruct (data (payload a)); [apply catalog_updateAllProgress | reflexivity].
    + reflexivity.
Qed.

Lemma curriculumReducer_fresh (s : CurriculumState) (a : CurriculumAction) :
  updateAllProgress s = s ->
  updateAllProgress (curriculumReducer s a) = curriculumReducer s a.
Proof.
  intros Hfresh.
  assert (Hidem : forall x, updateAllProgress (updateAllProgress x)
                            = updateAllProgress x).
  { intros x. unfold updateAllProgress at 1. cbv zeta.
    rewrite updateAllProgress_weeks_fixed. reflexivity. }
  destruct (is_course_action (type_ a)) eqn:Ca.
  - rewrite (curriculumReducer_course_action s a Ca).
    destruct (takes_noop_path a); [exact Hfresh | apply Hidem].
  - unfold curriculumReducer. destruct (type_ a); try discriminate.
    + destruct (data (payload a)); [apply Hidem | exact Hfresh].
    + exact Hfresh.
Qed.

(** X6.  Up-to-date percentages are an invariant of the reducer: from a state
    that a recomputation leaves as it is, every sequence of actions,
    whatever their kinds and payloads, leads to such a state. *)
Theorem reducer_keeps_percentages_up_to_date (s : CurriculumState)
    (actions : list CurriculumAction) :
  updateAllProgress s = s ->
  updateAllProgress (reduceAll s actions) = reduceAll s actions.
Proof.
  unfold reduceAll. revert s. induction actions as [|a actions IH]; intros s Hfresh.
  - exact Hfresh.
  - cbn [fold_left]. apply IH. now apply curriculumReducer_fresh.
Qed.

Lemma reducer_keeps_percentages_up_to_date_witness :
  updateAllProgress
    (reduceAll freshState
       [toggle 1 "1-2"; setStartDate 1 "1-1" jan15; toggle 0 "1-1";
        mkAction LOAD_DATA (mkPayload None None None (Some staleState))])
  = reduceAll freshState
      [toggle 1 "1-2"; setStartDate 1 "1-1" jan15; toggle 0 "1-1";
       mkAction LOAD_DATA (mkPayload None None None (Some staleState))].
Proof.
  apply (reducer_keeps_percentages_up_to_date freshState).
  vm_compute. reflexivity.
Defined.
(* --------------------------------------------------------------------- *)
(** ** Progress statistics                                               *)
(* --------------------------------------------------------------------- *)

Lemma count_cons {A : Type} (p : A -> bool) (x : A) (l : list A) :
  count p (x :: l) = (if p x then 1 else 0) + count p l.
Proof. unfold count. cbn. destruct (p x); cbn [length]; lia. Qed.

Lemma count_bounds {A : Type} (p : A -> bool) (l : list A) :
  0 <= count p l <= Z.of_nat (length l).
Proof.
  unfold count. pose proof (List.filter_length_le p l). lia.
Qed.

(** X7.  The three classes of weeks of the statistics are disjoint, and a week is
    in one of them exactly when its stored percentage is from 0 to 100: the
    three counts add up to the number of weeks if and only if every stored
    percentage is in that range. *)
Theorem statistics_weeks_partition (s : CurriculumState) :
  let st := getProgressStatistics s in
  stat_completedWeeks st + stat_inProgressWeeks st + stat_notStartedWeeks st
    = stat_totalWeeks st
  <-> Forall (fun w => 0 <= progress w <= 100) (weeks s).
Proof.
  cbv zeta. unfold getProgressStatistics.
  cbn [stat_completedWeeks stat_inProgressWeeks stat_notStartedWeeks stat_totalWeeks].
  change (count (fun week => progress week =? 100) (weeks s)
          + count (fun week => (0 <? progress week) && (progress week <? 100)) (weeks s)
          + count (fun week => progress week =? 0) (weeks s)
          = Z.of_nat (length (weeks s))
          <-> Forall (fun w => 0 <= progress w <= 100) (weeks s)).
  assert (H : count (fun week => progress week =? 100) (weeks s)
              + count (fun week => (0 <? progress week) && (progress week <? 100)) (weeks s)
              + count (fun week => progress week =? 0) (weeks s)
              <= Z.of_nat (length (weeks s))
              /\ (count (fun week => progress week =? 100) (weeks s)
                  + count (fun week => (0 <? progress week) && (progress week <? 100)) (weeks s)
                  + count (fun week => progress week =? 0) (weeks s)
                  = Z.of_nat (length (weeks s))
                  <-> Forall (fun w => 0 <= progress w <= 100) (weeks s))).
  2: exact (proj2 H).
  induction (weeks s) as [|w ws [IHle IHeq]].
  - split; [unfold count; cbn; lia|]. split; [constructor | reflexivity].
  - rewrite !count_cons. cbn [length]. rewrite List.Forall_cons_iff.
    destruct (Z.eqb_spec (progress w) 100) as [E100|N100];
      destruct (Z.eqb_spec (progress w) 0) as [E0|N0];
      destruct (Z.ltb_spec 0 (progress w)); destruct (Z.ltb_spec (progress w) 100);
      cbn [andb]; try (exfalso; lia); (split; [lia|]); rewrite <- IHeq;
      (split; [intros ?; try split; lia | intros [? ?]; lia]).
Qed.


Lemma sumZ_shift (xs : list Z) (a : Z) : fold_left Z.add xs a = a + sumZ xs.
Proof.
  unfold sumZ. revert a. induction xs as [|x xs IH]; intros a; cbn [fold_left]; [lia|].
  rewrite (IH (a + x)), (IH (0 + x)). lia.
Qed.

Lemma sumZ_map {A : Type} (f : A -> Z) (l : list A) :
  sumZ (map f l) = fold_left (fun total x => total + f x) l 0.
Proof.
  induction l as [|x l IH]; [reflexivity|].
  cbn [map]. unfold sumZ in *. cbn [fold_left].
  rewrite sumZ_shift, fold_left_add_shift, <- IH. reflexivity.
Qed.

Lemma filter_negb_length {A : Type} (p : A -> bool) (l : list A) :
  (length (List.filter p l) + length (List.filter (fun x => negb (p x)) l)
   = length l)%nat.
Proof.
  induction l as [|x l IH]; [reflexivity|]. cbn.
  destruct (p x); cbn; lia.
Qed.

(** X8.  The statistics count every course once: the totals are those of the
    flattened course list, the remaining courses are the courses that are
    not completed, and the entries of [weekProgresses] add up to the
    totals. *)
Theorem statistics_course_accounting (s : CurriculumState) :
  let st := getProgressStatistics s in
  let all := concat (map courses (weeks s)) in
  stat_totalCourses st = Z.of_nat (length all)
  /\ stat_completedCourses st = count completed all
  /\ stat_remainingCourses st = count (fun c => negb (completed c)) all
  /\ sumZ (map wp_totalCourses (stat_weekProgresses st)) = stat_totalCourses st
  /\ sumZ (map wp_completedCourses (stat_weekProgresses st))
     = stat_completedCourses st.
Proof.
  cbv zeta. unfold getProgressStatistics.
  cbn [stat_totalCourses stat_completedCourses stat_remainingCourses
       stat_weekProgresses].
  change (fold_left (fun total week => total + Z.of_nat (length (courses week)))
            (weeks s) 0) with (totalCourses (weeks s)).
  change (fold_left
            (fun total week =>
               total + Z.of_nat (length (List.filter completed (courses week))))
            (weeks s) 0) with (totalCompleted (weeks s)).
  rewrite totalCourses_flat, totalCompleted_flat.
  split; [reflexivity|]. split; [reflexivity|]. split.
  - unfold completedCount, count.
    pose proof (filter_negb_length completed (concat (map courses (weeks s)))).
    lia.
  - rewrite !map_map. cbn [wp_totalCourses wp_completedCourses].
    rewrite !sumZ_map.
    change (fold_left (fun total week => total + Z.of_nat (length (courses week)))
              (weeks s) 0) with (totalCourses (weeks s)).
    change (fold_left
              (fun total week =>
                 total + Z.of_nat (length (List.filter completed (courses week))))
              (weeks s) 0) with (totalCompleted (weeks s)).
    rewrite totalCourses_flat, totalCompleted_flat. split; reflexivity.
Qed.

(** Below two hundred courses the binary64 percentage is a number from 0 to
    100, is 100 only when every course is completed and 0 only when none is:
    checked on each of the pairs. *)
Lemma percent_extremes_below_200 : percent_extremes_upto 199 = true.
Proof. vm_compute. reflexivity. Qed.

Lemma percent_extremes_upto_spec (bound c n : nat) :
  percent_extremes_upto bound = true ->
  (1 <= n <= bound)%nat -> (c <= n)%nat ->
  percent_extremes c n = true.
Proof.
  unfold percent_extremes_upto. rewrite forallb_forall. intros H Hn Hc.
  specialize (H n). rewrite forallb_forall in H.
  apply H; apply in_seq; lia.
Qed.

Lemma Math_round_extremes_below_200 (c n : Z) :
  0 <= c <= n -> 0 < n < 200 ->
  let r := Math_round (js_ratio_times_100 c n) in
  0 <= r <= 100 /\ (r = 100 <-> c = n) /\ (r = 0 <-> c = 0).
Proof.
  intros Hc Hn.
  pose proof (percent_extremes_upto_spec 199 (Z.to_nat c) (Z.to_nat n)
                percent_extremes_below_200 ltac:(lia) ltac:(lia)) as H.
  unfold percent_extremes in H.
  rewrite !Z2Nat.id in H by lia. cbv zeta in *.
  set (r := Math_round (js_ratio_times_100 c n)) in *.
  rewrite !andb_true_iff in H. destruct H as [[[H0 H100] Htop] Hbot].
  apply Z.leb_le in H0, H100. apply Bool.eqb_prop in Htop, Hbot.
  split; [lia|]. split.
  - rewrite <- Z.eqb_eq, Htop, Nat.eqb_eq. lia.
  - rewrite <- Z.eqb_eq, Hbot, Nat.eqb_eq. lia.
Qed.

Lemma forallb_completed_count (cs : list Course) :
  forallb completed cs = true <-> completedCount cs = Z.of_nat (length cs).
Proof.
  unfold completedCount. induction cs as [|c cs IH]; [cbn; tauto|].
  cbn. pose proof (List.filter_length_le completed cs).
  destruct (completed c); cbn [andb length].
  - rewrite IH. lia.
  - split; [discriminate | lia].
Qed.

Lemma forallb_not_completed_count (cs : list Course) :
  forallb (fun course => negb (completed course)) cs = true
  <-> completedCount cs = 0.
Proof.
  unfold completedCount. induction cs as [|c cs IH]; [cbn; tauto|].
  cbn. destruct (completed c); cbn [andb negb length].
  - split; [discriminate | lia].
  - exact IH.
Qed.

(** The percentage of a week of fewer than two hundred courses. *)
Lemma calculateWeekProgress_extremes (w : Week) :
  (length (courses w) < 200)%nat ->
  let p := calculateWeekProgress (courses w) in
  0 <= p <= 100
  /\ (p =? 100) = all_completed w
  /\ (p =? 0) = none_completed w.
Proof.
  intros Hlen. cbv zeta. unfold calculateWeekProgress, all_completed, none_completed.
  destruct (courses w) as [|c cs] eqn:E.
  - cbn [length Nat.eqb negb andb forallb].
    change (Z.of_nat 0 =? 0) with true. cbv iota.
    split; [lia|]. split; reflexivity.
  - rewrite <- E in *.
    assert (Hn : 0 < Z.of_nat (length (courses w)) < 200) by (rewrite E in *; cbn in *; lia).
    assert (Hz : (Z.of_nat (length (courses w)) =? 0) = false) by (apply Z.eqb_neq; lia).
    assert (Hnat : Nat.eqb (length (courses w)) 0 = false)
      by (apply Nat.eqb_neq; lia).
    rewrite Hz, Hnat. cbn [negb andb].
    destruct (Math_round_extremes_below_200 (completedCount (courses w))
                (Z.of_nat (length (courses w)))
                (completedCount_bounds (courses w)) Hn) as (Hr & Htop & Hbot).
    cbv zeta in *. split; [exact Hr|]. split.
    + apply eq_true_iff_eq. rewrite Z.eqb_eq, Htop, forallb_completed_count.
      reflexivity.
    + apply eq_true_iff_eq. rewrite Z.eqb_eq, Hbot, forallb_not_completed_count.
      reflexivity.
Qed.

Lemma count_ext_in {A : Type} (p q : A -> bool) (l : list A) :
  (forall x, In x l -> p x = q x) -> count p l = count q l.
Proof.
  intros H. unfold count. f_equal. f_equal. induction l as [|x l IH]; [reflexivity|].
  cbn. rewrite (H x) by (left; reflexivity).
  rewrite IH; [reflexivity|]. intros y Hy. apply H. right. exact Hy.
Qed.

Lemma count_map {A B : Type} (f : A -> B) (p : B -> bool) (l : list A) :
  count p (map f l) = count (fun x => p (f x)) l.
Proof.
  unfold count. f_equal. induction l as [|x l IH]; [reflexivity|].
  cbn. destruct (p (f x)); cbn; now rewrite IH.
Qed.

(** Numbers from 0 to 100 are either 100, or 0, or in between. *)
Lemma three_classes {A : Type} (p : A -> Z) (l : list A) :
  (forall x, In x l -> 0 <= p x <= 100) ->
  count (fun x => p x =? 100) l
  + count (fun x => (0 <? p x) && (p x <? 100)) l
  + count (fun x => p x =? 0) l
  = Z.of_nat (length l).
Proof.
  induction l as [|x l IH]; intros H; [reflexivity|].
  rewrite !count_cons. cbn [length].
  specialize (IH (fun y Hy => H y (or_intror Hy))).
  specialize (H x (or_introl eq_refl)).
  destruct (Z.eqb_spec (p x) 100); destruct (Z.eqb_spec (p x) 0);
    destruct (Z.ltb_spec 0 (p x)); destruct (Z.ltb_spec (p x) 100);
    cbn [andb]; lia.
Qed.

(** X9.  Once the percentages are recomputed, and with fewer than two hundred
    courses in each week, the statistics classify the weeks by their
    courses: a week is completed when it has courses and all of them are
    completed, not started when none of its courses is completed, in
    progress otherwise; and every week is in one class. *)
Theorem statistics_after_recompute (s : CurriculumState) :
  Forall (fun w => (length (courses w) < 200)%nat) (weeks s) ->
  let st := getProgressStatistics (updateAllProgress s) in
  stat_completedWeeks st = count all_completed (weeks s)
  /\ stat_notStartedWeeks st = count none_completed (weeks s)
  /\ stat_inProgressWeeks st
     = count (fun w => negb (all_completed w) && negb (none_completed w)) (weeks s)
  /\ stat_completedWeeks st + stat_inProgressWeeks st + stat_notStartedWeeks st
     = stat_totalWeeks st.
Proof.
  intros Hlen. cbv zeta. rewrite List.Forall_forall in Hlen.
  unfold getProgressStatistics.
  cbn [stat_completedWeeks stat_inProgressWeeks stat_notStartedWeeks
       stat_totalWeeks].
  repeat match goal with
  | |- context [Z.of_nat (length (List.filter ?p ?l))] =>
      change (Z.of_nat (length (List.filter p l))) with (count p l)
  end.
  rewrite updateAllProgress_weeks. rewrite !count_map, length_map.
  cbn [progress with_progress].
  split; [|split; [|split]].
  - apply count_ext_in. intros w Hw.
    apply (calculateWeekProgress_extremes w (Hlen w Hw)).
  - apply count_ext_in. intros w Hw.
    apply (calculateWeekProgress_extremes w (Hlen w Hw)).
  - apply count_ext_in. intros w Hw.
    destruct (calculateWeekProgress_extremes w (Hlen w Hw)) as (Hr & <- & <-).
    cbv zeta in Hr.
    destruct (Z.eqb_spec (calculateWeekProgress (courses w)) 100);
      destruct (Z.eqb_spec (calculateWeekProgress (courses w)) 0);
      destruct (Z.ltb_spec 0 (calculateWeekProgress (courses w)));
      destruct (Z.ltb_spec (calculateWeekProgress (courses w)) 100);
      cbn; try reflexivity; lia.
  - apply (three_classes (fun w => calculateWeekProgress (courses w))).
    intros w Hw. apply (calculateWeekProgress_extremes w (Hlen w Hw)).
Qed.

Lemma statistics_after_recompute_witness :
  let st := getProgressStatistics (updateAllProgress sampleState) in
  stat_completedWeeks st = count all_completed (weeks sampleState)
  /\ stat_notStartedWeeks st = count none_completed (weeks sampleState)
  /\ stat_inProgressWeeks st
     = count (fun w => negb (all_completed w) && negb (none_completed w))
             (weeks sampleState)
  /\ stat_completedWeeks st + stat_inProgressWeeks st + stat_notStartedWeeks st
     = stat_totalWeeks st.
Proof.
  apply (statistics_after_recompute sampleState).
  repeat constructor; cbn; lia.
Defined.

(** The bound is sharp: with 199 of its 200 courses completed a week has the
    percentage 100 and counts as completed. *)
Example statistics_199_of_200 :
  let s := mkState [mkWeek 1 "week 1" (twoHundredCourses 199) 0] 0 in
  stat_completedWeeks (getProgressStatistics (updateAllProgress s)) = 1
  /\ count all_completed (weeks s) = 0.
Proof. vm_compute. split; reflexivity. Qed.
(* --------------------------------------------------------------------- *)
(** ** Date validator: what a verdict means                              *)
(* --------------------------------------------------------------------- *)

Lemma truthy_flag_true (b : option bool) : truthy_flag b = true <-> b = Some true.
Proof. destruct b as [[|]|]; cbn; split; congruence. Qed.

Lemma min_check (t : Z) (bound : option Date) :
  match bound with Some minDate => Date_lt (DateAt t) minDate | None => false end = true
  <-> exists m, bound = Some (DateAt m) /\ t < m.
Proof.
  destruct bound as [[|m]|]; cbn.
  - split; [discriminate | intros (m & E & _); discriminate].
  - unfold Date_lt. cbn. rewrite Z.ltb_lt. split.
    + intros H. exists m. auto.
    + intros (m' & E & H). injection E as <-. exact H.
  - split; [discriminate | intros (m & E & _); discriminate].
Qed.

Lemma max_check (t : Z) (bound : option Date) :
  match bound with Some maxDate => Date_gt (DateAt t) maxDate | None => false end = true
  <-> exists m, bound = Some (DateAt m) /\ m < t.
Proof.
  destruct bound as [[|m]|]; cbn.
  - split; [discriminate | intros (m & E & _); discriminate].
  - unfold Date_gt, Date_lt. cbn. rewrite Z.ltb_lt. split.
    + intros H. exists m. auto.
    + intros (m' & E & H). injection E as <-. exact H.
  - split; [discriminate | intros (m & E & _); discriminate].
Qed.

Lemma validateDate_accepts (host : Host) (t : Z) (options : DateValidationOptions) :
  let today := startOfLocalDay host (currentTime host) in
  isValid (validateDate host (Some (DateAt t)) options) = true
  <-> (forall m, minDate options = Some (DateAt m) -> m <= t)
      /\ (forall m, maxDate options = Some (DateAt m) -> t <= m)
      /\ (disallowFutureDates options = Some true -> t <= today)
      /\ (requireFutureDates options = Some true -> today < t)
      /\ (warnFutureDates options = Some true -> t <= currentTime host).
Proof.
  cbv zeta. unfold validateDate.
  cbn [truthy_object negb isNaN_time getTime]. rewrite andb_false_r.
  pose proof (min_check t (minDate options)) as Hmin.
  pose proof (max_check t (maxDate options)) as Hmax.
  destruct (match minDate options with
            | Some minDate => Date_lt (DateAt t) minDate
            | None => false
            end).
  { cbn [isValid]. split; [discriminate|]. intros (H & _).
    destruct (proj1 Hmin eq_refl) as (m & E & Hlt). specialize (H m E). lia. }
  destruct (match maxDate options with
            | Some maxDate => Date_gt (DateAt t) maxDate
            | None => false
            end).
  { cbn [isValid]. split; [discriminate|]. intros (_ & H & _).
    destruct (proj1 Hmax eq_refl) as (m & E & Hlt). specialize (H m E). lia. }
  assert (Hmin' : forall m, minDate options = Some (DateAt m) -> m <= t).
  { intros m E. destruct (Z.le_gt_cases m t) as [|Hlt]; [assumption|].
    assert (false = true) by (apply Hmin; exists m; auto). discriminate. }
  assert (Hmax' : forall m, maxDate options = Some (DateAt m) -> t <= m).
  { intros m E. destruct (Z.le_gt_cases t m) as [|Hlt]; [assumption|].
    assert (false = true) by (apply Hmax; exists m; auto). discriminate. }
  clear Hmin Hmax.
  unfold Date_gt, Date_lt, Date_le, getTodayAtMidnight, newDate. cbn [getTime].
  pose proof (truthy_flag_true (disallowFutureDates options)) as Hd.
  pose proof (truthy_flag_true (requireFutureDates options)) as Hr.
  pose proof (truthy_flag_true (warnFutureDates options)) as Hw.
  destruct (truthy_flag (disallowFutureDates options));
    destruct (truthy_flag (requireFutureDates options));
    destruct (truthy_flag (warnFutureDates options));
    destruct (Z.ltb_spec (startOfLocalDay host (currentTime host)) t) as [L1|L1];
    destruct (Z.leb_spec t (startOfLocalDay host (currentTime host))) as [L2|L2];
    destruct (Z.ltb_spec (currentTime host) t) as [L3|L3];
    cbn [andb isValid valid_result]; try (exfalso; lia).
  all: split; [intros Hv; try discriminate Hv | intros (_ & _ & H1 & H2 & H3)].
  all: try (repeat split; try assumption; intros E;
            try (apply Hd in E; discriminate);
            try (apply Hr in E; discriminate);
            try (apply Hw in E; discriminate); lia).
  all: try reflexivity.
  all: try (specialize (H1 (proj1 Hd eq_refl)); lia).
  all: try (specialize (H2 (proj1 Hr eq_refl)); lia).
  all: try (specialize (H3 (proj1 Hw eq_refl)); lia).
Qed.

(** X10.  [validateDate] on a date that is there and is not an invalid date
    accepts it exactly when it meets each constraint that the options set:
    not before [minDate], not after [maxDate], not after the start of today
    under [disallowFutureDates], after the start of today under
    [requireFutureDates], and not after the present instant under
    [warnFutureDates], which rejects like the others.  A bound that is an
    invalid date constrains nothing. *)
Theorem validateDate_valid_iff (host : Host) (t : Z) (options : DateValidationOptions) :
  let today := startOfLocalDay host (currentTime host) in
  isValid (validateDate host (Some (DateAt t)) options) = true
  <-> (forall m, minDate options = Some (DateAt m) -> m <= t)
      /\ (forall m, maxDate options = Some (DateAt m) -> t <= m)
      /\ (disallowFutureDates options = Some true -> t <= today)
      /\ (requireFutureDates options = Some true -> today < t)
      /\ (warnFutureDates options = Some true -> t <= currentTime host).
Proof. exact (validateDate_accepts host t options). Qed.

(** X11.  Set together, [disallowFutureDates] and [requireFutureDates] reject
    every date that is there: the first rejects what is after the start of
    today, the second what is not. *)
Theorem validateDate_contradictory_flags
    (host : Host) (date : Date) (options : DateValidationOptions) :
  disallowFutureDates options = Some true ->
  requireFutureDates options = Some true ->
  isValid (validateDate host (Some date) options) = false.
Proof.
  intros Hd Hr. destruct date as [|t].
  - unfold validateDate. cbn [truthy_object negb isNaN_time getTime].
    rewrite andb_false_r. reflexivity.
  - apply not_true_is_false. intros Hv.
    apply validateDate_accepts in Hv as (_ & _ & H1 & H2 & _).
    specialize (H1 Hd). specialize (H2 Hr). lia.
Qed.

Lemma validateDate_contradictory_flags_witness :
  isValid (validateDate sampleHost (Some jan15) bothFutureOptions) = false
  /\ isValid (validateDate sampleHost (Some jan20) bothFutureOptions) = false.
Proof.
  split.
  - apply (validateDate_contradictory_flags sampleHost jan15 bothFutureOptions);
      reflexivity.
  - apply (validateDate_contradictory_flags sampleHost jan20 bothFutureOptions);
      reflexivity.
Defined.

Lemma validateDate_shape (host : Host) (date : option Date)
    (options : DateValidationOptions) :
  verdict_shape (validateDate host date options).
Proof.
  unfold verdict_shape, validateDate. cbv zeta.
  destruct (truthy_flag (required options) && negb (truthy_object date));
    [cbn; discriminate|].
  destruct date as [d|]; [|reflexivity].
  destruct (isNaN_time d); [cbn; discriminate|].
  destruct (match minDate options with
            | Some minDate => Date_lt d minDate
            | None => false
            end); [cbn; discriminate|].
  destruct (match maxDate options with
            | Some maxDate => Date_gt d maxDate
            | None => false
            end); [cbn; discriminate|].
  destruct (truthy_flag (disallowFutureDates options)
            && Date_gt d (getTodayAtMidnight host)); [cbn; discriminate|].
  destruct (truthy_flag (requireFutureDates options)
            && Date_le d (getTodayAtMidnight host)); [cbn; discriminate|].
  destruct (truthy_flag (warnFutureDates options) && Date_gt d (newDate host));
    [cbn; discriminate | reflexivity].
Qed.

Lemma validateDateRange_shape (startDate endDate : option Date)
    (options : DateValidationOptions) :
  verdict_shape (validateDateRange startDate endDate options).
Proof.
  unfold verdict_shape, validateDateRange.
  destruct startDate as [s|], endDate as [e|]; try reflexivity.
  destruct (isNaN_time s || isNaN_time e); [cbn; discriminate|].
  destruct (Date_gt s e); cbn; (reflexivity || discriminate).
Qed.

(** X12.  A verdict of the three validators is either valid, with an empty message
    and no error type, or invalid with an error type: no valid verdict
    carries a message, no invalid one comes without its type. *)
Theorem verdicts_have_a_shape (host : Host) (date otherDate : option Date)
    (isStartDate : bool) (options : DateValidationOptions) :
  verdict_shape (validateDate host date options)
  /\ verdict_shape (validateDateRange date otherDate options)
  /\ verdict_shape (validateCourseDate host date otherDate isStartDate options).
Proof.
  split; [apply validateDate_shape|]. split; [apply validateDateRange_shape|].
  unfold validateCourseDate. cbv zeta.
  pose proof (validateDate_shape host date options) as H1.
  destruct (isValid (validateDate host date options)) eqn:E1; cbn [negb].
  2:{ unfold verdict_shape. rewrite E1. unfold verdict_shape in H1.
      now rewrite E1 in H1. }
  destruct date as [d|], otherDate as [o|]; try reflexivity.
  pose proof (validateDateRange_shape
                (if isStartDate then Some d else Some o)
                (if isStartDate then Some o else Some d) options) as H2.
  destruct (isValid (validateDateRange (if isStartDate then Some d else Some o)
                       (if isStartDate then Some o else Some d) options)) eqn:E2;
    cbn [negb]; [reflexivity|].
  unfold verdict_shape in *. now rewrite E2 in *.
Qed.

Lemma validateDateRange_valid_iff (s e : Date) (options : DateValidationOptions) :
  isValid (validateDateRange (Some s) (Some e) options) = true
  <-> exists a b, s = DateAt a /\ e = DateAt b /\ a <= b.
Proof.
  unfold validateDateRange. destruct s as [|a], e as [|b]; cbn.
  1-3: split; [discriminate | intros (a' & b' & E1 & E2 & _); discriminate].
  unfold Date_gt, Date_lt. cbn. destruct (Z.ltb_spec b a); cbn.
  - split; [discriminate|]. intros (a' & b' & E1 & E2 & H').
    injection E1 as <-. injection E2 as <-. lia.
  - split; [|reflexivity]. intros _. exists a, b. auto.
Qed.

Lemma validateCourseDate_accepts (host : Host) (date otherDate : option Date)
    (isStartDate : bool) (options : DateValidationOptions) :
  isValid (validateCourseDate host date otherDate isStartDate options) = true
  <-> isValid (validateDate host date options) = true
      /\ match date, otherDate with
         | Some d, Some o =>
             exists a b, d = DateAt a /\ o = DateAt b
                         /\ if isStartDate then a <= b else b <= a
         | _, _ => True
         end.
Proof.
  unfold validateCourseDate. cbv zeta.
  destruct (isValid (validateDate host date options)) eqn:E1; cbn [negb].
  2:{ rewrite E1. split; [discriminate | intros [H _]; discriminate]. }
  destruct date as [d|], otherDate as [o|]; try (cbn; tauto).
  destruct isStartDate.
  - pose proof (validateDateRange_valid_iff d o options) as H.
    destruct (isValid (validateDateRange (Some d) (Some o) options)) eqn:E2;
      cbn [negb].
    + cbn. split; [intros _; split; [reflexivity | now apply H] | reflexivity].
    + rewrite E2. split; [discriminate|]. intros [_ H']. apply H in H'.
      discriminate.
  - pose proof (validateDateRange_valid_iff o d options) as H.
    destruct (isValid (validateDateRange (Some o) (Some d) options)) eqn:E2;
      cbn [negb].
    + cbn. split; [|reflexivity]. intros _. split; [reflexivity|].
      destruct (proj1 H eq_refl) as (a & b & -> & -> & Hle). exists b, a. auto.
    + rewrite E2. split; [discriminate|]. intros [_ (a & b & -> & -> & Hle)].
      assert (false = true) by (apply H; exists b, a; auto). discriminate.
Qed.

(** X13.  [validateCourseDate] accepts a date exactly when [validateDate] accepts
    it and, if the other date of the course is there as well, neither of the
    two is an invalid date and the start is not after the end. *)
Theorem validateCourseDate_valid_iff (host : Host) (date otherDate : option Date)
    (isStartDate : bool) (options : DateValidationOptions) :
  isValid (validateCourseDate host date otherDate isStartDate options) = true
  <-> isValid (validateDate host date options) = true
      /\ match date, otherDate with
         | Some d, Some o =>
             exists a b, d = DateAt a /\ o = DateAt b
                         /\ if isStartDate then a <= b else b <= a
         | _, _ => True
         end.
Proof. exact (validateCourseDate_accepts host date otherDate isStartDate options). Qed.


(* --------------------------------------------------------------------- *)
(** ** Date utilities                                                    *)
(* --------------------------------------------------------------------- *)

(** The date of a day number determines it. *)
Lemma civil_from_days_inj (z z' : Z) :
  civil_from_days z = civil_from_days z' -> z = z'.
Proof.
  intros H. pose proof (civil_round_trip z) as Hz.
  pose proof (civil_round_trip z') as Hz'.
  rewrite H in Hz. destruct (civil_from_days z') as [[y m] d].
  destruct Hz as [<- _]. destruct Hz' as [<- _]. reflexivity.
Qed.

(** X14.  [isSameDay] holds of two dates exactly when neither is an invalid date
    and their local times fall on the same day.  An invalid date is on the
    same day as no date, itself included. *)
Theorem isSameDay_iff (engine : Engine) (date1 date2 : Date) :
  isSameDay engine date1 date2 = true
  <-> exists t1 t2, date1 = DateAt t1 /\ date2 = DateAt t2
        /\ LocalTime engine t1 / msPerDay = LocalTime engine t2 / msPerDay.
Proof.
  unfold isSameDay, getFullYear, getMonth, getDate, local_date.
  destruct date1 as [|t1], date2 as [|t2].
  1-3: split; [discriminate | intros (a & b & E1 & E2 & _); discriminate].
  split.
  - intros H. exists t1, t2. split; [reflexivity|]. split; [reflexivity|].
    apply civil_from_days_inj.
    destruct (civil_from_days (LocalTime engine t1 / msPerDay)) as [[y1 m1] d1].
    destruct (civil_from_days (LocalTime engine t2 / msPerDay)) as [[y2 m2] d2].
    cbn in H. rewrite !andb_true_iff, !Z.eqb_eq in H.
    destruct H as [[-> Hm] ->]. f_equal. f_equal. lia.
  - intros (a & b & E1 & E2 & H). injection E1 as <-. injection E2 as <-.
    rewrite H.
    destruct (civil_from_days (LocalTime engine t2 / msPerDay)) as [[y2 m2] d2].
    cbn. now rewrite !Z.eqb_refl.
Qed.

(* --------------------------------------------------------------------- *)
(** ** Course row                                                        *)
(* --------------------------------------------------------------------- *)

Lemma validateDate_missing_optional (host : Host) (options : DateValidationOptions) :
  required options = None -> validateDate host None options = valid_result.
Proof. unfold validateDate. now intros ->. Qed.

Lemma validateDate_invalid_date (host : Host) (options : DateValidationOptions) :
  isValid (validateDate host (Some InvalidDate) options) = false.
Proof.
  unfold validateDate. cbn [truthy_object negb]. rewrite andb_false_r. reflexivity.
Qed.

Lemma start_validation (host : Host) (course : Course) (date : option Date) :
  isValid (validateCourseDate host date (endDate course) true
             startDateValidationOptions) = true
  <-> start_date_passes host course date.
Proof.
  rewrite validateCourseDate_accepts. unfold start_date_passes.
  destruct date as [[|t]|].
  - rewrite validateDate_invalid_date. split; [intros [H _]; discriminate|].
    intros (t & E & _). discriminate.
  - rewrite validateDate_accepts. cbn [minDate maxDate disallowFutureDates
      requireFutureDates warnFutureDates startDateValidationOptions]. split.
    + intros [(_ & _ & Hd & _) Hrange]. exists t. split; [reflexivity|].
      split; [now apply Hd|].
      destruct (endDate course) as [e|]; [|exact I].
      destruct Hrange as (a & b & Ea & -> & Hle). injection Ea as <-.
      exists b. auto.
    + intros (t' & E & Hd & Hrange). injection E as <-. split.
      * repeat split; try discriminate. intros _. exact Hd.
      * destruct (endDate course) as [e|]; [|exact I].
        destruct Hrange as (u & -> & Hle). exists t, u. auto.
  - rewrite validateDate_missing_optional by reflexivity. cbn. tauto.
Qed.

Lemma end_validation (host : Host) (course : Course) (date : option Date) :
  isValid (validateCourseDate host date (startDate course) false
             endDateValidationOptions) = true
  <-> end_date_passes course date.
Proof.
  rewrite validateCourseDate_accepts. unfold end_date_passes.
  destruct date as [[|t]|].
  - rewrite validateDate_invalid_date. split; [intros [H _]; discriminate|].
    intros (t & E & _). discriminate.
  - rewrite validateDate_accepts. cbn [minDate maxDate disallowFutureDates
      requireFutureDates warnFutureDates endDateValidationOptions]. split.
    + intros [_ Hrange]. exists t. split; [reflexivity|].
      destruct (startDate course) as [e|]; [|exact I].
      destruct Hrange as (a & b & Ea & -> & Hle). injection Ea as <-.
      exists b. auto.
    + intros (t' & E & Hrange). injection E as <-. split.
      * repeat split; discriminate.
      * destruct (startDate course) as [e|]; [|exact I].
        destruct Hrange as (u & -> & Hle). exists t, u. auto.
  - rewrite validateDate_missing_optional by reflexivity. cbn. tauto.
Qed.

Lemma validateDates_passes_start (host : Host) (course : Course) (date : option Date) :
  start_date_passes host course date ->
  validateDates date (endDate course) = "".
Proof.
  unfold start_date_passes, validateDates, validateDateRange.
  destruct date as [d|]; [|reflexivity].
  intros (t & -> & _ & H). destruct (endDate course) as [e|]; [|reflexivity].
  destruct H as (u & -> & Hle). cbn. unfold Date_gt, Date_lt. cbn.
  destruct (Z.ltb_spec u t); [lia | reflexivity].
Qed.

Lemma validateDates_passes_end (course : Course) (date : option Date) :
  end_date_passes course date ->
  validateDates (startDate course) date = "".
Proof.
  unfold end_date_passes, validateDates, validateDateRange.
  destruct date as [d|]; [|now destruct (startDate course)].
  intros (t & -> & H). destruct (startDate course) as [e|]; [|reflexivity].
  destruct H as (u & -> & Hle). cbn. unfold Date_gt, Date_lt. cbn.
  destruct (Z.ltb_spec t u); [lia | reflexivity].
Qed.

(** The second check of a handler never fires: what it would report, the
    first check reported already. *)
Lemma handleStartDateChange_eq (host : Host) (course : Course) (wid : Z)
    (date : option Date) :
  handleStartDateChange host course wid date
  = SetDateError "" :: SetStartDateError "" ::
    if isValid (validateCourseDate host date (endDate course) true
                  startDateValidationOptions)
    then [Dispatch (mkAction SET_START_DATE
                      (mkPayload (Some wid) (Some (cId course)) date None))]
    else [SetStartDateError
            (errorMessage (validateCourseDate host date (endDate course) true
                             startDateValidationOptions))].
Proof.
  unfold handleStartDateChange. cbv zeta.
  destruct (isValid (validateCourseDate host date (endDate course) true
                       startDateValidationOptions)) eqn:E; [|reflexivity].
  apply start_validation in E. rewrite (validateDates_passes_start host course date E).
  reflexivity.
Qed.

Lemma handleEndDateChange_eq (host : Host) (course : Course) (wid : Z)
    (date : option Date) :
  handleEndDateChange host course wid date
  = SetDateError "" :: SetEndDateError "" ::
    if isValid (validateCourseDate host date (startDate course) false
                  endDateValidationOptions)
    then [Dispatch (mkAction SET_END_DATE
                      (mkPayload (Some wid) (Some (cId course)) date None))]
    else [SetEndDateError
            (errorMessage (validateCourseDate host date (startDate course) false
                             endDateValidationOptions))].
Proof.
  unfold handleEndDateChange. cbv zeta.
  destruct (isValid (validateCourseDate host date (startDate course) false
                       endDateValidationOptions)) eqn:E; [|reflexivity].
  apply end_validation in E. rewrite (validateDates_passes_end course date E).
  reflexivity.
Qed.

(** X15.  The handlers of a row dispatch an action exactly when the date passes:
    it is absent, or it is not an invalid date and, for a start date, it is
    not after the start of today and not after the end date of the course,
    which is then not an invalid date either; for an end date, it is not
    before the start date of the course.  The action carries the week, the
    course and the date as they came. *)
Theorem row_handlers_dispatch_iff (host : Host) (course : Course) (wid : Z)
    (date : option Date) (a : CurriculumAction) :
  (In (Dispatch a) (handleStartDateChange host course wid date)
   <-> a = mkAction SET_START_DATE
             (mkPayload (Some wid) (Some (cId course)) date None)
       /\ match date with
          | None => True
          | Some d =>
              exists t, d = DateAt t
                /\ t <= startOfLocalDay host (currentTime host)
                /\ match endDate course with
                   | None => True
                   | Some e => exists u, e = DateAt u /\ t <= u
                   end
          end)
  /\ (In (Dispatch a) (handleEndDateChange host course wid date)
      <-> a = mkAction SET_END_DATE
                (mkPayload (Some wid) (Some (cId course)) date None)
          /\ match date with
             | None => True
             | Some d =>
                 exists t, d = DateAt t
                   /\ match startDate course with
                      | None => True
                      | Some b => exists u, b = DateAt u /\ u <= t
                      end
             end).
Proof.
  split.
  - rewrite handleStartDateChange_eq.
    change (match date with
            | None => True
            | Some d =>
                exists t, d = DateAt t
                  /\ t <= startOfLocalDay host (currentTime host)
                  /\ match endDate course with
                     | None => True
                     | Some e => exists u, e = DateAt u /\ t <= u
                     end
            end) with (start_date_passes host course date).
    rewrite <- start_validation.
    destruct (isValid (validateCourseDate host date (endDate course) true
                         startDateValidationOptions)); cbn [In]; split.
    + intros [H|[H|[H|[]]]]; try discriminate. injection H as <-.
      split; reflexivity.
    + intros [-> _]. right. right. left. reflexivity.
    + intros [H|[H|[H|[]]]]; discriminate.
    + intros [_ H]. discriminate.
  - rewrite handleEndDateChange_eq.
    change (match date with
            | None => True
            | Some d =>
                exists t, d = DateAt t
                  /\ match startDate course with
                     | None => True
                     | Some b => exists u, b = DateAt u /\ u <= t
                     end
            end) with (end_date_passes course date).
    rewrite <- (end_validation host).
    destruct (isValid (validateCourseDate host date (startDate course) false
                         endDateValidationOptions)); cbn [In]; split.
    + intros [H|[H|[H|[]]]]; try discriminate. injection H as <-.
      split; reflexivity.
    + intros [-> _]. right. right. left. reflexivity.
    + intros [H|[H|[H|[]]]]; discriminate.
    + intros [_ H]. discriminate.
Qed.

(** X16.  The error of the date range, [dateError], is never set to a message: the
    handlers write the empty string to it and nothing else, so that the
    error row of the range is never shown. *)
Theorem row_handlers_never_report_range (host : Host) (course : Course)
    (wid : Z) (date : option Date) :
  (forall message,
     In (SetDateError message) (handleStartDateChange host course wid date) ->
     message = "")
  /\ (forall message,
        In (SetDateError message) (handleEndDateChange host course wid date) ->
        message = "").
Proof.
  rewrite handleStartDateChange_eq, handleEndDateChange_eq.
  destruct (isValid (validateCourseDate host date (endDate course) true
                       startDateValidationOptions));
    destruct (isValid (validateCourseDate host date (startDate course) false
                         endDateValidationOptions));
    cbn [In]; split; intros message H;
    repeat (destruct H as [H|H]); try discriminate; try contradiction;
    now injection H.
Qed.

(** X17.  Clearing a date in a picker changes nothing: the handler dispatches the
    action with no date, and the reducer returns the state it received.  A
    date, once set, cannot be removed through the row. *)
Theorem clearing_a_date_changes_nothing (host : Host) (course : Course)
    (wid : Z) (s : CurriculumState) :
  (In (Dispatch (mkAction SET_START_DATE
                   (mkPayload (Some wid) (Some (cId course)) None None)))
      (handleStartDateChange host course wid None)
   /\ dispatched s (handleStartDateChange host course wid None) = s)
  /\ (In (Dispatch (mkAction SET_END_DATE
                      (mkPayload (Some wid) (Some (cId course)) None None)))
         (handleEndDateChange host course wid None)
      /\ dispatched s (handleEndDateChange host course wid None) = s).
Proof.
  rewrite handleStartDateChange_eq, handleEndDateChange_eq.
  assert (H1 : isValid (validateCourseDate host None (endDate course) true
                          startDateValidationOptions) = true)
    by (apply start_validation; exact I).
  assert (H2 : isValid (validateCourseDate host None (startDate course) false
                          endDateValidationOptions) = true)
    by (apply end_validation; exact I).
  rewrite H1, H2. unfold dispatched. cbn [fold_left In].
  assert (Hs : curriculumReducer s
                 (mkAction SET_START_DATE
                    (mkPayload (Some wid) (Some (cId course)) None None)) = s).
  { unfold curriculumReducer. cbn. now rewrite !orb_true_r. }
  assert (He : curriculumReducer s
                 (mkAction SET_END_DATE
                    (mkPayload (Some wid) (Some (cId course)) None None)) = s).
  { unfold curriculumReducer. cbn. now rewrite !orb_true_r. }
  rewrite Hs, He.
  split; (split; [right; right; left; reflexivity | reflexivity]).
Qed.

Lemma NoDup_map_inj {A B : Type} (f : A -> B) (l : list A) (a b : A) :
  List.NoDup (map f l) -> In a l -> In b l -> f a = f b -> a = b.
Proof.
  induction l as [|x l IH]; [contradiction|].
  cbn [map]. rewrite List.NoDup_cons_iff. intros [Hx Hl] [->|Ha] [->|Hb] E.
  - reflexivity.
  - exfalso. apply Hx. rewrite E. now apply in_map.
  - exfalso. apply Hx. rewrite <- E. now apply in_map.
  - now apply IH.
Qed.

(** An update of the one course [c] of the week [w] that leaves it with
    consistent dates leaves the state with consistent dates. *)
Lemma updateCourse_consistent (s : CurriculumState) (w : Week) (c : Course)
    (f : Course -> Course) :
  unique_ids s -> dates_consistent s ->
  In w (weeks s) -> In c (courses w) ->
  course_dates_consistent (f c) ->
  dates_consistent
    (updateAllProgress (updateCourse s (Some (wId w)) (Some (cId c)) f)).
Proof.
  intros [Hweeks Hcourses] Hcons Hw Hc Hf w' c' Hw' Hc'.
  apply updateAllProgress_In_inv in Hw' as (w1 & Hw1 & _ & _ & Hcs).
  rewrite Hcs in Hc'. clear Hcs w'.
  rewrite updateCourse_weeks in Hw1. apply in_map_iff in Hw1 as (w0 & <- & Hw0).
  cbn [number_strict_eq] in Hc'.
  destruct (Z.eqb_spec (wId w0) (wId w)) as [E|_].
  - assert (w0 = w) by (apply (NoDup_map_inj wId (weeks s)); assumption).
    subst w0. cbn [courses with_courses] in Hc'.
    apply in_map_iff in Hc' as (c0 & <- & Hc0). cbn [string_strict_eq].
    destruct (String.eqb_spec (cId c0) (cId c)) as [E'|_].
    + assert (c0 = c)
        by (apply (NoDup_map_inj cId (courses w)); auto).
      subst c0. exact Hf.
    + apply (Hcons w c0); assumption.
  - apply (Hcons w0 c'); assumption.
Qed.

(** X18.  Through the handlers of its rows a state keeps its dates consistent.
    When the identifiers are unique, no date is an invalid date and no
    course starts after it ends, the same holds once the actions that
    [handleStartDateChange] or [handleEndDateChange] dispatched for a course
    of the state went through the reducer, whatever the date that the picker
    handed over. *)
Theorem row_handlers_keep_dates_consistent (host : Host) (s : CurriculumState)
    (w : Week) (c : Course) (date : option Date) :
  unique_ids s -> dates_consistent s ->
  In w (weeks s) -> In c (courses w) ->
  dates_consistent (dispatched s (handleStartDateChange host c (wId w) date))
  /\ dates_consistent (dispatched s (handleEndDateChange host c (wId w) date)).
Proof.
  intros Huniq Hcons Hw Hc.
  destruct (Hcons w c Hw Hc) as (Hs & He & Horder).
  rewrite handleStartDateChange_eq, handleEndDateChange_eq. split.
  - destruct (isValid (validateCourseDate host date (endDate c) true
                         startDateValidationOptions)) eqn:E;
      unfold dispatched; cbn [fold_left]; [|exact Hcons].
    apply start_validation in E. unfold start_date_passes in E.
    destruct date as [d|]; [|unfold curriculumReducer; cbn;
                              rewrite !orb_true_r; exact Hcons].
    destruct E as (t & -> & _ & Hend).
    change (mkAction SET_START_DATE
              (mkPayload (Some (wId w)) (Some (cId c)) (Some (DateAt t)) None))
      with (setStartDate (wId w) (cId c) (DateAt t)).
    rewrite (curriculumReducer_course_action s
               (setStartDate (wId w) (cId c) (DateAt t)) eq_refl).
    destruct (takes_noop_path _); [exact Hcons|].
    unfold setStartDate, setEndDate. cbn [payload weekId courseId].
    apply updateCourse_consistent; try assumption.
    unfold field_update, setStartDate. cbn [type_ payload date].
    unfold course_dates_consistent. cbn [startDate endDate with_startDate].
    split; [discriminate|]. split; [exact He|].
    intros a b Ea Eb. injection Ea as <-. rewrite Eb in Hend.
    destruct Hend as (u & Eu & Hle). injection Eu as <-. exact Hle.
  - destruct (isValid (validateCourseDate host date (startDate c) false
                         endDateValidationOptions)) eqn:E;
      unfold dispatched; cbn [fold_left]; [|exact Hcons].
    apply end_validation in E. unfold end_date_passes in E.
    destruct date as [d|]; [|unfold curriculumReducer; cbn;
                              rewrite !orb_true_r; exact Hcons].
    destruct E as (t & -> & Hstart).
    change (mkAction SET_END_DATE
              (mkPayload (Some (wId w)) (Some (cId c)) (Some (DateAt t)) None))
      with (setEndDate (wId w) (cId c) (DateAt t)).
    rewrite (curriculumReducer_course_action s
               (setEndDate (wId w) (cId c) (DateAt t)) eq_refl).
    destruct (takes_noop_path _); [exact Hcons|].
    unfold setStartDate, setEndDate. cbn [payload weekId courseId].
    apply updateCourse_consistent; try assumption.
    unfold field_update, setEndDate. cbn [type_ payload date].
    unfold course_dates_consistent. cbn [startDate endDate with_endDate].
    split; [exact Hs|]. split; [discriminate|].
    intros a b Ea Eb. injection Eb as <-. rewrite Ea in Hstart.
    destruct Hstart as (u & Eu & Hle). injection Eu as <-. exact Hle.
Qed.

Lemma sampleState_unique : unique_ids sampleState.
Proof.
  split.
  - cbn. repeat constructor; cbn; intuition discriminate.
  - intros w [<-|[<-|[]]]; cbn; repeat constructor; cbn; intuition discriminate.
Qed.

Lemma sampleState_consistent : dates_consistent sampleState.
Proof.
  intros w c Hw Hc.
  destruct Hw as [<-|[<-|[]]]; cbn in Hc.
  - destruct Hc as [<-|[<-|[]]]; (split; [discriminate|]); (split; [discriminate|]);
      intros a b Ea Eb; try discriminate.
    injection Ea as <-. injection Eb as <-. lia.
  - destruct Hc as [<-|[]]. split; [discriminate|]. split; [discriminate|].
    intros a b Ea Eb. discriminate.
Qed.

Lemma row_handlers_keep_dates_consistent_witness :
  dates_consistent
    (dispatched sampleState
       (handleStartDateChange sampleHost
          (mkCourse "1-2" "second" (Some jan20) None false) 1 (Some jan15)))
  /\ dates_consistent
       (dispatched sampleState
          (handleEndDateChange sampleHost
             (mkCourse "1-2" "second" (Some jan20) None false) 1 (Some jan15))).
Proof.
  apply (row_handlers_keep_dates_consistent sampleHost sampleState
           (mkWeek 1 "week 1"
              [mkCourse "1-1" "first" (Some jan15) (Some jan20) true;
               mkCourse "1-2" "second" (Some jan20) None false] 50)
           (mkCourse "1-2" "second" (Some jan20) None false) (Some jan15)).
  - exact sampleState_unique.
  - exact sampleState_consistent.
  - left. reflexivity.
  - right. left. reflexivity.
Defined.
(* --------------------------------------------------------------------- *)
(** ** Date picker                                                       *)
(* --------------------------------------------------------------------- *)

(** X19.  The change handler of the picker hands a date over to [onChange] only if
    the picker is not disabled, and then: no date for an empty input; or,
    for an input of the pattern [YYYY-MM-DD], the date that the engine reads
    in it at local midnight, which is not an invalid date and on which
    [validateDate] left no message. *)
Theorem picker_hands_over_valid_dates (engine : Engine) (host : Host)
    (props : DatePickerProps) (inputValue : string) (date : option Date) :
  In (OnChange date) (handleDateChange engine host props inputValue) ->
  pp_disabled props = false
  /\ match date with
     | None => inputValue = ""
     | Some d =>
         exists t, d = DateAt t
           /\ Date_of_string engine (inputValue ++ "T00:00:00") = DateAt t
           /\ matches_date_pattern inputValue = true
           /\ validateDateValue host props (Some d) = ""
     end.
Proof.
  unfold handleDateChange.
  destruct (pp_disabled props); [contradiction|]. intros H. split; [reflexivity|].
  destruct H as [H|H]; [discriminate|].
  destruct (String.eqb_spec inputValue "") as [->|Hne].
  - cbv zeta in H. apply in_app_or in H as [H|H].
    + destruct (negb _) in H; [destruct H as [H|[]]; discriminate | contradiction].
    + destruct H as [H|[]]. injection H as <-. reflexivity.
  - unfold isValidDateString, parseDateFromInput in H.
    destruct (String.eqb_spec inputValue "") as [|_]; [contradiction|].
    destruct (matches_date_pattern inputValue) eqn:Epat; cbn [negb] in H.
    2:{ destruct H as [H|[]]. discriminate. }
    cbv zeta in H.
    destruct (Date_of_string engine (inputValue ++ "T00:00:00")) as [|t] eqn:Eparse;
      cbn [isNaN_time getTime negb] in H.
    { destruct H as [H|[]]. discriminate. }
    destruct (String.eqb_spec (validateDateValue host props (Some (DateAt t))) "")
      as [Emsg|_]; cbn [negb] in H; destruct H as [H|[]]; [|discriminate].
    injection H as <-. exists t. auto.
Qed.

Lemma picker_hands_over_valid_dates_witness :
  pp_disabled startPicker = false
  /\ exists t, jan15 = DateAt t
       /\ Date_of_string utcEngine ("2024-01-15" ++ "T00:00:00") = DateAt t
       /\ matches_date_pattern "2024-01-15" = true
       /\ validateDateValue sampleHost startPicker (Some jan15) = "".
Proof.
  apply (picker_hands_over_valid_dates utcEngine sampleHost startPicker
           "2024-01-15" (Some jan15)).
  vm_compute. right. left. reflexivity.
Defined.

(** The picker decides on the message, not on the verdict: under a custom
    message that is the empty string, a date that [validateDate] rejects is
    handed over. *)
Example picker_with_an_empty_message :
  isValid (validateDate sampleHost (Some jan20) (pickerOptions silentPicker)) = false
  /\ handleDateChange utcEngine sampleHost silentPicker "2024-01-20"
     = [SetInternalError ""; OnChange (Some jan20)].
Proof. split; vm_compute; reflexivity. Qed.

(** *** What the picker shows is what it reads *)

Lemma string_app_nil_r (s : string) : s ++ "" = s.
Proof.
  induction s as [|c s IH]; [reflexivity|].
  change (String c (s ++ "") = String c s). now rewrite IH.
Qed.

Lemma pretty_N_char_digit (x : N) :
  (x < 10)%N -> pretty_N_char x = digit_char (Z.of_N x).
Proof.
  intros H.
  assert (C : (x = 0 \/ x = 1 \/ x = 2 \/ x = 3 \/ x = 4 \/ x = 5 \/ x = 6
               \/ x = 7 \/ x = 8 \/ x = 9)%N) by lia.
  repeat (destruct C as [->|C]; [reflexivity|]). subst. reflexivity.
Qed.

(** The decimal digits of a number of [w] digits are its last [w] digits. *)
Lemma pretty_N_go_pad (w : nat) (x : N) (s : string) :
  (x < 10 ^ N.of_nat w)%N -> (w = 0%nat \/ (10 ^ N.of_nat (w - 1) <= x)%N) ->
  pretty_N_go x s = pad w (Z.of_N x) ++ s.
Proof.
  revert x s. induction w as [|w IH]; intros x s Hlt Hge.
  - change (10 ^ N.of_nat 0)%N with 1%N in Hlt.
    assert (x = 0%N) by lia. subst x. reflexivity.
  - destruct Hge as [Hge|Hge]; [discriminate|].
    replace (S w - 1)%nat with w in Hge by lia.
    assert (Hpow : (10 ^ N.of_nat (S w) = 10 * 10 ^ N.of_nat w)%N).
    { rewrite Nat2N.inj_succ, N.pow_succ_r by lia. reflexivity. }
    assert (Hpos : (0 < 10 ^ N.of_nat w)%N).
    { apply N.neq_0_lt_0, N.pow_nonzero. discriminate. }
    rewrite pretty_N_go_step by lia.
    rewrite IH.
    + cbn [pad]. rewrite string_app_assoc.
      change (String (digit_char (Z.of_N x mod 10)) "" ++ s)
        with (String (digit_char (Z.of_N x mod 10)) s).
      rewrite pretty_N_char_digit by (apply N.mod_lt; discriminate).
      rewrite N2Z.inj_div, N2Z.inj_mod. reflexivity.
    + apply N.Div0.div_lt_upper_bound. lia.
    + destruct w as [|w]; [left; reflexivity|]. right.
      replace (S w - 1)%nat with w by lia.
      assert (Hpow' : (10 ^ N.of_nat (S w) = 10 * 10 ^ N.of_nat w)%N).
      { rewrite Nat2N.inj_succ, N.pow_succ_r by lia. reflexivity. }
      apply N.div_le_lower_bound; [discriminate | lia].
Qed.

Lemma pretty_four_digits (y : Z) : 1000 <= y <= 9999 -> pretty y = pad 4 y.
Proof.
  intros H. destruct y as [|p|p]; try lia.
  change (pretty (Z.pos p)) with (pretty (N.pos p)).
  unfold pretty, pretty_N. destruct (decide (N.pos p = 0%N)); [discriminate|].
  rewrite (pretty_N_go_pad 4 (N.pos p) ""); [apply string_app_nil_r | | right];
    change (N.of_nat 4) with 4%N; change (N.of_nat (4 - 1)) with 3%N; lia.
Qed.

Lemma two_digits_below_100 : two_digits_upto 99 = true.
Proof. vm_compute. reflexivity. Qed.

Lemma padStart_two_digits (n : Z) :
  0 <= n <= 99 -> padStart 2 "0" (pretty n) = pad 2 n.
Proof.
  intros H. pose proof two_digits_below_100 as Hall.
  unfold two_digits_upto in Hall. rewrite forallb_forall in Hall.
  specialize (Hall (Z.to_nat n)). rewrite Z2Nat.id in Hall by lia.
  apply String.eqb_eq, Hall, in_seq. lia.
Qed.

Lemma expect_hyphen (rest : string) : expect "-" ("-" ++ rest) = Some rest.
Proof. reflexivity. Qed.

(** A year, a month and a day written with four, two and two digits match
    the pattern of the picker. *)
Lemma matches_date_pattern_pad (y m d : Z) :
  0 <= y <= 9999 -> 0 <= m <= 99 -> 0 <= d <= 99 ->
  matches_date_pattern (pad 4 y ++ "-" ++ pad 2 m ++ "-" ++ pad 2 d) = true.
Proof.
  intros Hy Hm Hd. unfold matches_date_pattern.
  rewrite (fixed_digits_pad 4 y 0) by (change (10 ^ Z.of_nat 4) with 10000; lia).
  cbn [mbind option_bind]. rewrite expect_hyphen. cbn [mbind option_bind].
  rewrite (fixed_digits_pad 2 m 0) by (change (10 ^ Z.of_nat 2) with 100; lia).
  cbn [mbind option_bind]. rewrite expect_hyphen. cbn [mbind option_bind].
  rewrite <- (string_app_nil_r (pad 2 d)).
  rewrite (fixed_digits_pad 2 d 0) by (change (10 ^ Z.of_nat 2) with 100; lia).
  reflexivity.
Qed.

Lemma days_in_month_bound (y m : Z) : 28 <= days_in_month y m <= 31.
Proof.
  unfold days_in_month.
  destruct (m =? 2); [destruct (is_leap_year y); lia|].
  destruct ((m =? 4) || (m =? 6) || (m =? 9) || (m =? 11)); lia.
Qed.

(** The text of a date whose local year has four digits. *)
Lemma formatDateForInput_pad (engine : Engine) (t : Z) :
  let '(y, m, d) := local_date engine t in
  1000 <= y <= 9999 ->
  formatDateForInput engine (Some (DateAt t))
  = pad 4 y ++ "-" ++ pad 2 m ++ "-" ++ pad 2 d.
Proof.
  unfold formatDateForInput, getFullYear, getMonth, getDate.
  cbn [isNaN_time getTime]. unfold local_date.
  pose proof (civil_round_trip (LocalTime engine t / msPerDay)) as H.
  destruct (civil_from_days (LocalTime engine t / msPerDay)) as [[y m] d].
  destruct H as (_ & Hm & Hd & _). intros Hy. cbn [default from_option id].
  pose proof (days_in_month_bound y m).
  replace (m - 1 + 1) with m by lia.
  rewrite pretty_four_digits by exact Hy.
  rewrite !padStart_two_digits by lia. reflexivity.
Qed.

(** X20.  What the picker shows for a date, it accepts and reads as a date of the
    same local day: on an engine that reads the local dates, and for a date
    whose local year has four digits, the text of [formatDateForInput]
    passes [isValidDateString], and [parseDateFromInput] reads in it a date
    that [isSameDay] finds on the day of the first. *)
Theorem picker_reads_what_it_shows (engine : Engine) (t : Z) :
  reads_local_dates engine ->
  (let '(y, _, _) := local_date engine t in 1000 <= y <= 9999) ->
  let text := formatDateForInput engine (Some (DateAt t)) in
  isValidDateString engine text = true
  /\ exists d, parseDateFromInput engine text = Some d
       /\ isSameDay engine (DateAt t) d = true.
Proof.
  intros Hreads Hyear. cbv zeta.
  pose proof (formatDateForInput_pad engine t) as Htext.
  unfold local_date in *.
  pose proof (civil_round_trip (LocalTime engine t / msPerDay)) as Hcivil.
  destruct (civil_from_days (LocalTime engine t / msPerDay)) as [[y m] d].
  destruct Hcivil as (Hdays & Hm & Hd & _).
  rewrite (Htext Hyear). pose proof (days_in_month_bound y m) as Hdim.
  destruct (Hreads y m d ltac:(lia) Hm Hd) as (t' & Hparse & Hlocal).
  assert (Hpat : matches_date_pattern (pad 4 y ++ "-" ++ pad 2 m ++ "-" ++ pad 2 d)
                 = true) by (apply matches_date_pattern_pad; lia).
  assert (Hne : String.eqb (pad 4 y ++ "-" ++ pad 2 m ++ "-" ++ pad 2 d) "" = false).
  { destruct (pad_head 3 y ("-" ++ pad 2 m ++ "-" ++ pad 2 d)) as (c & s & -> & _).
    reflexivity. }
  assert (Happ : (pad 4 y ++ "-" ++ pad 2 m ++ "-" ++ pad 2 d) ++ "T00:00:00"
                 = pad 4 y ++ "-" ++ pad 2 m ++ "-" ++ pad 2 d ++ "T00:00:00")
    by now rewrite !string_app_assoc.
  unfold isValidDateString, parseDateFromInput.
  rewrite Hne, Hpat, Happ, Hparse. cbn [negb isNaN_time getTime].
  split; [reflexivity|]. exists (DateAt t'). split; [reflexivity|].
  assert (Hday : LocalTime engine t' / msPerDay = LocalTime engine t / msPerDay).
  { rewrite Hlocal, Z.div_mul by (unfold msPerDay; lia). exact Hdays. }
  unfold isSameDay, getFullYear, getMonth, getDate, local_date. rewrite Hday.
  destruct (civil_from_days (LocalTime engine t / msPerDay)) as [[y' m'] d'].
  cbn [number_eq]. now rewrite !Z.eqb_refl.
Qed.

(** The engine of the examples reads the local dates. *)
Lemma utcEngine_reads_local_dates : reads_local_dates utcEngine.
Proof.
  intros y m d Hy Hm Hd. exists (days_from_civil y m d * msPerDay).
  split; [|reflexivity]. pose proof (days_in_month_bound y m).
  unfold utcEngine, Date_of_string.
  rewrite (fixed_digits_pad 4 y 0) by (change (10 ^ Z.of_nat 4) with 10000; lia).
  cbn [mbind option_bind]. rewrite expect_hyphen. cbn [mbind option_bind].
  rewrite (fixed_digits_pad 2 m 0) by (change (10 ^ Z.of_nat 2) with 100; lia).
  cbn [mbind option_bind]. rewrite expect_hyphen. cbn [mbind option_bind].
  rewrite (fixed_digits_pad 2 d 0) by (change (10 ^ Z.of_nat 2) with 100; lia).
  cbn [mbind option_bind].
  replace (0 * 10 ^ Z.of_nat 4 + y) with y by lia.
  replace (0 * 10 ^ Z.of_nat 2 + m) with m by lia.
  replace (0 * 10 ^ Z.of_nat 2 + d) with d by lia.
  change (String.eqb "T00:00:00" "T00:00:00") with true. cbn [andb].
  destruct (Z.leb_spec 1 m); [|lia]. destruct (Z.leb_spec m 12); [|lia].
  destruct (Z.leb_spec 1 d); [|lia].
  destruct (Z.leb_spec d (days_in_month y m)); [|lia]. reflexivity.
Qed.

Lemma picker_reads_what_it_shows_witness :
  let text := formatDateForInput utcEngine (Some sampleNow) in
  isValidDateString utcEngine text = true
  /\ exists d, parseDateFromInput utcEngine text = Some d
       /\ isSameDay utcEngine sampleNow d = true.
Proof.
  apply (picker_reads_what_it_shows utcEngine 1706779800000).
  - exact utcEngine_reads_local_dates.
  - vm_compute. split; discriminate.
Defined.

(** Before the year 1000 the text that the picker shows has a year of fewer
    than four digits, which [isValidDateString] does not accept. *)
Example picker_before_the_year_1000 :
  formatDateForInput utcEngine (Some (DateAt (-30610310400000))) = "999-12-31"
  /\ isValidDateString utcEngine "999-12-31" = false.
Proof. split; vm_compute; reflexivity. Qed.
(* --------------------------------------------------------------------- *)
(** ** Persistence adapter: the store around the record                  *)
(* --------------------------------------------------------------------- *)

Lemma leaves_ret {A : Type} (a : A) : leaves_other_keys (ret a).
Proof. intros st k _ _. reflexivity. Qed.

Lemma leaves_throw {A : Type} (e : exn) : leaves_other_keys (@throw A e).
Proof. intros st k _ _. reflexivity. Qed.

Lemma leaves_bind {A B : Type} (m : M A) (k : A -> M B) :
  leaves_other_keys m -> (forall a, leaves_other_keys (k a)) ->
  leaves_other_keys (bind m k).
Proof.
  intros Hm Hk st key H1 H2. unfold bind.
  specialize (Hm st key H1 H2).
  destruct (m st) as [[a|e] st']; cbn [snd] in *.
  - rewrite (Hk a st' key H1 H2). exact Hm.
  - exact Hm.
Qed.

Lemma leaves_try_catch {A : Type} (m : M A) (handler : exn -> M A) :
  leaves_other_keys m -> (forall e, leaves_other_keys (handler e)) ->
  leaves_other_keys (try_catch m handler).
Proof.
  intros Hm Hh st key H1 H2. unfold try_catch.
  specialize (Hm st key H1 H2).
  destruct (m st) as [[a|e] st']; cbn [snd] in *.
  - exact Hm.
  - rewrite (Hh e st' key H1 H2). exact Hm.
Qed.

Lemma leaves_storage_op {A : Type}
    (act : gmap string string -> A * gmap string string) :
  (forall its k, k <> STORAGE_KEY -> k <> "__localStorage_test__" ->
                 snd (act its) !! k = its !! k) ->
  leaves_other_keys (storage_op act).
Proof.
  intros Hact [its fs] key H1 H2. unfold storage_op. cbn [failures items].
  specialize (Hact its key H1 H2).
  destruct fs as [|[e|] rest]; destruct (act its) as [a its']; exact Hact || reflexivity.
Qed.

Lemma leaves_setItem (key text : string) :
  key = STORAGE_KEY \/ key = "__localStorage_test__" ->
  leaves_other_keys (setItem key text).
Proof.
  intros Hkey. apply leaves_storage_op. intros its k H1 H2. cbn [snd].
  apply lookup_insert_ne. destruct Hkey; congruence.
Qed.

Lemma leaves_removeItem (key : string) :
  key = STORAGE_KEY \/ key = "__localStorage_test__" ->
  leaves_other_keys (removeItem key).
Proof.
  intros Hkey. apply leaves_storage_op. intros its k H1 H2. cbn [snd].
  apply lookup_delete_ne. destruct Hkey; congruence.
Qed.

Lemma leaves_getItem (key : string) : leaves_other_keys (getItem key).
Proof. apply leaves_storage_op. reflexivity. Qed.

Lemma leaves_or_throw {A : Type} (e : exn) (o : option A) :
  leaves_other_keys (or_throw e o).
Proof. destruct o; [apply leaves_ret | apply leaves_throw]. Qed.

Lemma leaves_probe : leaves_other_keys isLocalStorageAvailable.
Proof.
  unfold isLocalStorageAvailable. apply leaves_try_catch.
  - apply leaves_bind; [apply leaves_setItem; auto|]. intros _.
    apply leaves_bind; [apply leaves_removeItem; auto|]. intros _.
    apply leaves_ret.
  - intros e. apply leaves_ret.
Qed.

Ltac leaves :=
  repeat first
    [ apply leaves_ret | apply leaves_throw | apply leaves_probe
    | apply leaves_getItem | apply leaves_or_throw
    | apply leaves_setItem; auto | apply leaves_removeItem; auto
    | apply leaves_bind; [|intros ?]
    | apply leaves_try_catch; [|intros ?]
    | match goal with
      | |- leaves_other_keys (if ?b then _ else _) => destruct b
      | |- leaves_other_keys (match ?o with Some _ => _ | None => _ end) =>
          destruct o
      end ].

(** X21.  The adapter keeps to its keys: whatever the store holds and whichever of
    its operations fail, saving, loading, clearing and inspecting leave
    every item of the store as it is, except the record of the curriculum
    and the key of the availability probe. *)
Theorem adapter_keeps_to_its_keys (engine : Engine) (now : Date)
    (state seed : CurriculumState) :
  leaves_other_keys (saveCurriculumState now state)
  /\ leaves_other_keys (loadCurriculumState engine seed)
  /\ leaves_other_keys clearCurriculumState
  /\ leaves_other_keys getStorageInfo.
Proof.
  unfold saveCurriculumState, loadCurriculumState, clearCurriculumState,
    getStorageInfo.
  repeat split; leaves.
Qed.

(** The probe itself is not harmless: an item that the page keeps under the
    key of the probe is lost. *)
Example probe_deletes_its_key :
  items (snd (isLocalStorageAvailable
                (mkStorage {[ "__localStorage_test__" := "mine" ]} [])))
  !! "__localStorage_test__" = None.
Proof. reflexivity. Qed.
(* --------------------------------------------------------------------- *)
(** ** Persistence adapter: on any store                                 *)
(* --------------------------------------------------------------------- *)

(** Whatever fails, a state that [loadCurriculumState] returns is the
    overlay on the seed of a record that the store held, parsed and
    validated. *)
Lemma loadCurriculumState_some (engine : Engine) (seed s : CurriculumState)
    (st : storage) :
  fst (loadCurriculumState engine seed st) = Returned (Some s) ->
  exists text data,
    items st !! STORAGE_KEY = Some text /\ JSON_parse text = Some data
    /\ validateStoredData data = true
    /\ s = storedDataToCurriculumState engine data seed.
Proof.
  destruct st as [its fs]. unfold loadCurriculumState.
  destruct fs as [|[e0|] [|[e1|] [|[e2|] fs]]]; run_store;
    try discriminate;
    try (destruct fs as [|[e3|] fs]; cbn [fst]; discriminate).
  all: rewrite lookup_delete_ne, lookup_insert_ne by done.
  all: destruct (its !! STORAGE_KEY) as [text|]; cbn [falsy_text];
    try discriminate; change (default "" (Some text)) with text.
  all: destruct (String.eqb text ""); try discriminate.
  all: destruct (JSON_parse text) as [data|] eqn:Eparse; cbn [fst snd failures items].
  all: try destruct (validateStoredData data) eqn:Evalid; cbn [negb fst snd failures items].
  all: try destruct (strict_ne_string (get data "version") STORAGE_VERSION);
    cbn [fst snd failures items].
  all: repeat match goal with
              | |- context [match ?l with [] => _ | _ :: _ => _ end] =>
                  destruct l as [|[?|] ?]; cbn [fst snd failures items]
              end;
    try discriminate.
  all: intros H; injection H as <-; exists text, data; auto.
Qed.

Lemma catalog_storedDataToCurriculumState (engine : Engine) (data : value)
    (seed : CurriculumState) :
  catalog (storedDataToCurriculumState engine data seed) = catalog seed
  /\ map progress (weeks (storedDataToCurriculumState engine data seed))
     = map progress (weeks seed)
  /\ overallProgress (storedDataToCurriculumState engine data seed) = 0.
Proof.
  unfold catalog. rewrite storedDataToCurriculumState_weeks, !map_map.
  split; [|split; [|reflexivity]]; apply map_ext; intros w; cbv zeta;
    destruct (negb (truthy (get (get data "curriculum") (pretty (wId w)))));
    try reflexivity.
  cbn [wId title courses with_courses]. f_equal. rewrite map_map.
  apply map_ext. intros c. unfold overlayCourse.
  destruct (negb (truthy _)); reflexivity.
Qed.

(** X22.  Whatever the store holds, and whichever of its operations fail, a state
    that [loadCurriculumState] returns has the weeks and the courses of the
    initial state, with their identifiers, titles and names, in their order:
    a stored record adds, removes and renames nothing.  The percentages of
    its weeks are those of the initial state and its overall percentage is
    0: they are not recomputed. *)
Theorem load_keeps_the_catalog (engine : Engine) (seed s : CurriculumState)
    (st : storage) :
  fst (loadCurriculumState engine seed st) = Returned (Some s) ->
  catalog s = catalog seed
  /\ map progress (weeks s) = map progress (weeks seed)
  /\ overallProgress s = 0.
Proof.
  intros H. apply loadCurriculumState_some in H as (text & data & _ & _ & _ & ->).
  apply catalog_storedDataToCurriculumState.
Qed.

Lemma load_keeps_the_catalog_witness :
  catalog sampleLoaded = catalog sampleSeed
  /\ map progress (weeks sampleLoaded) = map progress (weeks sampleSeed)
  /\ overallProgress sampleLoaded = 0.
Proof.
  apply (load_keeps_the_catalog isoEngine sampleSeed sampleLoaded flakyStore).
  vm_compute. reflexivity.
Defined.

(** A store without the record loads nothing and reports no data, whichever
    of its operations fail. *)
Lemma loadCurriculumState_absent (engine : Engine) (seed : CurriculumState)
    (st : storage) :
  items st !! STORAGE_KEY = None ->
  fst (loadCurriculumState engine seed st) = Returned None.
Proof.
  destruct st as [its fs]. cbn [items]. intros Habsent.
  unfold loadCurriculumState.
  destruct fs as [|[e0|] [|[e1|] [|[e2|] fs]]]; run_store; try reflexivity.
  all: rewrite ?lookup_delete_ne, ?lookup_insert_ne, ?Habsent by done;
    cbn [falsy_text fst]; try reflexivity.
  all: repeat match goal with
              | |- context [match ?l with [] => _ | _ :: _ => _ end] =>
                  destruct l as [|[?|] ?]; cbn [fst snd failures items]
              end; reflexivity.
Qed.

Lemma getStorageInfo_absent (st : storage) :
  items st !! STORAGE_KEY = None ->
  fst (getStorageInfo st) = Returned noData.
Proof.
  destruct st as [its fs]. cbn [items]. intros Habsent.
  unfold getStorageInfo.
  destruct fs as [|[e0|] [|[e1|] [|[e2|] fs]]]; run_store; try reflexivity.
  all: rewrite ?lookup_delete_ne, ?lookup_insert_ne, ?Habsent by done;
    cbn [falsy_text fst]; reflexivity.
Qed.

(** X23.  After [clearCurriculumState] has returned [true] the record is gone:
    [loadCurriculumState] returns [null] and [getStorageInfo] reports no
    data, whichever operations of the store fail from then on. *)
Theorem clear_then_load (engine : Engine) (seed : CurriculumState) (st : storage) :
  fst (clearCurriculumState st) = Returned true ->
  let st' := snd (clearCurriculumState st) in
  items st' !! STORAGE_KEY = None
  /\ fst (loadCurriculumState engine seed st') = Returned None
  /\ fst (getStorageInfo st') = Returned noData.
Proof.
  intros Hclear. cbv zeta.
  assert (Hgone : items (snd (clearCurriculumState st)) !! STORAGE_KEY = None).
  { revert Hclear. destruct st as [its fs]. unfold clearCurriculumState.
    destruct fs as [|[e0|] [|[e1|] [|[e2|] fs]]]; run_store;
      try discriminate; intros _; apply lookup_delete_eq. }
  split; [exact Hgone|]. split.
  - now apply loadCurriculumState_absent.
  - now apply getStorageInfo_absent.
Qed.

Lemma clear_then_load_witness :
  let st' := snd (clearCurriculumState flakyStore) in
  items st' !! STORAGE_KEY = None
  /\ fst (loadCurriculumState isoEngine sampleSeed st') = Returned None
  /\ fst (getStorageInfo st') = Returned noData.
Proof.
  apply (clear_then_load isoEngine sampleSeed flakyStore). reflexivity.
Defined.

(** *** A state that does not serialize *)

Lemma storeCourses_unprintable (cs : list Course) (weekObj : list (string * value))
    (c : Course) :
  In c cs ->
  optional_iso (startDate c) = None \/ optional_iso (endDate c) = None ->
  storeCourses cs weekObj = None.
Proof.
  revert weekObj. induction cs as [|c0 cs IH]; intros weekObj Hin Hbad;
    [contradiction|].
  cbn [storeCourses]. unfold storedCourse.
  destruct Hin as [->|Hin].
  - destruct Hbad as [-> | ->]; [reflexivity|].
    destruct (optional_iso (startDate c)); reflexivity.
  - destruct (optional_iso (startDate c0)); [|reflexivity].
    destruct (optional_iso (endDate c0)); [|reflexivity].
    cbn [mbind option_bind]. now apply IH.
Qed.

Lemma storeWeeks_unprintable (ws : list Week) (curriculum : list (string * value))
    (w : Week) (c : Course) :
  In w ws -> In c (courses w) ->
  optional_iso (startDate c) = None \/ optional_iso (endDate c) = None ->
  storeWeeks ws curriculum = None.
Proof.
  revert curriculum. induction ws as [|w0 ws IH]; intros curriculum Hw Hc Hbad;
    [contradiction|].
  cbn [storeWeeks]. destruct Hw as [->|Hw].
  - now rewrite (storeCourses_unprintable (courses w) [] c Hc Hbad).
  - destruct (storeCourses (courses w0) []); [|reflexivity].
    cbn [mbind option_bind]. now apply (IH _ Hw Hc Hbad).
Qed.

(** X24.  A state that holds an invalid date cannot be saved: on every store
    [saveCurriculumState] returns [false], and the record that the store
    held stays as it was. *)
Theorem save_with_an_invalid_date (now : Date) (s : CurriculumState) (st : storage) :
  has_unprintable_date s ->
  fst (saveCurriculumState now s st) = Returned false
  /\ items (snd (saveCurriculumState now s st)) !! STORAGE_KEY
     = items st !! STORAGE_KEY.
Proof.
  intros (w & c & Hw & Hc & Hbad).
  assert (Hnone : curriculumStateToStoredData now s = None).
  { unfold curriculumStateToStoredData.
    now rewrite (storeWeeks_unprintable (weeks s) [] w c Hw Hc Hbad). }
  destruct st as [its fs]. unfold saveCurriculumState. rewrite Hnone.
  destruct fs as [|[e0|] [|[e1|] fs]]; run_store; cbn [error_name RangeError];
    try change (String.eqb "RangeError" "QuotaExceededError") with false;
    cbn [fst snd items failures];
    (split; [reflexivity|]);
    rewrite ?lookup_delete_ne, ?lookup_insert_ne by done; reflexivity.
Qed.

Lemma save_with_an_invalid_date_witness :
  fst (saveCurriculumState sampleNow brokenState flakyStore) = Returned false
  /\ items (snd (saveCurriculumState sampleNow brokenState flakyStore))
       !! STORAGE_KEY
     = items flakyStore !! STORAGE_KEY.
Proof.
  apply (save_with_an_invalid_date sampleNow brokenState flakyStore).
  exists (mkWeek 1 "week 1"
            [mkCourse "1-1" "first" None None true;
             mkCourse "1-2" "second" (Some InvalidDate) None false] 50),
         (mkCourse "1-2" "second" (Some InvalidDate) None false).
  split; [left; reflexivity|]. split; [right; left; reflexivity|].
  left. reflexivity.
Defined.

(* --------------------------------------------------------------------- *)
(** ** Persistence adapter: on a store whose operations go through       *)
(* --------------------------------------------------------------------- *)

(** X25.  After a save, [getStorageInfo] describes the record that was written:
    there is data, of the version of the adapter, last updated at the
    reading of the clock that the save took. *)
Theorem info_after_save (now : Date) (s : CurriculumState) (st : storage) :
  failures st = [] -> valid_date now -> dates_valid s -> unique_ids s ->
  let st' := snd (saveCurriculumState now s st) in
  exists info,
    fst (getStorageInfo st') = Returned info
    /\ hasData info = true
    /\ info_version info = Some (VStr STORAGE_VERSION)
    /\ info_lastUpdated info = (VStr <$> toISOString now)
    /\ info_lastUpdated info <> None.
Proof.
  destruct st as [its fs]. cbn [failures]. intros -> Hnow Hdates Huniq.
  cbv zeta. rewrite saveCurriculumState_healthy. unfold recordText.
  destruct (curriculumStateToStoredData_valid now s Hnow Hdates)
    as (iso & Hiso & Hrec & Hne).
  rewrite Hrec, Hiso.
  cbn [fmap option_fmap option_map snd].
  rewrite getStorageInfo_healthy, lookup_insert_eq.
  set (record := VObj [("version", VStr STORAGE_VERSION);
                       ("lastUpdated", VStr iso);
                       ("curriculum", VObj (storedCurriculum (weeks s)))]).
  assert (Htext : String.eqb (JSON_stringify record) "" = false) by reflexivity.
  rewrite Htext.
  rewrite JSON_parse_stringify;
    [|apply plain_record; assumption | discriminate].
  unfold record. rewrite jsonify_record.
  eexists. split; [reflexivity|]. cbn [hasData info_version info_lastUpdated].
  repeat split. discriminate.
Qed.

Lemma sampleNow_valid : valid_date sampleNow.
Proof. exists 1706779800000. split; [reflexivity | vm_compute; discriminate]. Qed.

Lemma sampleState_dates_valid : dates_valid sampleState.
Proof.
  intros w c Hw Hc.
  assert (Hjan15 : valid_date jan15)
    by (eexists; split; [reflexivity | vm_compute; discriminate]).
  assert (Hjan20 : valid_date jan20)
    by (eexists; split; [reflexivity | vm_compute; discriminate]).
  destruct Hw as [<-|[<-|[]]]; cbn in Hc.
  - destruct Hc as [<-|[<-|[]]]; split; cbn; auto.
  - destruct Hc as [<-|[]]; split; cbn; auto.
Qed.

Lemma info_after_save_witness :
  let st' := snd (saveCurriculumState sampleNow sampleState emptyStore) in
  exists info,
    fst (getStorageInfo st') = Returned info
    /\ hasData info = true
    /\ info_version info = Some (VStr STORAGE_VERSION)
    /\ info_lastUpdated info = (VStr <$> toISOString sampleNow)
    /\ info_lastUpdated info <> None.
Proof.
  apply (info_after_save sampleNow sampleState emptyStore).
  - reflexivity.
  - exact sampleNow_valid.
  - exact sampleState_dates_valid.
  - exact sampleState_unique.
Defined.

(** X26.  Loading is idempotent: on a store whose operations go through, a second
    [loadCurriculumState] returns what the first returned; and a load that
    returns a state leaves the record as it was. *)
Theorem load_twice (engine : Engine) (seed : CurriculumState) (st : storage) :
  failures st = [] ->
  let first := loadCurriculumState engine seed st in
  fst (loadCurriculumState engine seed (snd first)) = fst first
  /\ (fst first <> Returned None ->
      items (snd first) !! STORAGE_KEY = items st !! STORAGE_KEY).
Proof.
  destruct st as [its fs]. cbn [failures items]. intros ->. cbv zeta.
  rewrite loadCurriculumState_healthy.
  destruct (its !! STORAGE_KEY) as [text|] eqn:Erec.
  2:{ cbn [fst snd items]. rewrite loadCurriculumState_healthy, probed_record, Erec.
      split; [reflexivity | congruence]. }
  destruct (String.eqb text "") eqn:Eempty.
  { cbn [fst snd items].
    rewrite loadCurriculumState_healthy, probed_record, Erec, Eempty.
    split; [reflexivity | congruence]. }
  destruct (JSON_parse text) as [data|] eqn:Eparse.
  2:{ cbn [fst snd items].
      rewrite loadCurriculumState_healthy, lookup_delete_eq.
      split; [reflexivity | congruence]. }
  destruct (validateStoredData data
            && negb (strict_ne_string (get data "version") STORAGE_VERSION))
    eqn:Eok; cbn [fst snd items].
  - rewrite loadCurriculumState_healthy, !probed_record, Erec, Eempty, Eparse, Eok.
    split; [reflexivity|]. intros _. reflexivity.
  - rewrite loadCurriculumState_healthy, lookup_delete_eq.
    split; [reflexivity | congruence].
Qed.

Lemma load_twice_witness :
  let first := loadCurriculumState isoEngine sampleSeed
                 (storeWith (default "" (recordText sampleNow sampleState))) in
  fst (loadCurriculumState isoEngine sampleSeed (snd first)) = fst first
  /\ (fst first <> Returned None ->
      items (snd first) !! STORAGE_KEY
      = items (storeWith (default "" (recordText sampleNow sampleState)))
          !! STORAGE_KEY).
Proof.
  apply (load_twice isoEngine sampleSeed
           (storeWith (default "" (recordText sampleNow sampleState)))).
  reflexivity.
Defined.
(* --------------------------------------------------------------------- *)
(** ** Provider: what a refresh of the page restores                     *)
(* --------------------------------------------------------------------- *)

(** Two lists with the same keys, left to right, are mapped to the same list
    by two functions that agree on elements of the same key. *)
Lemma map_eq_by_key {A B K C : Type} (key1 : A -> K) (key2 : B -> K)
    (f : A -> C) (g : B -> C) (l1 : list A) (l2 : list B) :
  map key1 l1 = map key2 l2 ->
  (forall a b, In b l2 -> key1 a = key2 b -> f a = g b) ->
  map f l1 = map g l2.
Proof.
  revert l2. induction l1 as [|a l1 IH]; intros [|b l2] Hkeys Hfg;
    try discriminate; [reflexivity|].
  cbn in Hkeys. injection Hkeys as Hk Hks. cbn [map]. f_equal.
  - apply Hfg; [left; reflexivity | exact Hk].
  - apply IH; [exact Hks|]. intros a' b' Hin. apply Hfg. right. exact Hin.
Qed.

Lemma overlayCourse_names (engine : Engine) (weekData : value) (c0 : Course) :
  cId (overlayCourse engine weekData c0) = cId c0
  /\ cName (overlayCourse engine weekData c0) = cName c0.
Proof. unfold overlayCourse. destruct (negb (truthy _)); split; reflexivity. Qed.

(** The overlay of the record of [s] on an initial state with the catalog of
    [s] has the weeks of [s], but for their percentages. *)
Lemma overlay_weeks (engine : Engine) (lastUpdated : string)
    (s initial : CurriculumState) :
  reads_iso_strings engine ->
  unique_ids s -> no_proto_id s -> dates_valid s -> catalog initial = catalog s ->
  map (fun w => (wId w, title w, courses w))
      (weeks (storedDataToCurriculumState engine (readRecord lastUpdated s) initial))
  = map (fun w => (wId w, title w, courses w)) (weeks s).
Proof.
  intros Hengine Huniq Hproto Hdates Hcat.
  rewrite storedDataToCurriculumState_weeks, map_map.
  apply (map_eq_by_key
           (fun w => (wId w, title w, map (fun c => (cId c, cName c)) (courses w)))
           (fun w => (wId w, title w, map (fun c => (cId c, cName c)) (courses w))));
    [exact Hcat|].
  intros w0 w Hw Hkey. injection Hkey as Hid Htitle Hcourses. cbv zeta.
  rewrite Hid, (readRecord_week lastUpdated s w Huniq Hw).
  rewrite jsonify_storedWeekObject.
  cbv beta iota delta [truthy negb].
  cbn [wId title courses with_courses]. rewrite Hid, Htitle.
  f_equal.
  rewrite <- (map_id (courses w)) at 2.
  apply (map_eq_by_key (fun c => (cId c, cName c)) (fun c => (cId c, cName c)));
    [exact Hcourses|].
  intros c0 c Hc Hckey. injection Hckey as Hcid Hcname.
  pose proof (overlayCourse_fields engine lastUpdated s w c c0 Hengine Huniq
                Hproto Hdates Hw Hc Hcid) as (_ & _ & Hfields).
  cbv zeta in Hfields.
  rewrite (readRecord_week lastUpdated s w Huniq Hw), jsonify_storedWeekObject
    in Hfields.
  destruct (overlayCourse_names engine
              (VObj (jsonify_fields
                       (assign_all
                          (map (fun c => (cId c, storedCourseObject c)) (courses w))
                          []))) c0) as [Hi Hn].
  destruct Hfields as (Hcompleted & Hstart & Hend).
  destruct (overlayCourse _ _ c0) as [i n sd ed done].
  destruct c as [i' n' sd' ed' done']. cbn in *. congruence.
Qed.

Lemma updateAllProgress_by_courses (s s' : CurriculumState) :
  map (fun w => (wId w, title w, courses w)) (weeks s)
  = map (fun w => (wId w, title w, courses w)) (weeks s') ->
  updateAllProgress s = updateAllProgress s'.
Proof.
  intros H. apply updateAllProgress_ext.
  apply (map_eq_by_key (fun w => (wId w, title w, courses w))
           (fun w => (wId w, title w, courses w))); [exact H|].
  intros w w' _ Hkey. injection Hkey as Hid Htitle Hcourses.
  unfold with_progress. now rewrite Hid, Htitle, Hcourses.
Qed.

(** What the provider holds after a refresh of the page that follows the
    save of [s]. *)
Lemma refresh_after_save (engine : Engine) (now : Date)
    (s initial : CurriculumState) (st : storage) :
  failures st = [] -> reads_iso_strings engine -> valid_date now ->
  dates_valid s -> unique_ids s -> no_proto_id s ->
  catalog initial = catalog s -> hasProgressData s = true ->
  let saved := snd (saveOnChange now s st) in
  failures saved = []
  /\ fst (loadOnMount engine initial initial saved)
     = Returned (updateAllProgress s).
Proof.
  destruct st as [its fs]. cbn [failures].
  intros -> Hengine Hnow Hdates Huniq Hproto Hcat Hdata.
  cbv zeta.
  destruct (curriculumStateToStoredData_valid now s Hnow Hdates)
    as (lastUpdated & _ & Hrec & Hne).
  set (record := VObj [("version", VStr STORAGE_VERSION);
                       ("lastUpdated", VStr lastUpdated);
                       ("curriculum", VObj (storedCurriculum (weeks s)))]) in *.
  assert (Hsaved : saveOnChange now s (mkStorage its [])
                   = (Returned tt,
                      mkStorage (<[STORAGE_KEY := JSON_stringify record]> (probed its))
                                [])).
  { unfold saveOnChange. rewrite Hdata.
    unfold try_catch, bind. rewrite saveCurriculumState_healthy.
    unfold recordText. rewrite Hrec. reflexivity. }
  rewrite Hsaved. cbn [snd failures]. split; [reflexivity|].
  unfold loadOnMount, try_catch at 1, bind at 1.
  rewrite loadCurriculumState_healthy. cbn [items].
  rewrite lookup_insert_eq.
  assert (Htext : String.eqb (JSON_stringify record) "" = false) by reflexivity.
  rewrite Htext.
  rewrite JSON_parse_stringify;
    [|apply plain_record; assumption | discriminate].
  unfold record. rewrite jsonify_record.
  destruct (readRecord_valid lastUpdated s Hne Hdates) as [-> ->].
  cbn [andb negb fst ret]. f_equal.
  unfold curriculumReducer. cbn [type_ payload data].
  apply updateAllProgress_by_courses, overlay_weeks; assumption.
Qed.

(** X27.  A refresh of the page restores the state.  On a store whose operations
    go through and an engine whose [Date] constructor reads back the strings
    of [toISOString], for a state [s] with unique identifiers, none of them
    ["__proto__"], with valid dates and percentages up to date, that holds
    some progress and has the catalog of the initial state: once the effect
    that follows a change of state has saved [s], the effect that runs on
    mount leaves a fresh provider with the state [s] itself. *)
Theorem refresh_restores_the_state (engine : Engine) (now : Date)
    (s initial : CurriculumState) (st : storage) :
  failures st = [] -> reads_iso_strings engine -> valid_date now ->
  dates_valid s -> unique_ids s -> no_proto_id s ->
  catalog initial = catalog s -> hasProgressData s = true ->
  updateAllProgress s = s ->
  fst (loadOnMount engine initial initial (snd (saveOnChange now s st)))
  = Returned s.
Proof.
  intros Hst Hengine Hnow Hdates Huniq Hproto Hcat Hdata Hfresh.
  destruct (refresh_after_save engine now s initial st Hst Hengine Hnow Hdates
              Huniq Hproto Hcat Hdata) as [_ H].
  cbv zeta in H. now rewrite H, Hfresh.
Qed.

Lemma sampleState_no_proto : no_proto_id sampleState.
Proof.
  intros w c [<-|[<-|[]]]; cbn; intros Hc;
    repeat (destruct Hc as [<-|Hc]; [discriminate|]); destruct Hc.
Qed.

Lemma refresh_restores_the_state_witness :
  fst (loadOnMount isoEngine sampleSeed sampleSeed
         (snd (saveOnChange sampleNow sampleState emptyStore)))
  = Returned sampleState.
Proof.
  apply (refresh_restores_the_state isoEngine sampleNow sampleState sampleSeed
           emptyStore).
  - reflexivity.
  - exact isoEngine_reads_iso_strings.
  - exact sampleNow_valid.
  - exact sampleState_dates_valid.
  - exact sampleState_unique.
  - exact sampleState_no_proto.
  - reflexivity.
  - reflexivity.
  - vm_compute. reflexivity.
Defined.

(** X28.  A reset is not persisted.  The effect that follows a change of state
    saves nothing when no course of the new state is completed or dated: the
    store is not touched, the record of the state before stays, and a
    refresh of the page brings that state back, under the conditions under
    which a refresh restores a state. *)
Theorem a_reset_is_not_persisted (engine : Engine) (now later : Date)
    (s reset initial : CurriculumState) (st : storage) :
  failures st = [] -> reads_iso_strings engine -> valid_date now ->
  dates_valid s -> unique_ids s -> no_proto_id s ->
  catalog initial = catalog s -> hasProgressData s = true ->
  updateAllProgress s = s ->
  hasProgressData reset = false ->
  let saved := snd (saveOnChange now s st) in
  let afterReset := snd (saveOnChange later reset saved) in
  afterReset = saved
  /\ fst (loadOnMount engine initial initial afterReset) = Returned s.
Proof.
  intros Hst Hengine Hnow Hdates Huniq Hproto Hcat Hdata Hfresh Hreset. cbv zeta.
  assert (Hskip : forall st', saveOnChange later reset st' = (Returned tt, st')).
  { intros st'. unfold saveOnChange. now rewrite Hreset. }
  rewrite Hskip. cbn [snd]. split; [reflexivity|].
  destruct (refresh_after_save engine now s initial st Hst Hengine Hnow Hdates
              Huniq Hproto Hcat Hdata) as [_ H].
  cbv zeta in H. now rewrite H, Hfresh.
Qed.

Lemma oneDoneState_unique : unique_ids oneDoneState.
Proof.
  split.
  - cbn. repeat constructor; cbn; intuition discriminate.
  - intros w [<-|[<-|[]]]; cbn; repeat constructor; cbn; intuition discriminate.
Qed.

Lemma oneDoneState_dates_valid : dates_valid oneDoneState.
Proof.
  intros w c Hw Hc.
  destruct Hw as [<-|[<-|[]]]; cbn in Hc.
  - destruct Hc as [<-|[<-|[]]]; split; exact I.
  - destruct Hc as [<-|[]]; split; exact I.
Qed.

Lemma oneDoneState_no_proto : no_proto_id oneDoneState.
Proof.
  intros w c [<-|[<-|[]]]; cbn; intros Hc;
    repeat (destruct Hc as [<-|Hc]; [discriminate|]); destruct Hc.
Qed.

Lemma a_reset_is_not_persisted_witness :
  let saved := snd (saveOnChange sampleNow oneDoneState emptyStore) in
  let afterReset := snd (saveOnChange sampleNow noneDoneState saved) in
  afterReset = saved
  /\ fst (loadOnMount isoEngine sampleSeed sampleSeed afterReset)
     = Returned oneDoneState.
Proof.
  apply (a_reset_is_not_persisted isoEngine sampleNow sampleNow oneDoneState
           noneDoneState sampleSeed emptyStore).
  - reflexivity.
  - exact isoEngine_reads_iso_strings.
  - exact sampleNow_valid.
  - exact oneDoneState_dates_valid.
  - exact oneDoneState_unique.
  - exact oneDoneState_no_proto.
  - reflexivity.
  - reflexivity.
  - vm_compute. reflexivity.
  - vm_compute. reflexivity.
Defined.

(* --------------------------------------------------------------------- *)
(** ** Progress bar                                                      *)
(* --------------------------------------------------------------------- *)

Lemma length_courses_le (ws : list Week) (w : Week) :
  In w ws -> (length (courses w) <= length (concat (map courses ws)))%nat.
Proof.
  induction ws as [|w0 ws IH]; [contradiction|].
  cbn [map concat]. rewrite length_app. intros [->|Hin]; [lia|].
  specialize (IH Hin). lia.
Qed.

(** X29.  With fewer than two hundred courses in all, the percentages that a
    recomputation leaves in a state are numbers from 0 to 100, and the
    progress bar shows them as they are: its clamp changes none of them. *)
Theorem progress_bar_shows_the_percentage (s : CurriculumState) :
  (length (concat (map courses (weeks s))) < 200)%nat ->
  let s' := updateAllProgress s in
  (forall w, In w (weeks s') ->
     0 <= progress w <= 100 /\ normalizedProgress (progress w) = progress w)
  /\ 0 <= overallProgress s' <= 100
  /\ normalizedProgress (overallProgress s') = overallProgress s'.
Proof.
  intros Hlen. cbv zeta.
  assert (Hclamp : forall p, 0 <= p <= 100 -> normalizedProgress p = p)
    by (intros p Hp; unfold normalizedProgress; lia).
  split.
  - intros w' Hw'. rewrite updateAllProgress_weeks in Hw'.
    apply in_map_iff in Hw' as (w & <- & Hw). cbn [progress with_progress].
    pose proof (length_courses_le (weeks s) w Hw) as Hle.
    destruct (calculateWeekProgress_extremes w ltac:(lia)) as (Hr & _).
    cbv zeta in Hr. split; [exact Hr | now apply Hclamp].
  - rewrite updateAllProgress_overall.
    destruct (calculateWeekProgress_extremes
                (mkWeek 0 "" (concat (map courses (weeks s))) 0) Hlen) as (Hr & _).
    cbv zeta in Hr. cbn [courses] in Hr. split; [exact Hr | now apply Hclamp].
Qed.

Lemma progress_bar_shows_the_percentage_witness :
  let s' := updateAllProgress staleState in
  (forall w, In w (weeks s') ->
     0 <= progress w <= 100 /\ normalizedProgress (progress w) = progress w)
  /\ 0 <= overallProgress s' <= 100
  /\ normalizedProgress (overallProgress s') = overallProgress s'.
Proof.
  apply (progress_bar_shows_the_percentage staleState). cbn. lia.
Defined.
